(** * nhncloud-sdk-go: tolerant JSON decoding of routing tables and
      internet gateways

    A shallow embedding of
    [openstack/networking/v2/extensions/layer3/routingtables/results.go],
    [openstack/networking/v2/extensions/layer3/internetgateways/results.go]
    and [openstack/errors.go], together with the parts of Go's [encoding/json], [strings] and [time]
    packages that those files call.

    Conventions.
    - A Go [string] or [[]byte] is a [string] (a sequence of bytes).
    - A JSON document handed to [json.Unmarshal] is the value it denotes
      ([json]); where the code inspects the bytes themselves
      ([NHNCloudTime.UnmarshalJSON]) it receives [rawText], the compact text
      that [json.Marshal] writes for that value.
    - A Go function returning [(T, error)] returns [result T].
    - A [time.Time] is an instant (seconds since 0001-01-01 00:00:00 UTC and
      nanoseconds) together with the UTC offset of its location. *)

From Stdlib Require Import ZArith List String Ascii Bool Lia.
Import ListNotations.
Open Scope string_scope.
Open Scope Z_scope.


Set Warnings "-register-all".

(** ** Errors and results *)

(** What went wrong inside [time.Parse]. *)
Inductive parse_fault : Type :=
| errBad
| outOfRange (what : string)
| extraText (rest : string)
| dayOutOfRange.

(** Go [error] values that the modelled code produces or passes on. *)
Inductive error : Type :=
| ErrOther (msg : string)
| UnmarshalTypeError
| SyntaxError
| ParseError (value : string) (fault : parse_fault)
| Errorf (format : string) (arg : string) (cause : error).

Inductive result (A : Type) : Type :=
| Ok (a : A)
| Err (e : error).
Arguments Ok {A} a.
Arguments Err {A} e.

Definition bind {A B} (r : result A) (k : A -> result B) : result B :=
  match r with
  | Ok a => k a
  | Err e => Err e
  end.

Declare Scope result_scope.
Delimit Scope result_scope with result.
Notation "x <- r ;; k" := (bind r (fun x => k))
  (at level 61, r at next level, right associativity) : result_scope.
Notation "' p <- r ;; k" := (bind r (fun x => let p := x in k))
  (at level 61, p pattern, r at next level, right associativity) : result_scope.
Open Scope result_scope.

Definition is_ok {A} (r : result A) : bool :=
  match r with Ok _ => true | Err _ => false end.

(** ** Bytes and strings *)

Definition byte_val (c : ascii) : Z := Z.of_N (N_of_ascii c).

Definition isDigitChar (c : ascii) : bool :=
  (48 <=? byte_val c) && (byte_val c <=? 57).

Definition digit_val (c : ascii) : Z := byte_val c - 48.

Definition digit_char (k : Z) : ascii := ascii_of_N (Z.to_N (48 + k)).

Definition quote : ascii := Ascii false true false false false true false false.
Definition backslash : ascii := Ascii false false true true true false true false.

Fixpoint drop (n : nat) (s : string) : string :=
  match n, s with
  | O, _ => s
  | S n', String _ s' => drop n' s'
  | S _, EmptyString => EmptyString
  end.

Fixpoint take (n : nat) (s : string) : string :=
  match n, s with
  | O, _ => EmptyString
  | S n', String c s' => String c (take n' s')
  | S _, EmptyString => EmptyString
  end.

Definition len (s : string) : Z := Z.of_nat (String.length s).

(** [strings.TrimLeft(s, cutset)] for a one-byte cutset. *)
Fixpoint TrimLeft (s : string) (c : ascii) : string :=
  match s with
  | String a s' => if Ascii.eqb a c then TrimLeft s' c else s
  | EmptyString => EmptyString
  end.

(** [strings.TrimRight(s, cutset)] for a one-byte cutset: a byte goes when
    it is the cutset byte and everything after it went. *)
Fixpoint TrimRight (s : string) (c : ascii) : string :=
  match s with
  | String a s' =>
      match TrimRight s' c with
      | EmptyString => if Ascii.eqb a c then EmptyString else String a EmptyString
      | r => String a r
      end
  | EmptyString => EmptyString
  end.

(** [strings.Trim(s, cutset)] for a one-byte cutset: all leading and all
    trailing occurrences of the byte are removed. *)
Definition Trim (s : string) (c : ascii) : string :=
  TrimRight (TrimLeft s c) c.

(** ** The calendar behind [time.Date] and [Time.Format]

    Days are counted from 0001-01-01 (day 0) in the proleptic Gregorian
    calendar, as Go's absolute time does. *)

Definition isLeap (year : Z) : bool :=
  (year mod 4 =? 0) && (negb (year mod 100 =? 0) || (year mod 400 =? 0)).

Definition daysIn (month year : Z) : Z :=
  if month =? 2 then (if isLeap year then 29 else 28)
  else if (month =? 4) || (month =? 6) || (month =? 9) || (month =? 11) then 30
  else 31.

(** Day of the 400-year era (starting on 1 March) of a date whose
    March-based year of era is [yoe]. *)
Definition doe_of (yoe month day : Z) : Z :=
  let mp := if 2 <? month then month - 3 else month + 9 in
  let doy := (153 * mp + 2) / 5 + day - 1 in
  yoe * 365 + yoe / 4 - yoe / 100 + doy.

Definition daysSinceEpoch (year month day : Z) : Z :=
  let y := if month <=? 2 then year - 1 else year in
  let era := y / 400 in
  let yoe := y - era * 400 in
  era * 146097 + doe_of yoe month day - 306.

(** Inverse direction on one era: March-based year of era, month, day. *)
Definition of_doe (doe : Z) : Z * Z * Z :=
  let yoe := (doe - doe / 1460 + doe / 36524 - doe / 146096) / 365 in
  let doy := doe - (365 * yoe + yoe / 4 - yoe / 100) in
  let mp := (5 * doy + 2) / 153 in
  let d := doy - (153 * mp + 2) / 5 + 1 in
  let m := if mp <? 10 then mp + 3 else mp - 9 in
  (yoe, m, d).

Definition civil (days : Z) : Z * Z * Z :=
  let z := days + 306 in
  let era := z / 146097 in
  let doe := z - era * 146097 in
  let '(yoe, m, d) := of_doe doe in
  let y := yoe + era * 400 in
  (if m <=? 2 then y + 1 else y, m, d).

(** ** [time.Time] *)

Record Time : Type := mkTime {
  t_sec : Z;      (* seconds since 0001-01-01 00:00:00 UTC *)
  t_nsec : Z;     (* nanoseconds within the second *)
  t_offset : Z    (* seconds east of UTC of the time's location *)
}.

(** The zero [Time]: 0001-01-01 00:00:00 UTC. *)
Definition zeroTime : Time := mkTime 0 0 0.

(** [Time.IsZero] looks at the instant only, not at the location. *)
Definition IsZero (t : Time) : bool :=
  (t_sec t =? 0) && (t_nsec t =? 0).

(** [time.Date] for fields that are already in range (the only way the
    parser calls it), in a location [offset] seconds east of UTC. *)
Definition Date (year month day hour min sec nsec offset : Z) : Time :=
  mkTime (daysSinceEpoch year month day * 86400
          + hour * 3600 + min * 60 + sec - offset)
         nsec offset.

(** ** Layouts

    [nextStdChunk] cuts a layout string into literal text and reference
    elements.  The layouts of this repository use the elements below; each
    layout constant is written as its sequence of chunks. *)

Inductive chunk : Type :=
| lit (text : string)
| stdLongYear                     (* 2006 *)
| stdZeroMonth                    (* 01 *)
| stdZeroDay                      (* 02 *)
| stdHour                         (* 15 *)
| stdZeroMinute                   (* 04 *)
| stdZeroSecond                   (* 05 *)
| stdFracSecond0 (digits : nat)   (* .000 with that many zeros *)
| stdISO8601ColonTZ.              (* Z07:00 *)

Definition layout := list chunk.

(** "2006-01-02 15:04:05" *)
Definition layout_space : layout :=
  [stdLongYear; lit "-"; stdZeroMonth; lit "-"; stdZeroDay; lit " ";
   stdHour; lit ":"; stdZeroMinute; lit ":"; stdZeroSecond].

(** "2006-01-02T15:04:05" *)
Definition layout_T : layout :=
  [stdLongYear; lit "-"; stdZeroMonth; lit "-"; stdZeroDay; lit "T";
   stdHour; lit ":"; stdZeroMinute; lit ":"; stdZeroSecond].

(** "2006-01-02T15:04:05Z": a Z that is not followed by 07 is literal text. *)
Definition layout_TZ : layout :=
  [stdLongYear; lit "-"; stdZeroMonth; lit "-"; stdZeroDay; lit "T";
   stdHour; lit ":"; stdZeroMinute; lit ":"; stdZeroSecond; lit "Z"].

(** "2006-01-02T15:04:05Z07:00" *)
Definition layout_RFC3339 : layout :=
  [stdLongYear; lit "-"; stdZeroMonth; lit "-"; stdZeroDay; lit "T";
   stdHour; lit ":"; stdZeroMinute; lit ":"; stdZeroSecond;
   stdISO8601ColonTZ].

(** "2006-01-02 15:04:05.000000" *)
Definition layout_space_micro : layout :=
  [stdLongYear; lit "-"; stdZeroMonth; lit "-"; stdZeroDay; lit " ";
   stdHour; lit ":"; stdZeroMinute; lit ":"; stdZeroSecond;
   stdFracSecond0 6].

(** "2006-01-02T15:04:05.000000Z" *)
Definition layout_TZ_micro : layout :=
  [stdLongYear; lit "-"; stdZeroMonth; lit "-"; stdZeroDay; lit "T";
   stdHour; lit ":"; stdZeroMinute; lit ":"; stdZeroSecond;
   stdFracSecond0 6; lit "Z"].

(** ** [time.Parse] *)

Definition isDigit (s : string) (i : nat) : bool :=
  match String.get i s with
  | Some c => isDigitChar c
  | None => false
  end.

Definition commaOrPeriod (c : ascii) : bool :=
  Ascii.eqb c "." || Ascii.eqb c ",".

(** [leadingInt]: the leading decimal digits and the rest.  (The overflow
    exit is not modelled: every caller passes at most nine bytes.) *)
Fixpoint leadingInt (s : string) (x : Z) : Z * string :=
  match s with
  | String c s' =>
      if isDigitChar c then leadingInt s' (x * 10 + digit_val c) else (x, s)
  | EmptyString => (x, s)
  end.

Definition atoi (s : string) : result Z :=
  let '(neg, s1) :=
    match s with
    | String c s' =>
        if Ascii.eqb c "-" then (true, s')
        else if Ascii.eqb c "+" then (false, s')
        else (false, s)
    | EmptyString => (false, s)
    end in
  let '(q, rem) := leadingInt s1 0 in
  match rem with
  | EmptyString => Ok (if neg then - q else q)
  | String _ _ => Err (ParseError s errBad)
  end.

(** [getnum]: one or two digits; exactly two when [fixed]. *)
Definition getnum (s : string) (fixed : bool) : result (Z * string) :=
  match s with
  | String c0 s1 =>
      if isDigitChar c0 then
        match s1 with
        | String c1 s2 =>
            if isDigitChar c1
            then Ok (digit_val c0 * 10 + digit_val c1, s2)
            else if fixed then Err (ParseError s errBad)
                 else Ok (digit_val c0, s1)
        | EmptyString =>
            if fixed then Err (ParseError s errBad) else Ok (digit_val c0, s1)
        end
      else Err (ParseError s errBad)
  | EmptyString => Err (ParseError s errBad)
  end.

Fixpoint cutspace (s : string) : string :=
  match s with
  | String c s' => if Ascii.eqb c " " then cutspace s' else s
  | EmptyString => EmptyString
  end.

(** [skip value prefix]: the literal text of the layout must lead the value;
    a run of spaces in the layout matches any run of spaces in the value.
    [fuel] bounds the loop by the length of the prefix. *)
Fixpoint skip_loop (fuel : nat) (value prefix : string) : result string :=
  match prefix with
  | EmptyString => Ok value
  | String p prefix' =>
      match fuel with
      | O => Err (ParseError value errBad)
      | S fuel' =>
          if Ascii.eqb p " " then
            match value with
            | String v _ =>
                if Ascii.eqb v " "
                then skip_loop fuel' (cutspace value) (cutspace prefix)
                else Err (ParseError value errBad)
            | EmptyString => skip_loop fuel' (cutspace value) (cutspace prefix)
            end
          else
            match value with
            | String v value' =>
                if Ascii.eqb v p then skip_loop fuel' value' prefix'
                else Err (ParseError value errBad)
            | EmptyString => Err (ParseError value errBad)
            end
      end
  end.

Definition skip (value prefix : string) : result string :=
  skip_loop (String.length prefix) value prefix.

Fixpoint pow10 (n : nat) (x : Z) : Z :=
  match n with
  | O => x
  | S n' => pow10 n' (x * 10)
  end.

(** [parseNanoseconds value nbytes]: value[0] is the separator and
    value[1:nbytes] the digits. *)
Definition parseNanoseconds (value : string) (nbytes : nat) : result Z :=
  match value with
  | String c _ =>
      if commaOrPeriod c then
        let nbytes' := Nat.min nbytes 10 in
        ns <- atoi (drop 1 (take nbytes' value)) ;;
        if ns <? 0 then Err (ParseError value (outOfRange "fractional second"))
        else Ok (pow10 (10 - nbytes') ns)
      else Err (ParseError value errBad)
  | EmptyString => Err (ParseError value errBad)
  end.

(** Number of leading digit bytes. *)
Fixpoint digitRun (s : string) : nat :=
  match s with
  | String c s' => if isDigitChar c then S (digitRun s') else O
  | EmptyString => O
  end.

(** The locals of [parse]. *)
Record fields : Type := mkFields {
  f_year : Z; f_month : Z; f_day : Z;
  f_hour : Z; f_min : Z; f_sec : Z; f_nsec : Z;
  f_z : bool;          (* z = UTC *)
  f_zoneOffset : Z     (* -1 while unset *)
}.

Definition fields0 : fields := mkFields 0 (-1) (-1) 0 0 0 0 false (-1).

(** The next reference element of the rest of the layout, as
    [nextStdChunk] would report it. *)
Fixpoint next_std (l : layout) : option chunk :=
  match l with
  | [] => None
  | lit _ :: l' => next_std l'
  | c :: _ => Some c
  end.

Definition is_frac (c : option chunk) : bool :=
  match c with
  | Some (stdFracSecond0 _) => true
  | _ => false
  end.

Definition bad {A} (value : string) : result A := Err (ParseError value errBad).
Definition range {A} (value what : string) : result A :=
  Err (ParseError value (outOfRange what)).

(** One reference element of the layout applied to the value. *)
Definition parse_std (c : chunk) (rest : layout) (f : fields) (value : string)
  : result (fields * string) :=
  match c with
  | lit prefix =>
      v <- skip value prefix ;; Ok (f, v)
  | stdLongYear =>
      if (4 <=? len value) && isDigit value 0 then
        year <- atoi (take 4 value) ;;
        Ok (mkFields year (f_month f) (f_day f) (f_hour f) (f_min f) (f_sec f)
              (f_nsec f) (f_z f) (f_zoneOffset f), drop 4 value)
      else bad value
  | stdZeroMonth =>
      '(month, v) <- getnum value true ;;
      if (month <=? 0) || (12 <? month) then range value "month"
      else Ok (mkFields (f_year f) month (f_day f) (f_hour f) (f_min f)
                 (f_sec f) (f_nsec f) (f_z f) (f_zoneOffset f), v)
  | stdZeroDay =>
      '(day, v) <- getnum value true ;;
      Ok (mkFields (f_year f) (f_month f) day (f_hour f) (f_min f) (f_sec f)
            (f_nsec f) (f_z f) (f_zoneOffset f), v)
  | stdHour =>
      '(hour, v) <- getnum value false ;;
      if (hour <? 0) || (24 <=? hour) then range value "hour"
      else Ok (mkFields (f_year f) (f_month f) (f_day f) hour (f_min f)
                 (f_sec f) (f_nsec f) (f_z f) (f_zoneOffset f), v)
  | stdZeroMinute =>
      '(min, v) <- getnum value true ;;
      if (min <? 0) || (60 <=? min) then range value "minute"
      else Ok (mkFields (f_year f) (f_month f) (f_day f) (f_hour f) min
                 (f_sec f) (f_nsec f) (f_z f) (f_zoneOffset f), v)
  | stdZeroSecond =>
      '(sec, v) <- getnum value true ;;
      if (sec <? 0) || (60 <=? sec) then range value "second"
      else
        let f1 := mkFields (f_year f) (f_month f) (f_day f) (f_hour f)
                    (f_min f) sec (f_nsec f) (f_z f) (f_zoneOffset f) in
        match v with
        | String c0 v1 =>
            if (2 <=? len v) && commaOrPeriod c0 && isDigit v 1 then
              if is_frac (next_std rest) then Ok (f1, v)
              else
                (* a fractional second in the value but not in the layout *)
                let n := (1 + digitRun v1)%nat in
                nsec <- parseNanoseconds v n ;;
                Ok (mkFields (f_year f) (f_month f) (f_day f) (f_hour f)
                      (f_min f) sec nsec (f_z f) (f_zoneOffset f), drop n v)
            else Ok (f1, v)
        | EmptyString => Ok (f1, v)
        end
  | stdFracSecond0 digits =>
      let ndigit := (1 + digits)%nat in
      if len value <? Z.of_nat ndigit then bad value
      else
        nsec <- parseNanoseconds value ndigit ;;
        Ok (mkFields (f_year f) (f_month f) (f_day f) (f_hour f) (f_min f)
              (f_sec f) nsec (f_z f) (f_zoneOffset f), drop ndigit value)
  | stdISO8601ColonTZ =>
      match value with
      | String c0 v1 =>
          if Ascii.eqb c0 "Z" then
            Ok (mkFields (f_year f) (f_month f) (f_day f) (f_hour f) (f_min f)
                  (f_sec f) (f_nsec f) true (f_zoneOffset f), v1)
          else if len value <? 6 then bad value
          else if negb (match String.get 3 value with
                        | Some c => Ascii.eqb c ":"
                        | None => false
                        end) then bad value
          else
            '(hr, _) <- getnum (take 2 (drop 1 value)) true ;;
            '(mm, _) <- getnum (take 2 (drop 4 value)) true ;;
            '(ss, _) <- getnum "00" true ;;
            if 24 <? hr then range value "time zone offset hour"
            else if 60 <? mm then range value "time zone offset minute"
            else if 60 <? ss then range value "time zone offset second"
            else
              let zoneOffset := (hr * 60 + mm) * 60 + ss in
              if Ascii.eqb c0 "+" then
                Ok (mkFields (f_year f) (f_month f) (f_day f) (f_hour f)
                      (f_min f) (f_sec f) (f_nsec f) (f_z f) zoneOffset,
                    drop 6 value)
              else if Ascii.eqb c0 "-" then
                Ok (mkFields (f_year f) (f_month f) (f_day f) (f_hour f)
                      (f_min f) (f_sec f) (f_nsec f) (f_z f) (- zoneOffset),
                    drop 6 value)
              else bad value
      | EmptyString => bad value
      end
  end.

(** The loop of [parse] over the chunks of the layout; at the end of the
    layout nothing may be left of the value. *)
Fixpoint parse_loop (l : layout) (f : fields) (value : string)
  : result fields :=
  match l with
  | [] =>
      match value with
      | EmptyString => Ok f
      | String _ _ => Err (ParseError value (extraText value))
      end
  | c :: rest =>
      '(f', value') <- parse_std c rest f value ;;
      parse_loop rest f' value'
  end.

(** [time.Parse layout value]: after the loop, month and day default to 1,
    the day of the month is validated, and the time is built in UTC, or at
    the parsed offset. *)
Definition Parse (l : layout) (value : string) : result Time :=
  f <- parse_loop l fields0 value ;;
  let month := if f_month f <? 0 then 1 else f_month f in
  let day := if f_day f <? 0 then 1 else f_day f in
  if (day <? 1) || (daysIn month (f_year f) <? day)
  then Err (ParseError value dayOutOfRange)
  else if f_z f then
    Ok (Date (f_year f) month day (f_hour f) (f_min f) (f_sec f) (f_nsec f) 0)
  else if negb (f_zoneOffset f =? -1) then
    Ok (Date (f_year f) month day (f_hour f) (f_min f) (f_sec f) (f_nsec f)
          (f_zoneOffset f))
  else
    Ok (Date (f_year f) month day (f_hour f) (f_min f) (f_sec f) (f_nsec f) 0).

(** ** [Time.Format] *)

(** Decimal digits of a non-negative number, most significant first. *)
Fixpoint utod (fuel : nat) (u : Z) (acc : string) : string :=
  match fuel with
  | O => acc
  | S fuel' =>
      if u <? 10 then String (digit_char u) acc
      else utod fuel' (u / 10) (String (digit_char (u mod 10)) acc)
  end.

Fixpoint zeros (n : nat) : string :=
  match n with
  | O => EmptyString
  | S n' => String "0" (zeros n')
  end.

(** [appendInt]: the decimal form of [x], zero-padded to [width], with a
    leading minus sign for a negative number. *)
Definition appendInt (x : Z) (width : nat) : string :=
  let u := Z.abs x in
  let sign := if x <? 0 then "-" else "" in
  if (Nat.eqb width 2) && (u <? 100) then
    sign ++ String (digit_char (u / 10)) (String (digit_char (u mod 10)) "")
  else if (Nat.eqb width 4) && (u <? 10000) then
    sign ++ String (digit_char (u / 1000))
              (String (digit_char (u / 100 mod 10))
                 (String (digit_char (u / 10 mod 10))
                    (String (digit_char (u mod 10)) "")))
  else
    let ds := utod (S (Z.to_nat (Z.log2 u))) u "" in
    sign ++ zeros (width - String.length ds) ++ ds.

(** The wall clock of a time in its own location. *)
Definition wall_days (t : Time) : Z := (t_sec t + t_offset t) / 86400.
Definition wall_secs (t : Time) : Z := (t_sec t + t_offset t) mod 86400.

Definition Year (t : Time) : Z := fst (fst (civil (wall_days t))).
Definition Month (t : Time) : Z := snd (fst (civil (wall_days t))).
Definition Day (t : Time) : Z := snd (civil (wall_days t)).
Definition Hour (t : Time) : Z := wall_secs t / 3600.
Definition Minute (t : Time) : Z := wall_secs t mod 3600 / 60.
Definition Second (t : Time) : Z := wall_secs t mod 60.

(** [formatNano] for a .000 element: the fraction cut to [digits] places. *)
Definition formatNano (nsec : Z) (digits : nat) : string :=
  let ds := appendInt nsec 9 in
  String "." (take digits ds).

Definition format_std (c : chunk) (t : Time) : string :=
  match c with
  | lit text => text
  | stdLongYear => appendInt (Year t) 4
  | stdZeroMonth => appendInt (Month t) 2
  | stdZeroDay => appendInt (Day t) 2
  | stdHour => appendInt (Hour t) 2
  | stdZeroMinute => appendInt (Minute t) 2
  | stdZeroSecond => appendInt (Second t) 2
  | stdFracSecond0 digits => formatNano (t_nsec t) digits
  | stdISO8601ColonTZ =>
      if t_offset t =? 0 then "Z"
      else
        let zone := Z.quot (t_offset t) 60 in
        let sign := if zone <? 0 then "-" else "+" in
        let zone := Z.abs zone in
        sign ++ appendInt (zone / 60) 2 ++ ":" ++ appendInt (zone mod 60) 2
  end.

Fixpoint Format (l : layout) (t : Time) : string :=
  match l with
  | [] => ""
  | c :: rest => format_std c t ++ Format rest t
  end.

(** ** JSON values and Go's dynamic values *)

(** A JSON document.  The members of an object keep the order and the
    duplicates of the text.  A number is modelled by an integer: no claim
    depends on the value of a number, only on a value being one. *)
Inductive json : Type :=
| JNull
| JBool (b : bool)
| JNum (n : Z)
| JStr (s : string)
| JArr (elems : list json)
| JObj (members : list (string * json)).

(** What [json.Unmarshal] stores in an [interface{}], plus [[]string], which
    the type switches of the package also name.  A Go map is a list of
    bindings with distinct keys. *)
Inductive iface : Type :=
| INil
| IBool (b : bool)
| IFloat64 (n : Z)
| IString (s : string)
| ISlice (elems : list iface)          (* []interface{} *)
| IMap (m : list (string * iface))     (* map[string]interface{} *)
| IStrings (elems : list string).      (* []string *)

Definition gomap := list (string * iface).

(** [m[key]] with the comma-ok flag as an option. *)
Fixpoint map_get (m : gomap) (key : string) : option iface :=
  match m with
  | [] => None
  | (k, v) :: m' => if String.eqb k key then Some v else map_get m' key
  end.

(** [m[key] = v] *)
Fixpoint map_set (m : gomap) (key : string) (v : iface) : gomap :=
  match m with
  | [] => [(key, v)]
  | (k, v0) :: m' =>
      if String.eqb k key then (k, v) :: m' else (k, v0) :: map_set m' key v
  end.

(** Decoding into [interface{}]: an object becomes a map, filled member by
    member, so that a later duplicate replaces an earlier one. *)
Fixpoint to_iface (v : json) : iface :=
  match v with
  | JNull => INil
  | JBool b => IBool b
  | JNum n => IFloat64 n
  | JStr s => IString s
  | JArr elems => ISlice (map to_iface elems)
  | JObj members =>
      IMap (fold_left (fun m kv => map_set m (fst kv) (snd kv))
              (map (fun kv => (fst kv, to_iface (snd kv))) members) [])
  end.

Definition hex_char (k : Z) : ascii :=
  if k <? 10 then digit_char k else ascii_of_N (Z.to_N (87 + k)).

(** The escape that [json.Marshal] writes for a byte below 0x80 that is not
    copied as it is (HTML escaping is on). *)
Definition escape_byte (c : ascii) : string :=
  if Ascii.eqb c quote || Ascii.eqb c backslash then String backslash (String c "")
  else if byte_val c =? 8 then String backslash "b"
  else if byte_val c =? 12 then String backslash "f"
  else if byte_val c =? 10 then String backslash "n"
  else if byte_val c =? 13 then String backslash "r"
  else if byte_val c =? 9 then String backslash "t"
  else String backslash
         (String "u" (String "0" (String "0"
            (String (hex_char (byte_val c / 16))
               (String (hex_char (byte_val c mod 16)) ""))))).

(** [htmlSafeSet] *)
Definition htmlSafe (c : ascii) : bool :=
  (32 <=? byte_val c) && (byte_val c <? 128)
  && negb (Ascii.eqb c quote) && negb (Ascii.eqb c backslash)
  && negb (Ascii.eqb c "&") && negb (Ascii.eqb c "<") && negb (Ascii.eqb c ">").

(** The body of a string literal as [json.Marshal] writes it.  Bytes from
    0x80 on are copied: the strings of a decoded body are valid UTF-8, and
    the two runes that the encoder escapes there (U+2028, U+2029) do not
    occur in any text that the decoders below accept. *)
Fixpoint escapeString (s : string) : string :=
  match s with
  | EmptyString => EmptyString
  | String c s' =>
      if htmlSafe c || (128 <=? byte_val c) then String c (escapeString s')
      else escape_byte c ++ escapeString s'
  end.

Definition quoted (s : string) : string :=
  String quote (escapeString s ++ String quote "").

Fixpoint join (sep : string) (l : list string) : string :=
  match l with
  | [] => ""
  | [x] => x
  | x :: l' => x ++ sep ++ join sep l'
  end.

(** The compact text of a value, as [json.Marshal] writes it. *)
Fixpoint rawText (v : json) : string :=
  match v with
  | JNull => "null"
  | JBool true => "true"
  | JBool false => "false"
  | JNum n => appendInt n 1
  | JStr s => quoted s
  | JArr elems => "[" ++ join "," (map rawText elems) ++ "]"
  | JObj members =>
      "{" ++ join "," (map (fun kv => quoted (fst kv) ++ ":" ++ rawText (snd kv))
                         members) ++ "}"
  end.

Definition isHexChar (c : ascii) : bool :=
  isDigitChar c
  || ((97 <=? byte_val c) && (byte_val c <=? 102))
  || ((65 <=? byte_val c) && (byte_val c <=? 70)).

(** Whether the text made of a quote, [s] and a quote is one JSON string
    literal for the scanner of
    [encoding/json]: no bare quote, no control byte, and every backslash
    starts an escape. *)
Fixpoint validStringBody (s : string) : bool :=
  match s with
  | EmptyString => true
  | String c s' =>
      if Ascii.eqb c quote then false
      else if byte_val c <? 32 then false
      else if Ascii.eqb c backslash then
        match s' with
        | String e s'' =>
            if Ascii.eqb e "u" then
              match s'' with
              | String h1 (String h2 (String h3 (String h4 s4))) =>
                  isHexChar h1 && isHexChar h2 && isHexChar h3 && isHexChar h4
                  && validStringBody s4
              | _ => false
              end
            else if Ascii.eqb e quote || Ascii.eqb e backslash
                    || Ascii.eqb e "/" || Ascii.eqb e "b" || Ascii.eqb e "f"
                    || Ascii.eqb e "n" || Ascii.eqb e "r" || Ascii.eqb e "t"
            then validStringBody s''
            else false
        | EmptyString => false
        end
      else validStringBody s'
  end.

(** *** Matching an object key to a struct field

    [encoding/json] takes the field whose name equals the key, and failing
    that the field whose name equals it under Unicode simple case folding.
    The names of this package are lower-case ASCII, so a key matches a name
    exactly when its fold equals the fold of the name; besides the ASCII
    letters, only U+017F (long s) and U+212A (Kelvin sign) fold to ASCII
    letters. *)
Definition upper (c : ascii) : ascii :=
  if (97 <=? byte_val c) && (byte_val c <=? 122)
  then ascii_of_N (Z.to_N (byte_val c - 32)) else c.

Fixpoint foldName (s : string) : string :=
  match s with
  | EmptyString => EmptyString
  | String c s' =>
      if byte_val c <? 128 then String (upper c) (foldName s')
      else
        match s' with
        | String c2 s2 =>
            if (byte_val c =? 197) && (byte_val c2 =? 191)
            then String "S" (foldName s2)
            else
              match s2 with
              | String c3 s3 =>
                  if (byte_val c =? 226) && (byte_val c2 =? 132)
                     && (byte_val c3 =? 170)
                  then String "K" (foldName s3)
                  else String c (foldName s')
              | EmptyString => String c (foldName s')
              end
        | EmptyString => String c EmptyString
        end
  end.

Definition field_match (name key : string) : bool :=
  String.eqb (foldName key) (foldName name).

(** *** [json.Unmarshal] into the basic kinds

    Each takes the current content of the target: a JSON null leaves it as
    it is. *)
Definition unmarshal_string (cur : string) (v : json) : result string :=
  match v with
  | JStr s => Ok s
  | JNull => Ok cur
  | _ => Err UnmarshalTypeError
  end.

Definition unmarshal_bool (cur : bool) (v : json) : result bool :=
  match v with
  | JBool b => Ok b
  | JNull => Ok cur
  | _ => Err UnmarshalTypeError
  end.

(** into [int] (64 bits) *)
Definition unmarshal_int (cur : Z) (v : json) : result Z :=
  match v with
  | JNum n =>
      if (- 2 ^ 63 <=? n) && (n <? 2 ^ 63) then Ok n
      else Err UnmarshalTypeError
  | JNull => Ok cur
  | _ => Err UnmarshalTypeError
  end.

(** into [*string]: null stores the nil pointer *)
Definition unmarshal_string_ptr (cur : option string) (v : json)
  : result (option string) :=
  match v with
  | JStr s => Ok (Some s)
  | JNull => Ok None
  | _ => Err UnmarshalTypeError
  end.

(** Elements of an array decoded in order, each from the zero value of the
    element type; the first failure ends the decoding.  (When two members of
    one object fill the same slice field, Go decodes the later array over the
    storage of the earlier one; the decoded value is exact for objects that
    name each slice field once, and whether decoding fails is exact always.
    Which of several errors is reported is not modelled beyond the first.) *)
Fixpoint unmarshal_elems {A} (elem : json -> result A) (l : list json)
  : result (list A) :=
  match l with
  | [] => Ok []
  | v :: l' =>
      a <- elem v ;;
      rest <- unmarshal_elems elem l' ;;
      Ok (a :: rest)
  end.

(** into a slice: null stores the nil slice. (Both the nil and the empty
    slice are the empty list.) *)
Definition unmarshal_slice {A} (elem : json -> result A) (v : json)
  : result (list A) :=
  match v with
  | JArr elems => unmarshal_elems elem elems
  | JNull => Ok []
  | _ => Err UnmarshalTypeError
  end.

(** into a struct: the members are decoded in order into the current
    content; null leaves the struct alone; any other value is a type
    error. *)
Definition step {A} (member : A -> string * json -> result A)
  (acc : result A) (kv : string * json) : result A :=
  a <- acc ;; member a kv.

Definition unmarshal_struct {A} (member : A -> string * json -> result A)
  (cur : A) (v : json) : result A :=
  match v with
  | JObj members => fold_left (step member) members (Ok cur)
  | JNull => Ok cur
  | _ => Err UnmarshalTypeError
  end.

(** ** The collaborators of the root package

    The root package of the repository (results, links, pagination) is not
    among the sources; what the two packages use of it is modelled here. *)

(** Modelled from the spec: [gophercloud.Result] is missing; section 9
    describes it as a result holding the raw body and the error of the call.
    The body is the JSON document of the response. *)
Record Result : Type := mkResult {
  Body : json;
  Err_ : option error
}.

(** Modelled from the spec: [Result.ExtractInto] is missing; per sections
    4.3 and 9 it hands back the error of the call if there is one, and
    otherwise decodes the body into the target, here given by its decoder. *)
Definition ExtractInto {A} (r : Result) (decode : json -> result A)
  : result A :=
  match Err_ r with
  | Some e => Err e
  | None => decode (Body r)
  end.

(** Modelled from the spec: [gophercloud.Link] is missing; section 6 gives
    the wire form of a link as an object with "rel" and "href". *)
Module Link.
Record t : Type := mk { Href : string; Rel : string }.
Definition zero : t := mk "" "".

Definition member (l : t) (kv : string * json) : result t :=
  if field_match "href" (fst kv) then
    s <- unmarshal_string (Href l) (snd kv) ;; Ok (mk s (Rel l))
  else if field_match "rel" (fst kv) then
    s <- unmarshal_string (Rel l) (snd kv) ;; Ok (mk (Href l) s)
  else Ok l.
End Link.

(** Modelled from the spec: [gophercloud.ExtractNextURL] is missing; per
    sections 4.4 and 6 the next page is the "href" of the link whose "rel"
    is "next", and there is no next page (the empty URL, no error) when no
    such link is present. *)
Definition ExtractNextURL (links : list Link.t) : result string :=
  Ok (fold_left (fun url l => if String.eqb (Link.Rel l) "next"
                              then Link.Href l else url) links "").

(** ** Package routingtables *)

Module RoutingTables.

(** *** FlexibleSubnetInfo *)
Module FlexibleSubnetInfo.
Record t : Type := mk { ID : string; Name : string }.
Definition zero : t := mk "" "".

(** Decoding an object into [subnetAlias], the same struct without the
    methods: fields "id" and "name". *)
Definition subnetAlias_member (a : t) (kv : string * json) : result t :=
  if field_match "id" (fst kv) then
    s <- unmarshal_string (ID a) (snd kv) ;; Ok (mk s (Name a))
  else if field_match "name" (fst kv) then
    s <- unmarshal_string (Name a) (snd kv) ;; Ok (mk (ID a) s)
  else Ok a.

Definition UnmarshalJSON (fsi : t) (data : json) : result t :=
  (* Try to unmarshal as a string first (just the ID) *)
  match unmarshal_string "" data with
  | Ok idStr => Ok (mk idStr "")
  | Err _ =>
      (* If string unmarshaling fails, try as full object *)
      unmarshal_struct subnetAlias_member fsi data
  end.

(** [json.Marshal] of [subnetAlias]: both fields are omitempty. *)
Definition marshal_subnetAlias (a : t) : json :=
  JObj ((if String.eqb (ID a) "" then [] else [("id", JStr (ID a))])
        ++ (if String.eqb (Name a) "" then [] else [("name", JStr (Name a))])).

Definition MarshalJSON (fsi : t) : result json :=
  (* If only ID is set, marshal as string *)
  if String.eqb (Name fsi) "" && negb (String.eqb (ID fsi) "")
  then Ok (JStr (ID fsi))
  else Ok (marshal_subnetAlias fsi).
End FlexibleSubnetInfo.

(** *** FlexibleVPCInfo *)
Module FlexibleVPCInfo.
Record t : Type := mk { ID : string; Name : string }.
Definition zero : t := mk "" "".

Definition vpcAlias_member (a : t) (kv : string * json) : result t :=
  if field_match "id" (fst kv) then
    s <- unmarshal_string (ID a) (snd kv) ;; Ok (mk s (Name a))
  else if field_match "name" (fst kv) then
    s <- unmarshal_string (Name a) (snd kv) ;; Ok (mk (ID a) s)
  else Ok a.

Definition UnmarshalJSON (fvi : t) (data : json) : result t :=
  match unmarshal_string "" data with
  | Ok idStr => Ok (mk idStr "")
  | Err _ => unmarshal_struct vpcAlias_member fvi data
  end.

Definition marshal_vpcAlias (a : t) : json :=
  JObj ((if String.eqb (ID a) "" then [] else [("id", JStr (ID a))])
        ++ (if String.eqb (Name a) "" then [] else [("name", JStr (Name a))])).

Definition MarshalJSON (fvi : t) : result json :=
  if String.eqb (Name fvi) "" && negb (String.eqb (ID fvi) "")
  then Ok (JStr (ID fvi))
  else Ok (marshal_vpcAlias fvi).
End FlexibleVPCInfo.

(** *** NHNCloudTime *)
Module NHNCloudTime.
Record t : Type := mk { Time_ : Time }.
Definition zero : t := mk zeroTime.

(** List of possible time formats used by NHN Cloud API *)
Definition formats : list layout :=
  [ layout_space;          (* "2006-01-02 15:04:05" *)
    layout_T;              (* "2006-01-02T15:04:05" *)
    layout_TZ;             (* "2006-01-02T15:04:05Z" *)
    layout_RFC3339;        (* "2006-01-02T15:04:05Z07:00" *)
    layout_space_micro;    (* "2006-01-02 15:04:05.000000" *)
    layout_TZ_micro ].     (* "2006-01-02T15:04:05.000000Z" *)

(** The loop over the formats: the first that parses returns; otherwise
    the error of the last attempt is reported. *)
Fixpoint try_formats (fs : list layout) (s : string) (parseErr : error)
  : result Time :=
  match fs with
  | [] =>
      Err (Errorf "unable to parse time %q with any known format: %v"
             s parseErr)
  | format :: rest =>
      match Parse format s with
      | Ok t => Ok t
      | Err err => try_formats rest s err
      end
  end.

(** [data] is the raw text of the JSON value. *)
Definition UnmarshalJSON (ct : t) (data : string) : result t :=
  (* Remove quotes from JSON string *)
  let s := Trim data quote in
  (* Handle empty/null values *)
  if String.eqb s "null" || String.eqb s "" then Ok ct
  else
    t' <- try_formats formats s (ErrOther "<nil>") ;;
    Ok (mk t').

(** The result is the raw text. *)
Definition MarshalJSON (ct : t) : result string :=
  if IsZero (Time_ ct) then Ok "null"
  else Ok (rawText (JStr (Format layout_space (Time_ ct)))).

Definition String_ (ct : t) : string := Format layout_space (Time_ ct).
End NHNCloudTime.

(** *** Route *)
Module Route.
Record t : Type := mk {
  ID : string;
  CIDR : string;
  Mask : Z;
  Gateway : string;
  GatewayID : string;
  Description : option string;
  RoutingTableID : string;
  TenantID : string;
  Hidden : bool
}.
Definition zero : t := mk "" "" 0 "" "" None "" "" false.

Definition set_ID (r : t) x := mk x (CIDR r) (Mask r) (Gateway r) (GatewayID r) (Description r) (RoutingTableID r) (TenantID r) (Hidden r).
Definition set_CIDR (r : t) x := mk (ID r) x (Mask r) (Gateway r) (GatewayID r) (Description r) (RoutingTableID r) (TenantID r) (Hidden r).
Definition set_Mask (r : t) x := mk (ID r) (CIDR r) x (Gateway r) (GatewayID r) (Description r) (RoutingTableID r) (TenantID r) (Hidden r).
Definition set_Gateway (r : t) x := mk (ID r) (CIDR r) (Mask r) x (GatewayID r) (Description r) (RoutingTableID r) (TenantID r) (Hidden r).
Definition set_GatewayID (r : t) x := mk (ID r) (CIDR r) (Mask r) (Gateway r) x (Description r) (RoutingTableID r) (TenantID r) (Hidden r).
Definition set_Description (r : t) x := mk (ID r) (CIDR r) (Mask r) (Gateway r) (GatewayID r) x (RoutingTableID r) (TenantID r) (Hidden r).
Definition set_RoutingTableID (r : t) x := mk (ID r) (CIDR r) (Mask r) (Gateway r) (GatewayID r) (Description r) x (TenantID r) (Hidden r).
Definition set_TenantID (r : t) x := mk (ID r) (CIDR r) (Mask r) (Gateway r) (GatewayID r) (Description r) (RoutingTableID r) x (Hidden r).
Definition set_Hidden (r : t) x := mk (ID r) (CIDR r) (Mask r) (Gateway r) (GatewayID r) (Description r) (RoutingTableID r) (TenantID r) x.

(** One member of an object decoded into a [Route], by the json tags. *)
Definition member (r : t) (kv : string * json) : result t :=
  let k := fst kv in
  let v := snd kv in
  if field_match "id" k then x <- unmarshal_string (ID r) v ;; Ok (set_ID r x)
  else if field_match "cidr" k then x <- unmarshal_string (CIDR r) v ;; Ok (set_CIDR r x)
  else if field_match "mask" k then x <- unmarshal_int (Mask r) v ;; Ok (set_Mask r x)
  else if field_match "gateway" k then x <- unmarshal_string (Gateway r) v ;; Ok (set_Gateway r x)
  else if field_match "gateway_id" k then x <- unmarshal_string (GatewayID r) v ;; Ok (set_GatewayID r x)
  else if field_match "description" k then x <- unmarshal_string_ptr (Description r) v ;; Ok (set_Description r x)
  else if field_match "routingtable_id" k then x <- unmarshal_string (RoutingTableID r) v ;; Ok (set_RoutingTableID r x)
  else if field_match "tenant_id" k then x <- unmarshal_string (TenantID r) v ;; Ok (set_TenantID r x)
  else if field_match "hidden" k then x <- unmarshal_bool (Hidden r) v ;; Ok (set_Hidden r x)
  else Ok r.
End Route.

(** *** RoutingTable *)
Module RoutingTable.
Record t : Type := mk {
  ID : string;
  Name : string;
  DefaultTable : bool;
  Distributed : bool;
  GatewayID : string;
  GatewayName : string;
  TenantID : string;
  State : string;
  CreateTime : NHNCloudTime.t;
  VPCs : list FlexibleVPCInfo.t;
  Subnets : list FlexibleSubnetInfo.t;
  Routes : list Route.t
}.
Definition zero : t :=
  mk "" "" false false "" "" "" "" NHNCloudTime.zero [] [] [].

Definition set_ID (r : t) x := mk x (Name r) (DefaultTable r) (Distributed r) (GatewayID r) (GatewayName r) (TenantID r) (State r) (CreateTime r) (VPCs r) (Subnets r) (Routes r).
Definition set_Name (r : t) x := mk (ID r) x (DefaultTable r) (Distributed r) (GatewayID r) (GatewayName r) (TenantID r) (State r) (CreateTime r) (VPCs r) (Subnets r) (Routes r).
Definition set_DefaultTable (r : t) x := mk (ID r) (Name r) x (Distributed r) (GatewayID r) (GatewayName r) (TenantID r) (State r) (CreateTime r) (VPCs r) (Subnets r) (Routes r).
Definition set_Distributed (r : t) x := mk (ID r) (Name r) (DefaultTable r) x (GatewayID r) (GatewayName r) (TenantID r) (State r) (CreateTime r) (VPCs r) (Subnets r) (Routes r).
Definition set_GatewayID (r : t) x := mk (ID r) (Name r) (DefaultTable r) (Distributed r) x (GatewayName r) (TenantID r) (State r) (CreateTime r) (VPCs r) (Subnets r) (Routes r).
Definition set_GatewayName (r : t) x := mk (ID r) (Name r) (DefaultTable r) (Distributed r) (GatewayID r) x (TenantID r) (State r) (CreateTime r) (VPCs r) (Subnets r) (Routes r).
Definition set_TenantID (r : t) x := mk (ID r) (Name r) (DefaultTable r) (Distributed r) (GatewayID r) (GatewayName r) x (State r) (CreateTime r) (VPCs r) (Subnets r) (Routes r).
Definition set_State (r : t) x := mk (ID r) (Name r) (DefaultTable r) (Distributed r) (GatewayID r) (GatewayName r) (TenantID r) x (CreateTime r) (VPCs r) (Subnets r) (Routes r).
Definition set_CreateTime (r : t) x := mk (ID r) (Name r) (DefaultTable r) (Distributed r) (GatewayID r) (GatewayName r) (TenantID r) (State r) x (VPCs r) (Subnets r) (Routes r).
Definition set_VPCs (r : t) x := mk (ID r) (Name r) (DefaultTable r) (Distributed r) (GatewayID r) (GatewayName r) (TenantID r) (State r) (CreateTime r) x (Subnets r) (Routes r).
Definition set_Subnets (r : t) x := mk (ID r) (Name r) (DefaultTable r) (Distributed r) (GatewayID r) (GatewayName r) (TenantID r) (State r) (CreateTime r) (VPCs r) x (Routes r).
Definition set_Routes (r : t) x := mk (ID r) (Name r) (DefaultTable r) (Distributed r) (GatewayID r) (GatewayName r) (TenantID r) (State r) (CreateTime r) (VPCs r) (Subnets r) x.

(** One member of an object decoded into a [RoutingTable] by the json
    tags of its fields: the timestamp and the references through their
    own [UnmarshalJSON], the slices element by element. *)
Definition member (r : t) (kv : string * json) : result t :=
  let k := fst kv in
  let v := snd kv in
  if field_match "id" k then x <- unmarshal_string (ID r) v ;; Ok (set_ID r x)
  else if field_match "name" k then x <- unmarshal_string (Name r) v ;; Ok (set_Name r x)
  else if field_match "default_table" k then x <- unmarshal_bool (DefaultTable r) v ;; Ok (set_DefaultTable r x)
  else if field_match "distributed" k then x <- unmarshal_bool (Distributed r) v ;; Ok (set_Distributed r x)
  else if field_match "gateway_id" k then x <- unmarshal_string (GatewayID r) v ;; Ok (set_GatewayID r x)
  else if field_match "gateway_name" k then x <- unmarshal_string (GatewayName r) v ;; Ok (set_GatewayName r x)
  else if field_match "tenant_id" k then x <- unmarshal_string (TenantID r) v ;; Ok (set_TenantID r x)
  else if field_match "state" k then x <- unmarshal_string (State r) v ;; Ok (set_State r x)
  else if field_match "create_time" k then
    x <- NHNCloudTime.UnmarshalJSON (CreateTime r) (rawText v) ;; Ok (set_CreateTime r x)
  else if field_match "vpcs" k then
    x <- unmarshal_slice (FlexibleVPCInfo.UnmarshalJSON FlexibleVPCInfo.zero) v ;;
    Ok (set_VPCs r x)
  else if field_match "subnets" k then
    x <- unmarshal_slice (FlexibleSubnetInfo.UnmarshalJSON FlexibleSubnetInfo.zero) v ;;
    Ok (set_Subnets r x)
  else if field_match "routes" k then
    x <- unmarshal_slice (unmarshal_struct Route.member Route.zero) v ;;
    Ok (set_Routes r x)
  else Ok r.

(** [json.Unmarshal(data, &routingTable)] *)
Definition unmarshal (cur : t) (v : json) : result t :=
  unmarshal_struct member cur v.

(** [ids[i] = x] on a slice *)
Fixpoint store (ids : list string) (i : nat) (x : string) : list string :=
  match ids, i with
  | [], _ => []
  | _ :: ids', O => x :: ids'
  | y :: ids', S i' => y :: store ids' i' x
  end.

(** A [for i, x := range l] loop with body [body] over the state [acc]. *)
Fixpoint range_loop {A St} (body : St -> nat -> A -> St) (l : list A)
  (i : nat) (acc : St) : St :=
  match l with
  | [] => acc
  | x :: l' => range_loop body l' (S i) (body acc i x)
  end.

Definition GetSubnetIDs (rt : t) : list string :=
  let ids := repeat "" (List.length (Subnets rt)) in
  range_loop (fun ids i subnet => store ids i (FlexibleSubnetInfo.ID subnet))
    (Subnets rt) O ids.

Definition GetSubnetNames (rt : t) : list string :=
  range_loop (fun names _ subnet =>
                if negb (String.eqb (FlexibleSubnetInfo.Name subnet) "")
                then (names ++ [FlexibleSubnetInfo.Name subnet])%list else names)
    (Subnets rt) O [].

Definition GetVPCIDs (rt : t) : list string :=
  let ids := repeat "" (List.length (VPCs rt)) in
  range_loop (fun ids i vpc => store ids i (FlexibleVPCInfo.ID vpc))
    (VPCs rt) O ids.

Definition GetVPCNames (rt : t) : list string :=
  range_loop (fun names _ vpc =>
                if negb (String.eqb (FlexibleVPCInfo.Name vpc) "")
                then (names ++ [FlexibleVPCInfo.Name vpc])%list else names)
    (VPCs rt) O [].
End RoutingTable.

(** *** RoutingTablePage *)

(** The local struct of [NextPageURL]: one field, [Links], tagged
    "routingtables_links". *)
Definition links_member (links : list Link.t) (kv : string * json)
  : result (list Link.t) :=
  if field_match "routingtables_links" (fst kv)
  then unmarshal_slice (unmarshal_struct Link.member Link.zero) (snd kv)
  else Ok links.

(** The page embeds the result of the page request. *)
Definition RoutingTablePage_NextPageURL (r : Result) : result string :=
  match ExtractInto r (unmarshal_struct links_member []) with
  | Err err => Err err
  | Ok links => ExtractNextURL links
  end.

(** *** RoutingTableResult *)

(** Type assertions on a map entry: [data[key].(T)] with the comma-ok flag as
    an option; a missing key yields the nil interface, which no assertion
    accepts. *)
Definition asString (v : option iface) : option string :=
  match v with Some (IString s) => Some s | _ => None end.
Definition asBool (v : option iface) : option bool :=
  match v with Some (IBool b) => Some b | _ => None end.
Definition asFloat64 (v : option iface) : option Z :=
  match v with Some (IFloat64 n) => Some n | _ => None end.
Definition asSlice (v : option iface) : option (list iface) :=
  match v with Some (ISlice l) => Some l | _ => None end.

(** [if v, ok := e; ok { target.F = v }]: the assignment happens when the
    assertion holds. *)
Definition if_ok {A T} (v : option A) (assign : T -> A -> T) (target : T) : T :=
  match v with
  | Some x => assign target x
  | None => target
  end.

(** [err == nil] *)
Definition ok_value {A} (r : result A) : option A :=
  match r with
  | Ok a => Some a
  | Err _ => None
  end.

(** The body of the loop of [parseFlexibleVPCs] over a [[]interface{}]. *)
Definition appendVPC (result : list FlexibleVPCInfo.t) (vpc : iface)
  : list FlexibleVPCInfo.t :=
  match vpc with
  | IString vpcData =>
      (* VPC is just an ID string *)
      (result ++ [FlexibleVPCInfo.mk vpcData ""])%list
  | IMap vpcData =>
      (* VPC is an object *)
      let fvi := FlexibleVPCInfo.zero in
      let fvi := if_ok (asString (map_get vpcData "id"))
                   (fun fvi id => FlexibleVPCInfo.mk id (FlexibleVPCInfo.Name fvi))
                   fvi in
      let fvi := if_ok (asString (map_get vpcData "name"))
                   (fun fvi name => FlexibleVPCInfo.mk (FlexibleVPCInfo.ID fvi) name)
                   fvi in
      (result ++ [fvi])%list
  | _ => result
  end.

(** parseFlexibleVPCs handles both string arrays and object arrays for VPCs *)
Definition parseFlexibleVPCs (vpcs : iface) : list FlexibleVPCInfo.t :=
  match vpcs with
  | ISlice v => fold_left appendVPC v []
  | IStrings v =>
      (* Direct string array *)
      fold_left (fun result vpcID => (result ++ [FlexibleVPCInfo.mk vpcID ""])%list) v []
  | _ => []
  end.

(** The body of the loop of [parseFlexibleSubnets] over a [[]interface{}]. *)
Definition appendSubnet (result : list FlexibleSubnetInfo.t) (subnet : iface)
  : list FlexibleSubnetInfo.t :=
  match subnet with
  | IString subnetData =>
      (* Subnet is just an ID string *)
      (result ++ [FlexibleSubnetInfo.mk subnetData ""])%list
  | IMap subnetData =>
      (* Subnet is an object *)
      let fsi := FlexibleSubnetInfo.zero in
      let fsi := if_ok (asString (map_get subnetData "id"))
                   (fun fsi id => FlexibleSubnetInfo.mk id (FlexibleSubnetInfo.Name fsi))
                   fsi in
      let fsi := if_ok (asString (map_get subnetData "name"))
                   (fun fsi name => FlexibleSubnetInfo.mk (FlexibleSubnetInfo.ID fsi) name)
                   fsi in
      (result ++ [fsi])%list
  | _ => result
  end.

(** parseFlexibleSubnets handles both string arrays and object arrays for
    Subnets *)
Definition parseFlexibleSubnets (subnets : iface) : list FlexibleSubnetInfo.t :=
  match subnets with
  | ISlice v => fold_left appendSubnet v []
  | IStrings v =>
      (* Direct string array *)
      fold_left (fun result subnetID => (result ++ [FlexibleSubnetInfo.mk subnetID ""])%list) v []
  | _ => []
  end.

(** parseRoutes handles route parsing from interface{} array.  ([int(mask)]
    is the number itself: the numbers of the model are integers.) *)
Definition parseRoutes (routes : list iface) : list Route.t :=
  fold_left
    (fun result route =>
       match route with
       | IMap routeMap =>
           let r := Route.zero in
           let r := if_ok (asString (map_get routeMap "id")) Route.set_ID r in
           let r := if_ok (asString (map_get routeMap "cidr")) Route.set_CIDR r in
           let r := if_ok (asFloat64 (map_get routeMap "mask")) Route.set_Mask r in
           let r := if_ok (asString (map_get routeMap "gateway")) Route.set_Gateway r in
           let r := if_ok (asString (map_get routeMap "gateway_id")) Route.set_GatewayID r in
           let r := if_ok (asString (map_get routeMap "description"))
                      (fun r description => Route.set_Description r (Some description)) r in
           let r := if_ok (asString (map_get routeMap "routingtable_id"))
                      Route.set_RoutingTableID r in
           let r := if_ok (asString (map_get routeMap "tenant_id")) Route.set_TenantID r in
           let r := if_ok (asBool (map_get routeMap "hidden")) Route.set_Hidden r in
           (result ++ [r])%list
       | _ => result
       end) routes [].

(** [json.Unmarshal([]byte(`"`+createTimeStr+`"`), &ct)]: the text has to be
    one JSON string literal; its raw bytes then go to
    [NHNCloudTime.UnmarshalJSON]. *)
Definition unmarshal_quoted_time (createTimeStr : string)
  : result NHNCloudTime.t :=
  if validStringBody createTimeStr then
    NHNCloudTime.UnmarshalJSON NHNCloudTime.zero
      (String quote (createTimeStr ++ String quote ""))
  else Err SyntaxError.

(** parseRoutingTableFromMap manually parses routing table from a map for
    maximum compatibility *)
Definition parseRoutingTableFromMap (data : gomap)
  : result (option RoutingTable.t) :=
  let rt := RoutingTable.zero in
  (* Parse basic fields *)
  let rt := if_ok (asString (map_get data "id")) RoutingTable.set_ID rt in
  let rt := if_ok (asString (map_get data "name")) RoutingTable.set_Name rt in
  let rt := if_ok (asBool (map_get data "default_table"))
              RoutingTable.set_DefaultTable rt in
  let rt := if_ok (asBool (map_get data "distributed"))
              RoutingTable.set_Distributed rt in
  let rt := if_ok (asString (map_get data "gateway_id"))
              RoutingTable.set_GatewayID rt in
  let rt := if_ok (asString (map_get data "gateway_name"))
              RoutingTable.set_GatewayName rt in
  let rt := if_ok (asString (map_get data "tenant_id"))
              RoutingTable.set_TenantID rt in
  let rt := if_ok (asString (map_get data "state")) RoutingTable.set_State rt in
  (* Parse create_time *)
  let rt := if_ok (asString (map_get data "create_time"))
              (fun rt createTimeStr =>
                 if_ok (ok_value (unmarshal_quoted_time createTimeStr))
                   RoutingTable.set_CreateTime rt) rt in
  (* Parse VPCs (handle both string array and object array) *)
  let rt := if_ok (map_get data "vpcs")
              (fun rt vpcs => RoutingTable.set_VPCs rt (parseFlexibleVPCs vpcs))
              rt in
  (* Parse Subnets (handle both string array and object array) *)
  let rt := if_ok (map_get data "subnets")
              (fun rt subnets =>
                 RoutingTable.set_Subnets rt (parseFlexibleSubnets subnets)) rt in
  (* Parse Routes *)
  let rt := if_ok (asSlice (map_get data "routes"))
              (fun rt routes => RoutingTable.set_Routes rt (parseRoutes routes))
              rt in
  Ok (Some rt).

(** The local struct of [Extract]: [RoutingTable *RoutingTable], tagged
    "routingtable".  A null stores the nil pointer; an object is decoded
    into the table the pointer holds, a new one if it is nil. *)
Definition s_member (p : option RoutingTable.t) (kv : string * json)
  : result (option RoutingTable.t) :=
  if field_match "routingtable" (fst kv) then
    match snd kv with
    | JNull => Ok None
    | v =>
        rt <- RoutingTable.unmarshal
                (match p with Some rt => rt | None => RoutingTable.zero end) v ;;
        Ok (Some rt)
    end
  else Ok p.

(** The local struct of the fallback: [RoutingTable json.RawMessage].  The
    raw message keeps the value as it is, null included; [None] is the nil
    message. *)
Definition response_member (raw : option json) (kv : string * json)
  : result (option json) :=
  if field_match "routingtable" (fst kv) then Ok (Some (snd kv)) else Ok raw.

(** [json.Unmarshal] of a raw message: the nil message is no JSON text. *)
Definition unmarshal_raw {A} (raw : option json) (decode : json -> result A)
  : result A :=
  match raw with
  | Some v => decode v
  | None => Err SyntaxError
  end.

(** [json.Unmarshal(data, &rawRT)] with [rawRT map[string]interface{}]: null
    leaves the nil map, which reads as the empty map. *)
Definition unmarshal_map (v : json) : result gomap :=
  match v with
  | JObj _ => match to_iface v with IMap m => Ok m | _ => Err UnmarshalTypeError end
  | JNull => Ok []
  | _ => Err UnmarshalTypeError
  end.

(** ExtractRoutingTableWithFallback provides fallback parsing for different
    API response formats *)
Definition RoutingTableResult_ExtractRoutingTableWithFallback (r : Result)
  : result (option RoutingTable.t) :=
  match Err_ r with
  | Some e => Err e
  | None =>
      (* Extract raw JSON first *)
      match ExtractInto r (unmarshal_struct response_member None) with
      | Err err => Err (Errorf "failed to extract response: %w" "" err)
      | Ok response =>
          (* Parse the routing table manually to handle edge cases *)
          match unmarshal_raw response (RoutingTable.unmarshal RoutingTable.zero) with
          | Err err =>
              (* If that fails, try parsing with raw map to debug *)
              match unmarshal_raw response unmarshal_map with
              | Ok rawRT => parseRoutingTableFromMap rawRT
              | Err _ =>
                  Err (Errorf "failed to unmarshal routing table: %w" "" err)
              end
          | Ok routingTable => Ok (Some routingTable)
          end
      end
  end.

(** Extract is a function that accepts a result and extracts a routing table
    resource. *)
Definition RoutingTableResult_Extract (r : Result)
  : result (option RoutingTable.t) :=
  match Err_ r with
  | Some e => Err e
  | None =>
      (* First try the standard extraction *)
      match ExtractInto r (unmarshal_struct s_member None) with
      | Err _ =>
          (* If standard extraction fails, try alternative parsing *)
          RoutingTableResult_ExtractRoutingTableWithFallback r
      | Ok s => Ok s
      end
  end.

(** *** The other extractors of the package *)

(** The local struct of [ExtractRoutingTables]: [RoutingTables
    []RoutingTable], tagged "routingtables". *)
Definition routingtables_member (l : list RoutingTable.t) (kv : string * json)
  : result (list RoutingTable.t) :=
  if field_match "routingtables" (fst kv)
  then unmarshal_slice (RoutingTable.unmarshal RoutingTable.zero) (snd kv)
  else Ok l.

(** ExtractRoutingTables accepts a Page struct, specifically a
    RoutingTablePage struct, and extracts the elements into a slice of
    RoutingTable structs.  (On an error Go hands back what was decoded so far
    next to the error; here the error alone.) *)
Definition ExtractRoutingTables (r : Result) : result (list RoutingTable.t) :=
  ExtractInto r (unmarshal_struct routingtables_member []).

(** IsEmpty checks whether a RoutingTablePage struct is empty. *)
Definition RoutingTablePage_IsEmpty (r : Result) : result bool :=
  match ExtractRoutingTables r with
  | Ok is_ => Ok (Nat.eqb (List.length is_) 0)
  | Err err => Err err
  end.

(** The local struct of [RoutePage.NextPageURL]: [Links], tagged
    "routes_links". *)
Definition routes_links_member (links : list Link.t) (kv : string * json)
  : result (list Link.t) :=
  if field_match "routes_links" (fst kv)
  then unmarshal_slice (unmarshal_struct Link.member Link.zero) (snd kv)
  else Ok links.

Definition RoutePage_NextPageURL (r : Result) : result string :=
  match ExtractInto r (unmarshal_struct routes_links_member []) with
  | Err err => Err err
  | Ok links => ExtractNextURL links
  end.

(** The local struct of [ExtractRoutes]: [Routes []Route], tagged "routes". *)
Definition routes_member (l : list Route.t) (kv : string * json)
  : result (list Route.t) :=
  if field_match "routes" (fst kv)
  then unmarshal_slice (unmarshal_struct Route.member Route.zero) (snd kv)
  else Ok l.

(** ExtractRoutes accepts a Page struct, specifically a RoutePage struct, and
    extracts the elements into a slice of Route structs. *)
Definition ExtractRoutes (r : Result) : result (list Route.t) :=
  ExtractInto r (unmarshal_struct routes_member []).

(** IsEmpty checks whether a RoutePage struct is empty. *)
Definition RoutePage_IsEmpty (r : Result) : result bool :=
  match ExtractRoutes r with
  | Ok is_ => Ok (Nat.eqb (List.length is_) 0)
  | Err err => Err err
  end.

(** ExtractRoutingTable is an alternative extraction method with more
    control *)
Definition RoutingTableResult_ExtractRoutingTable (r : Result)
  : result (option RoutingTable.t) :=
  RoutingTableResult_ExtractRoutingTableWithFallback r.

(** The local struct of [RouteResult.Extract]: [Route *Route], tagged
    "route". *)
Definition route_member (p : option Route.t) (kv : string * json)
  : result (option Route.t) :=
  if field_match "route" (fst kv) then
    match snd kv with
    | JNull => Ok None
    | v =>
        r <- unmarshal_struct Route.member
               (match p with Some r => r | None => Route.zero end) v ;;
        Ok (Some r)
    end
  else Ok p.

(** Extract is a function that accepts a result and extracts a route
    resource. *)
Definition RouteResult_Extract (r : Result) : result (option Route.t) :=
  match ExtractInto r (unmarshal_struct route_member None) with
  | Err err => Err err
  | Ok s => Ok s
  end.

(** The local struct of [ExtractRoute]: [Route json.RawMessage]. *)
Definition route_response_member (raw : option json) (kv : string * json)
  : result (option json) :=
  if field_match "route" (fst kv) then Ok (Some (snd kv)) else Ok raw.

(** ExtractRoute is an alternative extraction method with more control *)
Definition RouteResult_ExtractRoute (r : Result) : result (option Route.t) :=
  match Err_ r with
  | Some e => Err e
  | None =>
      match ExtractInto r (unmarshal_struct route_response_member None) with
      | Err err => Err (Errorf "failed to extract response: %w" "" err)
      | Ok response =>
          match unmarshal_raw response
                  (unmarshal_struct Route.member Route.zero) with
          | Err err => Err (Errorf "failed to unmarshal route: %w" "" err)
          | Ok route => Ok (Some route)
          end
      end
  end.

(** *** Gateway *)
Module Gateway.
Record t : Type := mk { ID : string; Type_ : string; Name : string }.
Definition zero : t := mk "" "" "".

Definition member (g : t) (kv : string * json) : result t :=
  if field_match "id" (fst kv) then
    x <- unmarshal_string (ID g) (snd kv) ;; Ok (mk x (Type_ g) (Name g))
  else if field_match "type" (fst kv) then
    x <- unmarshal_string (Type_ g) (snd kv) ;; Ok (mk (ID g) x (Name g))
  else if field_match "name" (fst kv) then
    x <- unmarshal_string (Name g) (snd kv) ;; Ok (mk (ID g) (Type_ g) x)
  else Ok g.
End Gateway.

(** The local struct of [GatewayResult.Extract]: [Gateways []Gateway],
    tagged "gateways". *)
Definition gateways_member (l : list Gateway.t) (kv : string * json)
  : result (list Gateway.t) :=
  if field_match "gateways" (fst kv)
  then unmarshal_slice (unmarshal_struct Gateway.member Gateway.zero) (snd kv)
  else Ok l.

(** Extract is a function that accepts a result and extracts gateway
    resources. *)
Definition GatewayResult_Extract (r : Result) : result (list Gateway.t) :=
  ExtractInto r (unmarshal_struct gateways_member []).

End RoutingTables.

(** ** Package internetgateways *)

Module InternetGateways.

Module InternetGateway.
Record t : Type := mk {
  ID : string;
  Name : string;
  ExternalNetworkID : string;
  RoutingTableID : option string;
  State : string;
  CreateTime : Time;
  TenantID : string;
  MigrateStatus : string;
  MigrateError : option string
}.
Definition zero : t := mk "" "" "" None "" zeroTime "" "" None.

Definition set_ID (r : t) x := mk x (Name r) (ExternalNetworkID r) (RoutingTableID r) (State r) (CreateTime r) (TenantID r) (MigrateStatus r) (MigrateError r).
Definition set_Name (r : t) x := mk (ID r) x (ExternalNetworkID r) (RoutingTableID r) (State r) (CreateTime r) (TenantID r) (MigrateStatus r) (MigrateError r).
Definition set_ExternalNetworkID (r : t) x := mk (ID r) (Name r) x (RoutingTableID r) (State r) (CreateTime r) (TenantID r) (MigrateStatus r) (MigrateError r).
Definition set_RoutingTableID (r : t) x := mk (ID r) (Name r) (ExternalNetworkID r) x (State r) (CreateTime r) (TenantID r) (MigrateStatus r) (MigrateError r).
Definition set_State (r : t) x := mk (ID r) (Name r) (ExternalNetworkID r) (RoutingTableID r) x (CreateTime r) (TenantID r) (MigrateStatus r) (MigrateError r).
Definition set_CreateTime (r : t) x := mk (ID r) (Name r) (ExternalNetworkID r) (RoutingTableID r) (State r) x (TenantID r) (MigrateStatus r) (MigrateError r).
Definition set_TenantID (r : t) x := mk (ID r) (Name r) (ExternalNetworkID r) (RoutingTableID r) (State r) (CreateTime r) x (MigrateStatus r) (MigrateError r).
Definition set_MigrateStatus (r : t) x := mk (ID r) (Name r) (ExternalNetworkID r) (RoutingTableID r) (State r) (CreateTime r) (TenantID r) x (MigrateError r).
Definition set_MigrateError (r : t) x := mk (ID r) (Name r) (ExternalNetworkID r) (RoutingTableID r) (State r) (CreateTime r) (TenantID r) (MigrateStatus r) x.

(** The local struct of [UnmarshalJSON]: the embedded [tmp] (the gateway
    without its methods, whose own [CreateTime] is tagged "-" and so not
    decoded) and [CreateTime string], tagged "create_time". *)
Record s_t : Type := mk_s { tmp : t; s_CreateTime : string }.

Definition s_member (s : s_t) (kv : string * json) : result s_t :=
  let k := fst kv in
  let v := snd kv in
  let r := tmp s in
  if field_match "id" k then x <- unmarshal_string (ID r) v ;; Ok (mk_s (set_ID r x) (s_CreateTime s))
  else if field_match "name" k then x <- unmarshal_string (Name r) v ;; Ok (mk_s (set_Name r x) (s_CreateTime s))
  else if field_match "external_network_id" k then x <- unmarshal_string (ExternalNetworkID r) v ;; Ok (mk_s (set_ExternalNetworkID r x) (s_CreateTime s))
  else if field_match "routingtable_id" k then x <- unmarshal_string_ptr (RoutingTableID r) v ;; Ok (mk_s (set_RoutingTableID r x) (s_CreateTime s))
  else if field_match "state" k then x <- unmarshal_string (State r) v ;; Ok (mk_s (set_State r x) (s_CreateTime s))
  else if field_match "tenant_id" k then x <- unmarshal_string (TenantID r) v ;; Ok (mk_s (set_TenantID r x) (s_CreateTime s))
  else if field_match "migrate_status" k then x <- unmarshal_string (MigrateStatus r) v ;; Ok (mk_s (set_MigrateStatus r x) (s_CreateTime s))
  else if field_match "migrate_error" k then x <- unmarshal_string_ptr (MigrateError r) v ;; Ok (mk_s (set_MigrateError r x) (s_CreateTime s))
  else if field_match "create_time" k then x <- unmarshal_string (s_CreateTime s) v ;; Ok (mk_s r x)
  else Ok s.

(** UnmarshalJSON implements custom JSON unmarshaling for InternetGateway.
    The receiver is overwritten as a whole, so it is not an argument; on
    an error no gateway is delivered. *)
Definition UnmarshalJSON (b : json) : result t :=
  match unmarshal_struct s_member (mk_s zero "") b with
  | Err err => Err err
  | Ok s =>
      let r := tmp s in
      if negb (String.eqb (s_CreateTime s) "") then
        match Parse layout_space (s_CreateTime s) with
        | Err err => Err err
        | Ok t' => Ok (set_CreateTime r t')
        end
      else Ok r
  end.
End InternetGateway.

(** The local struct of [InternetGatewayPage.NextPageURL]: [Links], tagged
    "internetgateways_links". *)
Definition internetgateways_links_member (links : list Link.t)
  (kv : string * json) : result (list Link.t) :=
  if field_match "internetgateways_links" (fst kv)
  then unmarshal_slice (unmarshal_struct Link.member Link.zero) (snd kv)
  else Ok links.

(** NextPageURL extracts the next page URL from the response *)
Definition InternetGatewayPage_NextPageURL (r : Result) : result string :=
  match ExtractInto r (unmarshal_struct internetgateways_links_member []) with
  | Err err => Err err
  | Ok links => ExtractNextURL links
  end.

(** The local struct of [ExtractInternetGateways]: [InternetGateways
    []InternetGateway], tagged "internetgateways"; every element goes through
    [InternetGateway.UnmarshalJSON]. *)
Definition internetgateways_member (l : list InternetGateway.t)
  (kv : string * json) : result (list InternetGateway.t) :=
  if field_match "internetgateways" (fst kv)
  then unmarshal_slice InternetGateway.UnmarshalJSON (snd kv)
  else Ok l.

(** ExtractInternetGateways extracts Internet Gateways from a List result *)
Definition ExtractInternetGateways (r : Result)
  : result (list InternetGateway.t) :=
  ExtractInto r (unmarshal_struct internetgateways_member []).

(** IsEmpty determines if an InternetGatewayPage contains any results *)
Definition InternetGatewayPage_IsEmpty (r : Result) : result bool :=
  match ExtractInternetGateways r with
  | Ok internetgateways => Ok (Nat.eqb (List.length internetgateways) 0)
  | Err err => Err err
  end.

(** The local struct of the two [Extract]: [InternetGateway
    *InternetGateway], tagged "internetgateway".  A null stores the nil
    pointer; any other value goes to [InternetGateway.UnmarshalJSON]. *)
Definition internetgateway_member (p : option InternetGateway.t)
  (kv : string * json) : result (option InternetGateway.t) :=
  if field_match "internetgateway" (fst kv) then
    match snd kv with
    | JNull => Ok None
    | v => g <- InternetGateway.UnmarshalJSON v ;; Ok (Some g)
    end
  else Ok p.

(** Extract extracts an InternetGateway from a GetResult *)
Definition GetResult_Extract (r : Result) : result (option InternetGateway.t) :=
  ExtractInto r (unmarshal_struct internetgateway_member None).

(** Extract extracts an InternetGateway from a CreateResult *)
Definition CreateResult_Extract (r : Result)
  : result (option InternetGateway.t) :=
  ExtractInto r (unmarshal_struct internetgateway_member None).

End InternetGateways.

(** ** Package openstack: errors.go *)

Module Openstack.

(** BaseError is an error type that all other error types embed. *)
Record BaseError : Type := mkBaseError {
  DefaultErrString : string;
  Info : string
}.

Definition choseErrString (e : BaseError) : string :=
  if negb (String.eqb (Info e) "") then Info e else DefaultErrString e.

(** The receiver is a copy: the assignment is seen by [choseErrString]
    only. *)
Definition BaseError_Error (e : BaseError) : string :=
  let e := mkBaseError
             "An error occurred while executing a Gophercloud request."
             (Info e) in
  choseErrString e.

(** ErrTimeOut is the error type returned when an operations times out. *)
Definition ErrTimeOut_Error (e : BaseError) : string :=
  let e := mkBaseError "A time out occurred" (Info e) in
  choseErrString e.

(** ErrUnexpectedResponseCode is returned by the Request method when a
    response code other than those listed in OkCodes is encountered. *)
Record ErrUnexpectedResponseCode : Type := mkErrUnexpectedResponseCode {
  Base : BaseError;
  URL : string;
  Method : string;
  Expected : list Z;
  Actual : Z;
  Body_ : string;
  ResponseHeader : list (string * list string)
}.

(** A non-nil Go error as [errors.As] sees it: an error of the type it looks
    for, or an error of another type, which may wrap one error.  (Errors that
    wrap several errors, or that have an [As] method of their own, are not
    modelled.) *)
Inductive goerror : Type :=
| CodeError (e : ErrUnexpectedResponseCode)
| OtherError (msg : string)
| WrapError (msg : string) (inner : goerror).

(** [errors.As(err, &codeError)]: the first error of the chain that has the
    type of the target. *)
Fixpoint As (err : goerror) : option ErrUnexpectedResponseCode :=
  match err with
  | CodeError e => Some e
  | OtherError _ => None
  | WrapError _ inner => As inner
  end.

(** ResponseCodeIs returns true if this error is or contains an
    ErrUnexpectedResponseCode reporting that the request failed with the
    given response code.  [None] is the nil error. *)
Definition ResponseCodeIs (err : option goerror) (status : Z) : bool :=
  match err with
  | None => false
  | Some e =>
      match As e with
      | Some codeError => Actual codeError =? status
      | None => false
      end
  end.

End Openstack.

(** * Vocabulary of the statements *)

Import RoutingTables.

Definition nonEmpty (s : string) : bool := negb (String.eqb s "").

Definition isStrOrNull (v : json) : bool :=
  match v with JStr _ | JNull => true | _ => false end.

(** A member of a reference object that the decoder can take: a member
    matching "id" or "name" has to hold a string or null. *)
Definition goodRefMember (kv : string * json) : bool :=
  if field_match "id" (fst kv) || field_match "name" (fst kv)
  then isStrOrNull (snd kv) else true.

(** The payloads that the reference decoders accept. *)
Definition refAccepts (v : json) : bool :=
  match v with
  | JStr _ | JNull => true
  | JObj members => forallb goodRefMember members
  | JNum _ | JBool _ | JArr _ => false
  end.

Definition noMember (name : string) (members : list (string * json)) : bool :=
  forallb (fun kv => negb (field_match name (fst kv))) members.

(** What one day of an era has to satisfy: its date is a real date, and the
    way back gives the day again. *)
Definition era_day_ok (doe : Z) : bool :=
  let '(yoe, m, d) := of_doe doe in
  (0 <=? yoe) && (yoe <? 400) && (1 <=? m) && (m <=? 12) && (1 <=? d)
  && (d <=? daysIn m (if m <=? 2 then yoe + 1 else yoe))
  && (doe_of yoe m d =? doe).

Fixpoint all_from (n : nat) (z : Z) (p : Z -> bool) : bool :=
  match n with
  | O => true
  | S n' => p z && all_from n' (z + 1) p
  end.

Definition d2 (x : Z) : string :=
  String (digit_char (x / 10)) (String (digit_char (x mod 10)) "").
Definition d4 (x : Z) : string :=
  String (digit_char (x / 1000)) (String (digit_char (x / 100 mod 10))
    (String (digit_char (x / 10 mod 10)) (String (digit_char (x mod 10)) ""))).

(** The seconds, followed by nothing or by a byte that starts no fraction. *)
Definition no_fraction (rest : string) : bool :=
  match rest with
  | String c _ => negb (commaOrPeriod c)
  | EmptyString => true
  end.

(** Strings of bytes that [json.Marshal] copies and that are no quote. *)
Fixpoint allb (p : ascii -> bool) (s : string) : bool :=
  match s with
  | EmptyString => true
  | String c s' => p c && allb p s'
  end.

(** The offset of a time in minutes, and the text that the Z07:00 element
    writes for an offset other than zero. *)
Definition zoneMinutes (t : Time) : Z := Z.quot (t_offset t) 60.

Definition zone_text (t : Time) : string :=
  (if zoneMinutes t <? 0 then "-" else "+")
  ++ appendInt (Z.abs (zoneMinutes t) / 60) 2 ++ ":"
  ++ appendInt (Z.abs (zoneMinutes t) mod 60) 2 ++ "".

(** The literal text of a layout holds only bytes that are copied. *)
Definition literals_safe (l : layout) : bool :=
  forallb (fun c => match c with lit text => allb htmlSafe text | _ => true end) l.

(** The value that a map built from the members holds for a key: the one of
    the last member with exactly that key. *)
Fixpoint lookup (key : string) (members : list (string * json)) : option json :=
  match members with
  | [] => None
  | (k, v) :: members' =>
      match lookup key members' with
      | Some v' => Some v'
      | None => if String.eqb k key then Some v else None
      end
  end.

(** The values of the members that the struct decoder takes for a field. *)
Definition matching (name : string) (members : list (string * json)) : list json :=
  map snd (filter (fun kv => field_match name (fst kv)) members).

(** The map that [json.Unmarshal] builds from the members of an object. *)
Definition to_map (members : list (string * json)) : gomap :=
  fold_left (fun m kv => map_set m (fst kv) (snd kv))
    (map (fun kv => (fst kv, to_iface (snd kv))) members) [].

(** A reference element: a string or an object. *)
Definition isRef (v : json) : bool :=
  match v with JStr _ | JObj _ => true | _ => false end.

(** An element that is a number, a boolean or an array. *)
Definition hardMalformed (v : json) : bool :=
  match v with JNum _ | JBool _ | JArr _ => true | _ => false end.

(** The string that an object holds for a key, if it holds one. *)
Definition strField (key : string) (members : list (string * json)) : string :=
  match lookup key members with
  | Some (JStr s) => s
  | _ => ""
  end.

(** The reference that a well-formed element stands for. *)
Definition vpcOf (v : json) : FlexibleVPCInfo.t :=
  match v with
  | JStr s => FlexibleVPCInfo.mk s ""
  | JObj members => FlexibleVPCInfo.mk (strField "id" members) (strField "name" members)
  | _ => FlexibleVPCInfo.zero
  end.

Definition subnetOf (v : json) : FlexibleSubnetInfo.t :=
  match v with
  | JStr s => FlexibleSubnetInfo.mk s ""
  | JObj members =>
      FlexibleSubnetInfo.mk (strField "id" members) (strField "name" members)
  | _ => FlexibleSubnetInfo.zero
  end.

(** What the struct decoder does with one value for the pointer field. *)
Definition decode_ptr (p : option RoutingTable.t) (v : json)
  : result (option RoutingTable.t) :=
  s_member p ("routingtable", v).

Definition notQuote (c : ascii) : bool := negb (Ascii.eqb c quote).

Inductive field : Type :=
| fID | fName | fDefaultTable | fDistributed | fGatewayID | fGatewayName
| fTenantID | fState | fCreateTime | fVPCs | fSubnets | fRoutes.

(** The json tag of a field. *)
Definition fieldName (F : field) : string :=
  match F with
  | fID => "id" | fName => "name" | fDefaultTable => "default_table"
  | fDistributed => "distributed" | fGatewayID => "gateway_id"
  | fGatewayName => "gateway_name" | fTenantID => "tenant_id"
  | fState => "state" | fCreateTime => "create_time" | fVPCs => "vpcs"
  | fSubnets => "subnets" | fRoutes => "routes"
  end.

Definition isNil {A} (l : list A) : bool :=
  match l with [] => true | _ => false end.

(** Whether a field holds the zero value of its type. *)
Definition fieldIsZero (F : field) (rt : RoutingTable.t) : bool :=
  match F with
  | fID => String.eqb (RoutingTable.ID rt) ""
  | fName => String.eqb (RoutingTable.Name rt) ""
  | fDefaultTable => negb (RoutingTable.DefaultTable rt)
  | fDistributed => negb (RoutingTable.Distributed rt)
  | fGatewayID => String.eqb (RoutingTable.GatewayID rt) ""
  | fGatewayName => String.eqb (RoutingTable.GatewayName rt) ""
  | fTenantID => String.eqb (RoutingTable.TenantID rt) ""
  | fState => String.eqb (RoutingTable.State rt) ""
  | fCreateTime =>
      let t := NHNCloudTime.Time_ (RoutingTable.CreateTime rt) in
      (t_sec t =? 0) && (t_nsec t =? 0) && (t_offset t =? 0)
  | fVPCs => isNil (RoutingTable.VPCs rt)
  | fSubnets => isNil (RoutingTable.Subnets rt)
  | fRoutes => isNil (RoutingTable.Routes rt)
  end.

(** A value of another JSON type than the field takes (null is no type). *)
Definition wrongType (F : field) (v : json) : bool :=
  match F with
  | fID | fName | fGatewayID | fGatewayName | fTenantID | fState
  | fCreateTime => negb (isStrOrNull v)
  | fDefaultTable | fDistributed =>
      match v with JBool _ | JNull => false | _ => true end
  | fVPCs | fSubnets | fRoutes =>
      match v with JArr _ | JNull => false | _ => true end
  end.

(** The boolean, the number and the optional string that an object holds for
    a key, if it holds one. *)
Definition boolField (key : string) (members : list (string * json)) : bool :=
  match lookup key members with
  | Some (JBool b) => b
  | _ => false
  end.

Definition numField (key : string) (members : list (string * json)) : Z :=
  match lookup key members with
  | Some (JNum n) => n
  | _ => 0
  end.

Definition optStrField (key : string) (members : list (string * json))
  : option string :=
  match lookup key members with
  | Some (JStr s) => Some s
  | _ => None
  end.

Definition isObj (v : json) : bool :=
  match v with JObj _ => true | _ => false end.

(** An element whose mask, if it is an object with one, is a number that a
    float64 holds exactly (the fallback reads numbers as float64). *)
Definition exactMask (v : json) : bool :=
  match v with
  | JObj members => Z.abs (numField "mask" members) <=? 2 ^ 53
  | _ => true
  end.

(** The route that an object element stands for, field by field. *)
Definition routeOf (v : json) : Route.t :=
  match v with
  | JObj members =>
      Route.mk (strField "id" members) (strField "cidr" members)
        (numField "mask" members) (strField "gateway" members)
        (strField "gateway_id" members) (optStrField "description" members)
        (strField "routingtable_id" members) (strField "tenant_id" members)
        (boolField "hidden" members)
  | _ => Route.zero
  end.

(** At most one member of the object is taken for the field [name], and its
    key is spelled exactly like the json tag. *)
Fixpoint spelledOnce (name : string) (members : list (string * json)) : bool :=
  match members with
  | [] => true
  | kv :: members' =>
      (if field_match name (fst kv)
       then String.eqb (fst kv) name && noMember name members'
       else true)
      && spelledOnce name members'
  end.

Definition plainKeys (names : list string) (members : list (string * json))
  : bool :=
  forallb (fun name => spelledOnce name members) names.

(** A reference element written as a string, or as an object with plain
    keys. *)
Definition plainRef (v : json) : bool :=
  match v with
  | JStr _ => true
  | JObj members => plainKeys ["id"; "name"] members
  | _ => false
  end.

(** A route object with plain keys and an exact mask. *)
Definition plainRoute (v : json) : bool :=
  match v with
  | JObj members =>
      plainKeys ["id"; "cidr"; "mask"; "gateway"; "gateway_id"; "description";
                 "routingtable_id"; "tenant_id"; "hidden"] members
      && exactMask v
  | _ => false
  end.

(** The errors of a chain, from the outermost to the innermost. *)
Fixpoint chain (err : Openstack.goerror) : list Openstack.goerror :=
  err :: match err with
         | Openstack.WrapError _ inner => chain inner
         | _ => []
         end.

(** * Properties *)

(** ** Generic facts about the decoders *)

Section StructDecoding.
Context {A : Type} (member : A -> string * json -> result A).

Lemma fold_step_err (m : list (string * json)) (e : error) :
  fold_left (step member) m (Err e) = Err e.
Proof. induction m as [|kv m IH]; simpl; auto. Qed.

Lemma unmarshal_struct_obj (cur : A) (m : list (string * json)) :
  unmarshal_struct member cur (JObj m) = fold_left (step member) m (Ok cur).
Proof. reflexivity. Qed.

Lemma fold_step_cons (kv : string * json) (m : list (string * json)) (a : A) :
  fold_left (step member) (kv :: m) (Ok a) = fold_left (step member) m (member a kv).
Proof. reflexivity. Qed.

Lemma fold_step_app (m1 m2 : list (string * json)) (r : result A) :
  fold_left (step member) (m1 ++ m2) r = fold_left (step member) m2 (fold_left (step member) m1 r).
Proof. apply fold_left_app. Qed.

(** A failing member fails the whole object. *)
Lemma fold_step_member_err (m1 m2 : list (string * json)) kv (a : A) :
  (forall a', is_ok (member a' kv) = false) ->
  is_ok (fold_left (step member) (m1 ++ kv :: m2) (Ok a)) = false.
Proof.
  intros Hbad. rewrite fold_step_app. simpl.
  destruct (fold_left (step member) m1 (Ok a)) as [a1|e] eqn:E1.
  - simpl. specialize (Hbad a1). destruct (member a1 kv); [discriminate|].
    now rewrite fold_step_err.
  - simpl. now rewrite fold_step_err.
Qed.

(** A projection that the untouched members leave alone is preserved. *)
Lemma fold_step_preserve {B} (proj : A -> B) (touch : string -> bool) :
  (forall a kv a', touch (fst kv) = false -> member a kv = Ok a' ->
                   proj a' = proj a) ->
  forall m a a',
    forallb (fun kv => negb (touch (fst kv))) m = true ->
    fold_left (step member) m (Ok a) = Ok a' -> proj a' = proj a.
Proof.
  intros Hm m. induction m as [|kv m IH]; intros a a' Hall Hf; simpl in *.
  - now inversion Hf.
  - apply andb_true_iff in Hall as [Hk Hall].
    apply negb_true_iff in Hk.
    destruct (member a kv) as [a1|e] eqn:E.
    + rewrite (IH a1 a' Hall Hf). eapply Hm; eauto.
    + rewrite fold_step_err in Hf. discriminate.
Qed.

(** Success of the whole object, member by member. *)
Lemma fold_step_ok (good : string * json -> bool) :
  (forall a kv, is_ok (member a kv) = good kv) ->
  forall m a, is_ok (fold_left (step member) m (Ok a)) = forallb good m.
Proof.
  intros Hm m. induction m as [|kv m IH]; intros a; simpl; auto.
  specialize (Hm a kv). destruct (member a kv) as [a1|e]; simpl in Hm.
  - rewrite <- Hm. simpl. apply IH.
  - rewrite <- Hm. simpl. now rewrite fold_step_err.
Qed.
End StructDecoding.

(** ** The accessors (C10) *)

Section RangeLoops.
Context {A : Type} (f : A -> string).

Lemma store_app (pre post : list string) (y x : string) :
  RoutingTable.store (pre ++ y :: post) (List.length pre) x
  = (pre ++ x :: post)%list.
Proof. induction pre as [|p pre IH]; simpl; auto. now rewrite IH. Qed.

Lemma range_store (l : list A) :
  forall pre post : list string, List.length post = List.length l ->
    RoutingTable.range_loop (fun ids i x => RoutingTable.store ids i (f x))
      l (List.length pre) (pre ++ post)%list
    = (pre ++ map f l)%list.
Proof.
  induction l as [|x l IH]; intros pre post Hlen; simpl.
  - destruct post; [|discriminate]. reflexivity.
  - destruct post as [|y post]; [discriminate|].
    rewrite store_app.
    replace (pre ++ f x :: post)%list with ((pre ++ [f x]) ++ post)%list
      by (rewrite <- app_assoc; reflexivity).
    replace (S (List.length pre)) with (List.length (pre ++ [f x]))
      by (rewrite length_app; simpl; lia).
    rewrite IH by (simpl in Hlen; lia).
    rewrite <- app_assoc. reflexivity.
Qed.

Lemma range_names (l : list A) :
  forall (i : nat) (acc : list string),
    RoutingTable.range_loop
      (fun names (_ : nat) x =>
         if negb (String.eqb (f x) "") then (names ++ [f x])%list else names)
      l i acc
    = (acc ++ filter nonEmpty (map f l))%list.
Proof.
  induction l as [|x l IH]; intros i acc; simpl.
  - now rewrite app_nil_r.
  - rewrite IH. unfold nonEmpty at 2.
    destruct (negb (f x =? "")%string); simpl; auto.
    now rewrite <- app_assoc.
Qed.
End RangeLoops.

(** C10: the ID accessors return one entry per element of the reference
    list, in order, empty IDs included; the name accessors return the
    non-empty names in order, so that a names list can be shorter than its
    reference list. *)
Theorem accessors_project_references :
  (forall rt : RoutingTable.t,
      RoutingTable.GetVPCIDs rt = map FlexibleVPCInfo.ID (RoutingTable.VPCs rt)
      /\ RoutingTable.GetSubnetIDs rt
         = map FlexibleSubnetInfo.ID (RoutingTable.Subnets rt)
      /\ RoutingTable.GetVPCNames rt
         = filter nonEmpty (map FlexibleVPCInfo.Name (RoutingTable.VPCs rt))
      /\ RoutingTable.GetSubnetNames rt
         = filter nonEmpty
             (map FlexibleSubnetInfo.Name (RoutingTable.Subnets rt))
      /\ List.length (RoutingTable.GetVPCIDs rt)
         = List.length (RoutingTable.VPCs rt)
      /\ List.length (RoutingTable.GetSubnetIDs rt)
         = List.length (RoutingTable.Subnets rt)
      /\ (List.length (RoutingTable.GetVPCNames rt)
          <= List.length (RoutingTable.VPCs rt))%nat
      /\ (List.length (RoutingTable.GetSubnetNames rt)
          <= List.length (RoutingTable.Subnets rt))%nat)
  /\ (exists rt : RoutingTable.t,
        RoutingTable.GetVPCIDs rt = ["vpc-1"; ""]
        /\ RoutingTable.GetVPCNames rt = []
        /\ RoutingTable.GetSubnetIDs rt = [""; "subnet-2"]
        /\ RoutingTable.GetSubnetNames rt = ["second"]).
Proof.
  split.
  - intros rt.
    assert (Hv : RoutingTable.GetVPCIDs rt
                 = map FlexibleVPCInfo.ID (RoutingTable.VPCs rt)).
    { unfold RoutingTable.GetVPCIDs.
      apply (range_store FlexibleVPCInfo.ID (RoutingTable.VPCs rt) []).
      apply repeat_length. }
    assert (Hs : RoutingTable.GetSubnetIDs rt
                 = map FlexibleSubnetInfo.ID (RoutingTable.Subnets rt)).
    { unfold RoutingTable.GetSubnetIDs.
      apply (range_store FlexibleSubnetInfo.ID (RoutingTable.Subnets rt) []).
      apply repeat_length. }
    assert (Hvn : RoutingTable.GetVPCNames rt
                  = filter nonEmpty
                      (map FlexibleVPCInfo.Name (RoutingTable.VPCs rt))).
    { unfold RoutingTable.GetVPCNames.
      now rewrite (range_names FlexibleVPCInfo.Name). }
    assert (Hsn : RoutingTable.GetSubnetNames rt
                  = filter nonEmpty
                      (map FlexibleSubnetInfo.Name (RoutingTable.Subnets rt))).
    { unfold RoutingTable.GetSubnetNames.
      now rewrite (range_names FlexibleSubnetInfo.Name). }
    repeat split; auto.
    + rewrite Hv. apply length_map.
    + rewrite Hs. apply length_map.
    + rewrite Hvn. etransitivity; [apply filter_length_le|].
      now rewrite length_map.
    + rewrite Hsn. etransitivity; [apply filter_length_le|].
      now rewrite length_map.
  - exists (RoutingTable.mk "" "" false false "" "" "" "" NHNCloudTime.zero
              [FlexibleVPCInfo.mk "vpc-1" ""; FlexibleVPCInfo.mk "" ""]
              [FlexibleSubnetInfo.mk "" ""; FlexibleSubnetInfo.mk "subnet-2" "second"]
              []).
    repeat split; reflexivity.
Qed.

(** ** The flexible references (C3, C5, C6) *)

Lemma unmarshal_string_ok (cur : string) (v : json) :
  is_ok (unmarshal_string cur v) = isStrOrNull v.
Proof. destruct v; reflexivity. Qed.

Ltac member_ok_tac :=
  intros a [k v]; unfold goodRefMember; simpl;
  destruct (field_match "id" k); simpl;
  [ destruct v; reflexivity
  | destruct (field_match "name" k); simpl;
    [ destruct v; reflexivity | reflexivity ] ].

Lemma vpcAlias_member_ok :
  forall a kv, is_ok (FlexibleVPCInfo.vpcAlias_member a kv) = goodRefMember kv.
Proof. unfold FlexibleVPCInfo.vpcAlias_member. member_ok_tac. Qed.

Lemma subnetAlias_member_ok :
  forall a kv,
    is_ok (FlexibleSubnetInfo.subnetAlias_member a kv) = goodRefMember kv.
Proof. unfold FlexibleSubnetInfo.subnetAlias_member. member_ok_tac. Qed.

Lemma vpc_unmarshal_ok (fvi : FlexibleVPCInfo.t) (v : json) :
  is_ok (FlexibleVPCInfo.UnmarshalJSON fvi v) = refAccepts v.
Proof.
  destruct v; try reflexivity.
  unfold FlexibleVPCInfo.UnmarshalJSON. simpl.
  apply (fold_step_ok _ _ vpcAlias_member_ok).
Qed.

Lemma subnet_unmarshal_ok (fsi : FlexibleSubnetInfo.t) (v : json) :
  is_ok (FlexibleSubnetInfo.UnmarshalJSON fsi v) = refAccepts v.
Proof.
  destruct v; try reflexivity.
  unfold FlexibleSubnetInfo.UnmarshalJSON. simpl.
  apply (fold_step_ok _ _ subnetAlias_member_ok).
Qed.

Ltac case_unmarshal :=
  match goal with
  | |- context [bind ?r _] => destruct r; simpl
  end.

Lemma vpc_member_keeps_ID :
  forall a kv a', field_match "id" (fst kv) = false ->
    FlexibleVPCInfo.vpcAlias_member a kv = Ok a' ->
    FlexibleVPCInfo.ID a' = FlexibleVPCInfo.ID a.
Proof.
  unfold FlexibleVPCInfo.vpcAlias_member. intros a [k v] a' Hk. simpl in *.
  rewrite Hk. destruct (field_match "name" k).
  - case_unmarshal; intros H; inversion H; reflexivity.
  - intros H; inversion H; reflexivity.
Qed.

Lemma vpc_member_keeps_Name :
  forall a kv a', field_match "name" (fst kv) = false ->
    FlexibleVPCInfo.vpcAlias_member a kv = Ok a' ->
    FlexibleVPCInfo.Name a' = FlexibleVPCInfo.Name a.
Proof.
  unfold FlexibleVPCInfo.vpcAlias_member. intros a [k v] a' Hk. simpl in *.
  rewrite Hk. destruct (field_match "id" k).
  - case_unmarshal; intros H; inversion H; reflexivity.
  - intros H; inversion H; reflexivity.
Qed.

Lemma subnet_member_keeps_ID :
  forall a kv a', field_match "id" (fst kv) = false ->
    FlexibleSubnetInfo.subnetAlias_member a kv = Ok a' ->
    FlexibleSubnetInfo.ID a' = FlexibleSubnetInfo.ID a.
Proof.
  unfold FlexibleSubnetInfo.subnetAlias_member. intros a [k v] a' Hk. simpl in *.
  rewrite Hk. destruct (field_match "name" k).
  - case_unmarshal; intros H; inversion H; reflexivity.
  - intros H; inversion H; reflexivity.
Qed.

Lemma subnet_member_keeps_Name :
  forall a kv a', field_match "name" (fst kv) = false ->
    FlexibleSubnetInfo.subnetAlias_member a kv = Ok a' ->
    FlexibleSubnetInfo.Name a' = FlexibleSubnetInfo.Name a.
Proof.
  unfold FlexibleSubnetInfo.subnetAlias_member. intros a [k v] a' Hk. simpl in *.
  rewrite Hk. destruct (field_match "id" k).
  - case_unmarshal; intros H; inversion H; reflexivity.
  - intros H; inversion H; reflexivity.
Qed.

(** Where the ID of a decoded object comes from: it is the one before, or
    the string of a member matching "id". *)
Lemma vpc_fold_ID_origin (m : list (string * json)) :
  forall a a',
    fold_left (step FlexibleVPCInfo.vpcAlias_member) m (Ok a) = Ok a' ->
    FlexibleVPCInfo.ID a' = FlexibleVPCInfo.ID a
    \/ exists k, In (k, JStr (FlexibleVPCInfo.ID a')) m
                 /\ field_match "id" k = true.
Proof.
  induction m as [|[k v] m IH]; intros a a' Hf; simpl in Hf.
  - inversion Hf. now left.
  - destruct (FlexibleVPCInfo.vpcAlias_member a (k, v)) as [a1|e] eqn:E.
    2:{ rewrite fold_step_err in Hf. discriminate. }
    destruct (IH a1 a' Hf) as [Heq | [k' [Hin Hk']]].
    + rewrite Heq. unfold FlexibleVPCInfo.vpcAlias_member in E. simpl in E.
      destruct (field_match "id" k) eqn:Ek.
      * destruct v; simpl in E; inversion E; subst; simpl; auto.
        right. exists k. split; [left; reflexivity | assumption].
      * left. eapply vpc_member_keeps_ID with (kv := (k, v)); eauto.
        unfold FlexibleVPCInfo.vpcAlias_member. simpl. now rewrite Ek.
    + right. exists k'. split; [right; assumption | assumption].
Qed.

Lemma subnet_fold_ID_origin (m : list (string * json)) :
  forall a a',
    fold_left (step FlexibleSubnetInfo.subnetAlias_member) m (Ok a) = Ok a' ->
    FlexibleSubnetInfo.ID a' = FlexibleSubnetInfo.ID a
    \/ exists k, In (k, JStr (FlexibleSubnetInfo.ID a')) m
                 /\ field_match "id" k = true.
Proof.
  induction m as [|[k v] m IH]; intros a a' Hf; simpl in Hf.
  - inversion Hf. now left.
  - destruct (FlexibleSubnetInfo.subnetAlias_member a (k, v)) as [a1|e] eqn:E.
    2:{ rewrite fold_step_err in Hf. discriminate. }
    destruct (IH a1 a' Hf) as [Heq | [k' [Hin Hk']]].
    + rewrite Heq. unfold FlexibleSubnetInfo.subnetAlias_member in E. simpl in E.
      destruct (field_match "id" k) eqn:Ek.
      * destruct v; simpl in E; inversion E; subst; simpl; auto.
        right. exists k. split; [left; reflexivity | assumption].
      * left. eapply subnet_member_keeps_ID with (kv := (k, v)); eauto.
        unfold FlexibleSubnetInfo.subnetAlias_member. simpl. now rewrite Ek.
    + right. exists k'. split; [right; assumption | assumption].
Qed.

(** C3: a non-empty bare ID decodes and encodes back to itself; an object
    whose decoded name is non-empty encodes to an object that decodes to the
    same id and the same name, and the object with a non-empty id and a
    non-empty name encodes to itself. *)
Theorem flexible_reference_round_trip :
  forall (fvi : FlexibleVPCInfo.t) (fsi : FlexibleSubnetInfo.t)
         (s id name : string),
    s <> "" -> name <> "" ->
    (* bare ID *)
    (exists x, FlexibleVPCInfo.UnmarshalJSON fvi (JStr s) = Ok x
               /\ FlexibleVPCInfo.MarshalJSON x = Ok (JStr s))
    /\ (exists x, FlexibleSubnetInfo.UnmarshalJSON fsi (JStr s) = Ok x
                  /\ FlexibleSubnetInfo.MarshalJSON x = Ok (JStr s))
    (* object form *)
    /\ (FlexibleVPCInfo.UnmarshalJSON FlexibleVPCInfo.zero
          (JObj [("id", JStr id); ("name", JStr name)])
        = Ok (FlexibleVPCInfo.mk id name)
        /\ exists out,
            FlexibleVPCInfo.MarshalJSON (FlexibleVPCInfo.mk id name)
            = Ok (JObj out)
            /\ FlexibleVPCInfo.UnmarshalJSON FlexibleVPCInfo.zero (JObj out)
               = Ok (FlexibleVPCInfo.mk id name)
            /\ (id <> "" -> out = [("id", JStr id); ("name", JStr name)]))
    /\ (FlexibleSubnetInfo.UnmarshalJSON FlexibleSubnetInfo.zero
          (JObj [("id", JStr id); ("name", JStr name)])
        = Ok (FlexibleSubnetInfo.mk id name)
        /\ exists out,
            FlexibleSubnetInfo.MarshalJSON (FlexibleSubnetInfo.mk id name)
            = Ok (JObj out)
            /\ FlexibleSubnetInfo.UnmarshalJSON FlexibleSubnetInfo.zero
                 (JObj out)
               = Ok (FlexibleSubnetInfo.mk id name)
            /\ (id <> "" -> out = [("id", JStr id); ("name", JStr name)])).
Proof.
  intros fvi fsi s id name Hs Hname.
  apply String.eqb_neq in Hs. apply String.eqb_neq in Hname.
  repeat split.
  - exists (FlexibleVPCInfo.mk s ""). split; [reflexivity|].
    unfold FlexibleVPCInfo.MarshalJSON. simpl. now rewrite Hs.
  - exists (FlexibleSubnetInfo.mk s ""). split; [reflexivity|].
    unfold FlexibleSubnetInfo.MarshalJSON. simpl. now rewrite Hs.
  - unfold FlexibleVPCInfo.MarshalJSON, FlexibleVPCInfo.marshal_vpcAlias.
    simpl. rewrite Hname. simpl.
    destruct (String.eqb id "") eqn:Eid.
    + apply String.eqb_eq in Eid. subst id.
      exists [("name", JStr name)]. repeat split. intros H; now elim H.
    + exists [("id", JStr id); ("name", JStr name)]. repeat split.
  - unfold FlexibleSubnetInfo.MarshalJSON, FlexibleSubnetInfo.marshal_subnetAlias.
    simpl. rewrite Hname. simpl.
    destruct (String.eqb id "") eqn:Eid.
    + apply String.eqb_eq in Eid. subst id.
      exists [("name", JStr name)]. repeat split. intros H; now elim H.
    + exists [("id", JStr id); ("name", JStr name)]. repeat split.
Qed.

Lemma flexible_reference_round_trip_witness :
  (exists x, FlexibleVPCInfo.UnmarshalJSON FlexibleVPCInfo.zero (JStr "vpc-1")
             = Ok x
             /\ FlexibleVPCInfo.MarshalJSON x = Ok (JStr "vpc-1"))
  /\ FlexibleSubnetInfo.UnmarshalJSON FlexibleSubnetInfo.zero
       (JObj [("id", JStr "subnet-2"); ("name", JStr "second")])
     = Ok (FlexibleSubnetInfo.mk "subnet-2" "second").
Proof.
  pose proof (flexible_reference_round_trip FlexibleVPCInfo.zero
                FlexibleSubnetInfo.zero "vpc-1" "subnet-2" "second") as H.
  assert (H1 : "vpc-1" <> "") by discriminate.
  assert (H2 : "second" <> "") by discriminate.
  destruct (H H1 H2) as [Hv [_ [_ [Hs _]]]].
  split; [exact Hv | exact Hs].
Defined.

(** C5, as the code has it: a reference decoder fails exactly on a number, a
    boolean, an array, and on an object in which a member matching "id" or
    "name" holds something other than a string or null; in an object that is
    accepted, a field without a matching member is left unset. *)
Theorem flexible_reference_failures :
  forall (fvi : FlexibleVPCInfo.t) (fsi : FlexibleSubnetInfo.t) (v : json),
    is_ok (FlexibleVPCInfo.UnmarshalJSON fvi v) = refAccepts v
    /\ is_ok (FlexibleSubnetInfo.UnmarshalJSON fsi v) = refAccepts v
    /\ (forall members x,
           v = JObj members ->
           FlexibleVPCInfo.UnmarshalJSON FlexibleVPCInfo.zero v = Ok x ->
           (noMember "id" members = true -> FlexibleVPCInfo.ID x = "")
           /\ (noMember "name" members = true -> FlexibleVPCInfo.Name x = ""))
    /\ (forall members x,
           v = JObj members ->
           FlexibleSubnetInfo.UnmarshalJSON FlexibleSubnetInfo.zero v = Ok x ->
           (noMember "id" members = true -> FlexibleSubnetInfo.ID x = "")
           /\ (noMember "name" members = true
               -> FlexibleSubnetInfo.Name x = "")).
Proof.
  intros fvi fsi v. split; [apply vpc_unmarshal_ok|].
  split; [apply subnet_unmarshal_ok|]. split.
  - intros members x -> Hx. unfold FlexibleVPCInfo.UnmarshalJSON in Hx.
    simpl in Hx. split; intros Hno.
    + apply (fold_step_preserve _ FlexibleVPCInfo.ID (field_match "id")
               vpc_member_keeps_ID members _ _ Hno Hx).
    + apply (fold_step_preserve _ FlexibleVPCInfo.Name (field_match "name")
               vpc_member_keeps_Name members _ _ Hno Hx).
  - intros members x -> Hx. unfold FlexibleSubnetInfo.UnmarshalJSON in Hx.
    simpl in Hx. split; intros Hno.
    + apply (fold_step_preserve _ FlexibleSubnetInfo.ID (field_match "id")
               subnet_member_keeps_ID members _ _ Hno Hx).
    + apply (fold_step_preserve _ FlexibleSubnetInfo.Name (field_match "name")
               subnet_member_keeps_Name members _ _ Hno Hx).
Qed.

Lemma flexible_reference_failures_witness :
  is_ok (FlexibleVPCInfo.UnmarshalJSON FlexibleVPCInfo.zero
           (JObj [("id", JStr "vpc-2")])) = true
  /\ FlexibleVPCInfo.Name (FlexibleVPCInfo.mk "vpc-2" "") = "".
Proof.
  destruct (flexible_reference_failures FlexibleVPCInfo.zero
              FlexibleSubnetInfo.zero (JObj [("id", JStr "vpc-2")]))
    as [Hok [_ [Habsent _]]].
  split; [exact Hok|].
  refine (proj2 (Habsent [("id", JStr "vpc-2")] (FlexibleVPCInfo.mk "vpc-2" "")
                   eq_refl eq_refl) eq_refl).
Defined.

(** C5 as stated fails: an object is rejected when its "id" is a number. *)
Lemma flexible_reference_rejects_object :
  FlexibleVPCInfo.UnmarshalJSON FlexibleVPCInfo.zero (JObj [("id", JNum 5)])
  = Err UnmarshalTypeError
  /\ FlexibleSubnetInfo.UnmarshalJSON FlexibleSubnetInfo.zero
       (JObj [("id", JStr "s"); ("name", JArr [])])
     = Err UnmarshalTypeError.
Proof. split; reflexivity. Qed.

(** C6, as the code has it: after a successful decode into a fresh
    reference, a bare string has become the id and the name is empty; a
    non-empty name only comes from an object; a non-empty id is the bare
    string, or the string of an object member matching "id". *)
Theorem flexible_reference_fields :
  forall (v : json),
    (forall x, FlexibleVPCInfo.UnmarshalJSON FlexibleVPCInfo.zero v = Ok x ->
       (forall s, v = JStr s ->
                  FlexibleVPCInfo.ID x = s /\ FlexibleVPCInfo.Name x = "")
       /\ (FlexibleVPCInfo.Name x <> "" -> exists members, v = JObj members)
       /\ (FlexibleVPCInfo.ID x <> "" ->
           v = JStr (FlexibleVPCInfo.ID x)
           \/ exists members k,
               v = JObj members
               /\ In (k, JStr (FlexibleVPCInfo.ID x)) members
               /\ field_match "id" k = true))
    /\ (forall x,
         FlexibleSubnetInfo.UnmarshalJSON FlexibleSubnetInfo.zero v = Ok x ->
         (forall s, v = JStr s ->
                    FlexibleSubnetInfo.ID x = s
                    /\ FlexibleSubnetInfo.Name x = "")
         /\ (FlexibleSubnetInfo.Name x <> ""
             -> exists members, v = JObj members)
         /\ (FlexibleSubnetInfo.ID x <> "" ->
             v = JStr (FlexibleSubnetInfo.ID x)
             \/ exists members k,
                 v = JObj members
                 /\ In (k, JStr (FlexibleSubnetInfo.ID x)) members
                 /\ field_match "id" k = true)).
Proof.
  intros v. split; intros x Hx.
  - destruct v; try discriminate.
    + inversion Hx; subst; simpl.
      split; [intros s' Hs; discriminate|].
      split; intros H; now elim H.
    + inversion Hx; subst; simpl.
      split; [intros s' Hs; inversion Hs; subst; split; reflexivity|].
      split; [intros H; now elim H | intros _; now left].
    + unfold FlexibleVPCInfo.UnmarshalJSON in Hx. simpl in Hx.
      split; [intros s' Hs; discriminate|].
      split; [intros _; now exists members|].
      intros Hid. right.
      destruct (vpc_fold_ID_origin members _ _ Hx) as [Heq | [k [Hin Hk]]].
      * simpl in Heq. now elim Hid.
      * exists members, k. auto.
  - destruct v; try discriminate.
    + inversion Hx; subst; simpl.
      split; [intros s' Hs; discriminate|].
      split; intros H; now elim H.
    + inversion Hx; subst; simpl.
      split; [intros s' Hs; inversion Hs; subst; split; reflexivity|].
      split; [intros H; now elim H | intros _; now left].
    + unfold FlexibleSubnetInfo.UnmarshalJSON in Hx. simpl in Hx.
      split; [intros s' Hs; discriminate|].
      split; [intros _; now exists members|].
      intros Hid. right.
      destruct (subnet_fold_ID_origin members _ _ Hx) as [Heq | [k [Hin Hk]]].
      * simpl in Heq. now elim Hid.
      * exists members, k. auto.
Qed.

Lemma flexible_reference_fields_witness :
  FlexibleVPCInfo.ID (FlexibleVPCInfo.mk "vpc-1" "") = "vpc-1"
  /\ FlexibleVPCInfo.Name (FlexibleVPCInfo.mk "vpc-1" "") = "".
Proof.
  destruct (flexible_reference_fields (JStr "vpc-1")) as [Hv _].
  destruct (Hv (FlexibleVPCInfo.mk "vpc-1" "") eq_refl) as [Hstr _].
  exact (Hstr "vpc-1" eq_refl).
Defined.

(** C6 as stated fails: a non-null payload can decode to an empty id. *)
Lemma flexible_reference_empty_id :
  FlexibleVPCInfo.UnmarshalJSON FlexibleVPCInfo.zero
    (JObj [("name", JStr "secondvpc")])
  = Ok (FlexibleVPCInfo.mk "" "secondvpc")
  /\ FlexibleSubnetInfo.UnmarshalJSON FlexibleSubnetInfo.zero (JStr "")
     = Ok (FlexibleSubnetInfo.mk "" "").
Proof. split; reflexivity. Qed.

(** ** Null and empty timestamps (C4) *)

(** C4: a JSON null and an empty string decode without error and leave the
    timestamp as it is, so a fresh one stays unset; the unset timestamp, and
    any timestamp at the zero instant, encodes to the text null. *)
Theorem timestamp_null_and_empty :
  forall ct : NHNCloudTime.t,
    NHNCloudTime.UnmarshalJSON ct (rawText JNull) = Ok ct
    /\ NHNCloudTime.UnmarshalJSON ct (rawText (JStr "")) = Ok ct
    /\ NHNCloudTime.UnmarshalJSON NHNCloudTime.zero (rawText JNull)
       = Ok NHNCloudTime.zero
    /\ NHNCloudTime.UnmarshalJSON NHNCloudTime.zero (rawText (JStr ""))
       = Ok NHNCloudTime.zero
    /\ NHNCloudTime.MarshalJSON NHNCloudTime.zero = Ok (rawText JNull)
    /\ (IsZero (NHNCloudTime.Time_ ct) = true ->
        NHNCloudTime.MarshalJSON ct = Ok "null").
Proof.
  intros ct. repeat split.
  unfold NHNCloudTime.MarshalJSON. intros ->. reflexivity.
Qed.

Lemma timestamp_null_and_empty_witness :
  NHNCloudTime.MarshalJSON (NHNCloudTime.mk (mkTime 0 0 32400)) = Ok "null".
Proof.
  exact (proj2 (proj2 (proj2 (proj2 (proj2
           (timestamp_null_and_empty (NHNCloudTime.mk (mkTime 0 0 32400)))))))
           eq_refl).
Defined.

(** ** The next page (C8) *)

Lemma fold_step_skip {A} (member : A -> string * json -> result A)
  (touch : string -> bool) :
  (forall a kv, touch (fst kv) = false -> member a kv = Ok a) ->
  forall m a,
    forallb (fun kv => negb (touch (fst kv))) m = true ->
    fold_left (step member) m (Ok a) = Ok a.
Proof.
  intros Hm m. induction m as [|kv m IH]; intros a Hall; simpl in *; auto.
  apply andb_true_iff in Hall as [Hk Hall]. apply negb_true_iff in Hk.
  unfold step at 1. simpl. rewrite (Hm a kv Hk). now apply IH.
Qed.

(** C8: a list response without a "routingtables_links" member has no next
    page: the URL is empty and there is no error. *)
Theorem no_links_no_next_page :
  forall members : list (string * json),
    noMember "routingtables_links" members = true ->
    RoutingTablePage_NextPageURL (mkResult (JObj members) None) = Ok "".
Proof.
  intros members Hno.
  unfold RoutingTablePage_NextPageURL, ExtractInto. simpl.
  rewrite (fold_step_skip links_member (field_match "routingtables_links"));
    auto.
  intros a kv Hk. unfold links_member. now rewrite Hk.
Qed.

Lemma no_links_no_next_page_witness :
  RoutingTablePage_NextPageURL
    (mkResult (JObj [("routingtables", JArr [JObj [("id", JStr "rt-1")]])]) None)
  = Ok "".
Proof.
  apply (no_links_no_next_page
           [("routingtables", JArr [JObj [("id", JStr "rt-1")]])]).
  reflexivity.
Defined.

(** ** The calendar *)

Lemma all_from_spec (p : Z -> bool) (n : nat) :
  forall z, all_from n z p = true ->
            forall x, z <= x < z + Z.of_nat n -> p x = true.
Proof.
  induction n as [|n IH]; intros z H x Hx.
  - simpl in Hx. lia.
  - simpl in H. apply andb_true_iff in H as [Hz Hrest].
    destruct (Z.eq_dec x z) as [->|Hne]; auto.
    apply (IH (z + 1) Hrest). lia.
Qed.

Lemma era_checked : all_from (Z.to_nat 146097) 0 era_day_ok = true.
Proof. vm_compute. reflexivity. Qed.

Lemma era_day (doe : Z) :
  0 <= doe < 146097 -> era_day_ok doe = true.
Proof.
  intros H. apply (all_from_spec era_day_ok (Z.to_nat 146097) 0 era_checked).
  rewrite Z2Nat.id; lia.
Qed.

Lemma isLeap_era (y k : Z) : isLeap (y + k * 400) = isLeap y.
Proof.
  unfold isLeap.
  replace ((y + k * 400) mod 4) with (y mod 4)
    by (replace (k * 400) with (k * 100 * 4) by lia;
        now rewrite Z_mod_plus_full).
  replace ((y + k * 400) mod 100) with (y mod 100)
    by (replace (k * 400) with (k * 4 * 100) by lia;
        now rewrite Z_mod_plus_full).
  now rewrite Z_mod_plus_full.
Qed.

Lemma daysIn_era (m y k : Z) : daysIn m (y + k * 400) = daysIn m y.
Proof. unfold daysIn. now rewrite isLeap_era. Qed.

(** The date of a day is a real date, and [daysSinceEpoch] leads back. *)
Lemma civil_valid (days : Z) :
  let '(y, m, d) := civil days in
  1 <= m <= 12 /\ 1 <= d <= daysIn m y /\ daysSinceEpoch y m d = days.
Proof.
  unfold civil.
  set (z := days + 306).
  set (era := z / 146097).
  set (doe := z - era * 146097).
  assert (Hdoe : 0 <= doe < 146097).
  { unfold doe, era. pose proof (Z.div_mod z 146097 ltac:(lia)).
    pose proof (Z.mod_pos_bound z 146097 ltac:(lia)). lia. }
  pose proof (era_day doe Hdoe) as Hok. unfold era_day_ok in Hok.
  destruct (of_doe doe) as [[yoe m] d].
  repeat (apply andb_true_iff in Hok as [Hok ?]).
  repeat match goal with
         | H : (_ <=? _) = true |- _ => apply Z.leb_le in H
         | H : (_ <? _) = true |- _ => apply Z.ltb_lt in H
         | H : (_ =? _) = true |- _ => apply Z.eqb_eq in H
         end.
  assert (Hy : (if m <=? 2 then yoe + era * 400 + 1 else yoe + era * 400)
               = (if m <=? 2 then yoe + 1 else yoe) + era * 400).
  { destruct (m <=? 2); lia. }
  rewrite Hy. rewrite daysIn_era.
  split; [lia|]. split; [lia|].
  unfold daysSinceEpoch.
  assert (Hy' : (if m <=? 2
                 then (if m <=? 2 then yoe + 1 else yoe) + era * 400 - 1
                 else (if m <=? 2 then yoe + 1 else yoe) + era * 400)
                = yoe + era * 400).
  { destruct (m <=? 2); lia. }
  rewrite Hy'.
  assert (Hera : (yoe + era * 400) / 400 = era).
  { rewrite Z.div_add by lia. rewrite Z.div_small by lia. lia. }
  rewrite Hera.
  replace (yoe + era * 400 - era * 400) with yoe by lia.
  unfold doe in *. lia.
Qed.

(** The clock of a second of the day. *)
Lemma clock_valid (secs : Z) :
  0 <= secs < 86400 ->
  0 <= secs / 3600 < 24
  /\ 0 <= secs mod 3600 / 60 < 60
  /\ 0 <= secs mod 60 < 60
  /\ secs / 3600 * 3600 + secs mod 3600 / 60 * 60 + secs mod 60 = secs.
Proof.
  intros H.
  pose proof (Z.div_mod secs 3600 ltac:(lia)).
  pose proof (Z.mod_pos_bound secs 3600 ltac:(lia)).
  pose proof (Z.div_mod (secs mod 3600) 60 ltac:(lia)).
  pose proof (Z.mod_pos_bound (secs mod 3600) 60 ltac:(lia)).
  pose proof (Z.mod_pos_bound secs 60 ltac:(lia)).
  assert (secs mod 60 = (secs mod 3600) mod 60).
  { symmetry. apply Z.mod_mod_divide. exists 60. lia. }
  repeat split; lia.
Qed.

(** ** Reading what [Format] writes (C2, C9) *)

Lemma digit_cases (k : Z) (P : Z -> Prop) :
  0 <= k <= 9 ->
  P 0 -> P 1 -> P 2 -> P 3 -> P 4 -> P 5 -> P 6 -> P 7 -> P 8 -> P 9 -> P k.
Proof.
  intros H.
  assert (k = 0 \/ k = 1 \/ k = 2 \/ k = 3 \/ k = 4 \/ k = 5 \/ k = 6
          \/ k = 7 \/ k = 8 \/ k = 9) as Hk by lia.
  intros; repeat (destruct Hk as [->|Hk]; auto). subst; auto.
Qed.

Lemma isDigitChar_digit (k : Z) : 0 <= k <= 9 -> isDigitChar (digit_char k) = true.
Proof. intros H. apply (digit_cases k (fun k => isDigitChar (digit_char k) = true) H); reflexivity. Qed.

Lemma digit_val_digit (k : Z) : 0 <= k <= 9 -> digit_val (digit_char k) = k.
Proof. intros H. apply (digit_cases k (fun k => digit_val (digit_char k) = k) H); reflexivity. Qed.

Lemma htmlSafe_digit (k : Z) : 0 <= k <= 9 -> htmlSafe (digit_char k) = true.
Proof. intros H. apply (digit_cases k (fun k => htmlSafe (digit_char k) = true) H); reflexivity. Qed.

Lemma digit_neq (k : Z) (c : ascii) :
  0 <= k <= 9 -> isDigitChar c = false -> Ascii.eqb (digit_char k) c = false.
Proof.
  intros H Hc. destruct (Ascii.eqb_spec (digit_char k) c) as [<-|]; auto.
  rewrite isDigitChar_digit in Hc by assumption. discriminate.
Qed.

Lemma appendInt_2 (x : Z) : 0 <= x < 100 -> appendInt x 2 = d2 x.
Proof.
  intros H. unfold appendInt. rewrite Z.abs_eq by lia.
  replace (x <? 0) with false by (symmetry; apply Z.ltb_ge; lia).
  replace (x <? 100) with true by (symmetry; apply Z.ltb_lt; lia).
  reflexivity.
Qed.

Lemma appendInt_4 (x : Z) : 0 <= x < 10000 -> appendInt x 4 = d4 x.
Proof.
  intros H. unfold appendInt. rewrite Z.abs_eq by lia.
  replace (x <? 0) with false by (symmetry; apply Z.ltb_ge; lia).
  replace (x <? 10000) with true by (symmetry; apply Z.ltb_lt; lia).
  reflexivity.
Qed.

Lemma d2_digits (x : Z) : 0 <= x < 100 -> 0 <= x / 10 <= 9 /\ 0 <= x mod 10 <= 9 /\ x / 10 * 10 + x mod 10 = x.
Proof. intros H. Z.to_euclidean_division_equations. lia. Qed.

Lemma d4_digits (x : Z) : 0 <= x < 10000 ->
  0 <= x / 1000 <= 9 /\ 0 <= x / 100 mod 10 <= 9 /\ 0 <= x / 10 mod 10 <= 9 /\ 0 <= x mod 10 <= 9
  /\ ((x / 1000 * 10 + x / 100 mod 10) * 10 + x / 10 mod 10) * 10 + x mod 10 = x.
Proof. intros H. Z.to_euclidean_division_equations. lia. Qed.

Lemma getnum_d2 (x : Z) (rest : string) (fixed : bool) :
  0 <= x < 100 -> getnum (d2 x ++ rest) fixed = Ok (x, rest).
Proof.
  intros H. destruct (d2_digits x H) as (Ha & Hb & Hx).
  unfold d2. simpl. unfold getnum.
  rewrite !isDigitChar_digit by assumption.
  rewrite !digit_val_digit by assumption. now rewrite Hx.
Qed.

Lemma len_cons (c : ascii) (s : string) : len (String c s) = 1 + len s.
Proof. unfold len. simpl String.length. lia. Qed.

Lemma len_nonneg (s : string) : 0 <= len s.
Proof. unfold len. lia. Qed.

Lemma parse_loop_cons (c : chunk) (l : layout) (f : fields) (v : string) :
  parse_loop (c :: l) f v
  = bind (parse_std c l f v) (fun p => parse_loop l (fst p) (snd p)).
Proof. simpl. destruct (parse_std c l f v) as [[f' v']|e]; reflexivity. Qed.

Lemma P_year (l : layout) (f : fields) (y : Z) (rest : string) :
  0 <= y < 10000 ->
  parse_std stdLongYear l f (appendInt y 4 ++ rest)
  = Ok (mkFields y (f_month f) (f_day f) (f_hour f) (f_min f) (f_sec f)
          (f_nsec f) (f_z f) (f_zoneOffset f), rest).
Proof.
  intros H. rewrite appendInt_4 by assumption.
  destruct (d4_digits y H) as (H1 & H2 & H3 & H4 & Hy).
  unfold d4. cbn [append]. unfold parse_std.
  replace (4 <=? len _) with true
    by (symmetry; apply Z.leb_le; rewrite !len_cons;
        pose proof (len_nonneg rest); lia).
  unfold isDigit. cbn [String.get]. rewrite isDigitChar_digit by assumption.
  cbn [andb take drop]. unfold atoi.
  rewrite !(digit_neq _ _ H1) by reflexivity.
  cbn [leadingInt]. rewrite !isDigitChar_digit by assumption.
  rewrite !digit_val_digit by assumption. cbn [bind].
  replace ((((0 * 10 + y / 1000) * 10 + y / 100 mod 10) * 10 + y / 10 mod 10) * 10 + y mod 10) with y by lia.
  reflexivity.
Qed.

Lemma P_month (l : layout) (f : fields) (m : Z) (rest : string) :
  1 <= m <= 12 ->
  parse_std stdZeroMonth l f (appendInt m 2 ++ rest)
  = Ok (mkFields (f_year f) m (f_day f) (f_hour f) (f_min f) (f_sec f)
          (f_nsec f) (f_z f) (f_zoneOffset f), rest).
Proof.
  intros H. rewrite appendInt_2 by lia. unfold parse_std.
  rewrite getnum_d2 by lia. cbn [bind].
  replace (m <=? 0) with false by (symmetry; apply Z.leb_gt; lia).
  replace (12 <? m) with false by (symmetry; apply Z.ltb_ge; lia).
  reflexivity.
Qed.

Lemma P_day (l : layout) (f : fields) (d : Z) (rest : string) :
  0 <= d < 100 ->
  parse_std stdZeroDay l f (appendInt d 2 ++ rest)
  = Ok (mkFields (f_year f) (f_month f) d (f_hour f) (f_min f) (f_sec f)
          (f_nsec f) (f_z f) (f_zoneOffset f), rest).
Proof.
  intros H. rewrite appendInt_2 by lia. unfold parse_std.
  rewrite getnum_d2 by lia. reflexivity.
Qed.

Lemma P_hour (l : layout) (f : fields) (h : Z) (rest : string) :
  0 <= h < 24 ->
  parse_std stdHour l f (appendInt h 2 ++ rest)
  = Ok (mkFields (f_year f) (f_month f) (f_day f) h (f_min f) (f_sec f)
          (f_nsec f) (f_z f) (f_zoneOffset f), rest).
Proof.
  intros H. rewrite appendInt_2 by lia. unfold parse_std.
  rewrite getnum_d2 by lia. cbn [bind].
  replace (h <? 0) with false by (symmetry; apply Z.ltb_ge; lia).
  replace (24 <=? h) with false by (symmetry; apply Z.leb_gt; lia).
  reflexivity.
Qed.

Lemma P_minute (l : layout) (f : fields) (mi : Z) (rest : string) :
  0 <= mi < 60 ->
  parse_std stdZeroMinute l f (appendInt mi 2 ++ rest)
  = Ok (mkFields (f_year f) (f_month f) (f_day f) (f_hour f) mi (f_sec f)
          (f_nsec f) (f_z f) (f_zoneOffset f), rest).
Proof.
  intros H. rewrite appendInt_2 by lia. unfold parse_std.
  rewrite getnum_d2 by lia. cbn [bind].
  replace (mi <? 0) with false by (symmetry; apply Z.ltb_ge; lia).
  replace (60 <=? mi) with false by (symmetry; apply Z.leb_gt; lia).
  reflexivity.
Qed.

Lemma P_second (l : layout) (f : fields) (s : Z) (rest : string) :
  0 <= s < 60 -> no_fraction rest = true ->
  parse_std stdZeroSecond l f (appendInt s 2 ++ rest)
  = Ok (mkFields (f_year f) (f_month f) (f_day f) (f_hour f) (f_min f) s
          (f_nsec f) (f_z f) (f_zoneOffset f), rest).
Proof.
  intros H Hr. rewrite appendInt_2 by lia. unfold parse_std.
  rewrite getnum_d2 by lia. cbn [bind].
  replace (s <? 0) with false by (symmetry; apply Z.ltb_ge; lia).
  replace (60 <=? s) with false by (symmetry; apply Z.leb_gt; lia).
  cbn [orb]. destruct rest as [|c r]; [reflexivity|].
  simpl in Hr. apply negb_true_iff in Hr. rewrite Hr.
  rewrite andb_false_r. reflexivity.
Qed.

(** The seconds followed by a fraction of zeros that the layout does not
    announce: the fraction is read all the same. *)
Lemma P_second_fraction (l : layout) (f : fields) (s : Z) (rest : string) :
  0 <= s < 60 -> is_frac (next_std l) = false ->
  rest = "" \/ rest = "Z" ->
  parse_std stdZeroSecond l f (appendInt s 2 ++ ".000000" ++ rest)
  = Ok (mkFields (f_year f) (f_month f) (f_day f) (f_hour f) (f_min f) s
          0 (f_z f) (f_zoneOffset f), rest).
Proof.
  intros H Hl Hr. rewrite appendInt_2 by lia. unfold parse_std.
  rewrite getnum_d2 by lia. cbn [bind].
  replace (s <? 0) with false by (symmetry; apply Z.ltb_ge; lia).
  replace (60 <=? s) with false by (symmetry; apply Z.leb_gt; lia).
  cbn [orb]. rewrite Hl.
  destruct Hr as [-> | ->]; reflexivity.
Qed.

Lemma P_lit_space (l : layout) (f : fields) (h : Z) (rest : string) :
  0 <= h < 100 ->
  parse_std (lit " ") l f (" " ++ appendInt h 2 ++ rest)
  = Ok (f, appendInt h 2 ++ rest).
Proof.
  intros H. rewrite appendInt_2 by lia.
  destruct (d2_digits h H) as (Ha & _ & _).
  unfold d2. cbn [append parse_std skip String.length skip_loop Ascii.eqb Bool.eqb cutspace].
  rewrite (digit_neq _ " "%char Ha) by reflexivity. reflexivity.
Qed.

Lemma P_lit_char (l : layout) (f : fields) (c : ascii) (rest : string) :
  Ascii.eqb c " " = false ->
  parse_std (lit (String c "")) l f (String c "" ++ rest) = Ok (f, rest).
Proof.
  intros Hc. cbn [append parse_std skip String.length skip_loop].
  rewrite Hc, Ascii.eqb_refl. reflexivity.
Qed.

Lemma P_zone_Z (l : layout) (f : fields) (rest : string) :
  parse_std stdISO8601ColonTZ l f ("Z" ++ rest)
  = Ok (mkFields (f_year f) (f_month f) (f_day f) (f_hour f) (f_min f)
          (f_sec f) (f_nsec f) true (f_zoneOffset f), rest).
Proof. reflexivity. Qed.

Lemma P_zone_offset (l : layout) (f : fields) (neg : bool) (hh mm : Z)
  (rest : string) :
  0 <= hh <= 24 -> 0 <= mm < 60 ->
  parse_std stdISO8601ColonTZ l f
    ((if neg then "-" else "+") ++ appendInt hh 2 ++ ":" ++ appendInt mm 2 ++ rest)
  = Ok (mkFields (f_year f) (f_month f) (f_day f) (f_hour f) (f_min f)
          (f_sec f) (f_nsec f) (f_z f)
          (if neg then - ((hh * 60 + mm) * 60) else (hh * 60 + mm) * 60),
        rest).
Proof.
  intros Hh Hm. rewrite !appendInt_2 by lia.
  pose proof (getnum_d2 hh "" true ltac:(lia)) as Gh.
  pose proof (getnum_d2 mm "" true ltac:(lia)) as Gm.
  unfold d2 in *. cbn [append] in Gh, Gm.
  assert (Hlen : forall c, (len (String c (String (digit_char (hh / 10))
            (String (digit_char (hh mod 10)) (String ":"
            (String (digit_char (mm / 10)) (String (digit_char (mm mod 10)) rest))))))
            <? 6) = false).
  { intros c. apply Z.ltb_ge. rewrite !len_cons. pose proof (len_nonneg rest). lia. }
  destruct neg; cbn [append parse_std Ascii.eqb Bool.eqb andb];
    rewrite Hlen; cbn [String.get Ascii.eqb Bool.eqb andb negb take drop];
    rewrite Gh, Gm; cbn [bind getnum isDigitChar];
    replace (24 <? hh) with false by (symmetry; apply Z.ltb_ge; lia);
    replace (60 <? mm) with false by (symmetry; apply Z.ltb_ge; lia);
    simpl; change (digit_val "0"%char) with 0; rewrite ?Z.add_0_r; reflexivity.
Qed.

Lemma allb_app (p : ascii -> bool) (s1 s2 : string) :
  allb p (s1 ++ s2) = allb p s1 && allb p s2.
Proof. induction s1 as [|c s1 IH]; simpl; auto. now rewrite IH, andb_assoc. Qed.

Lemma safe_appendInt_2 (x : Z) : 0 <= x < 100 -> allb htmlSafe (appendInt x 2) = true.
Proof.
  intros H. rewrite appendInt_2 by assumption.
  destruct (d2_digits x H) as (Ha & Hb & _). unfold d2. simpl.
  now rewrite !htmlSafe_digit.
Qed.

Lemma safe_appendInt_4 (x : Z) : 0 <= x < 10000 -> allb htmlSafe (appendInt x 4) = true.
Proof.
  intros H. rewrite appendInt_4 by assumption.
  destruct (d4_digits x H) as (H1 & H2 & H3 & H4 & _). unfold d4. simpl.
  now rewrite !htmlSafe_digit.
Qed.

Lemma escapeString_safe (s : string) :
  allb htmlSafe s = true -> escapeString s = s.
Proof.
  induction s as [|c s IH]; simpl; auto.
  intros H. apply andb_true_iff in H as [Hc Hs]. rewrite Hc. simpl.
  now rewrite IH.
Qed.

Lemma htmlSafe_not_quote (c : ascii) : htmlSafe c = true -> Ascii.eqb c quote = false.
Proof.
  unfold htmlSafe. intros H.
  repeat (apply andb_true_iff in H as [H ?]).
  now apply negb_true_iff.
Qed.

Lemma TrimRight_safe (s : string) :
  allb htmlSafe s = true -> TrimRight s quote = s.
Proof.
  induction s as [|c s IH]; simpl; auto.
  intros H. apply andb_true_iff in H as [Hc Hs]. rewrite (IH Hs).
  destruct s; [|reflexivity]. now rewrite (htmlSafe_not_quote c Hc).
Qed.

Lemma TrimRight_snoc (s : string) :
  TrimRight (s ++ String quote "") quote = TrimRight s quote.
Proof.
  induction s as [|c s IH]; simpl; auto. now rewrite IH.
Qed.

Lemma Trim_quoted (c : ascii) (s : string) :
  allb htmlSafe (String c s) = true ->
  Trim (String quote (String c s ++ String quote "")) quote = String c s.
Proof.
  intros H. unfold Trim. cbn [TrimLeft]. rewrite Ascii.eqb_refl.
  pose proof H as H'. simpl in H'. apply andb_true_iff in H' as [Hc _].
  cbn [append TrimLeft]. rewrite (htmlSafe_not_quote c Hc).
  change (String c (s ++ String quote "")) with (String c s ++ String quote "").
  rewrite TrimRight_snoc. now apply TrimRight_safe.
Qed.

Lemma unmarshal_digits_text (ct : NHNCloudTime.t) (c : ascii) (s : string) :
  isDigitChar c = true -> allb htmlSafe (String c s) = true ->
  NHNCloudTime.UnmarshalJSON ct (rawText (JStr (String c s)))
  = bind (NHNCloudTime.try_formats NHNCloudTime.formats (String c s)
            (ErrOther "<nil>"))
         (fun t' => Ok (NHNCloudTime.mk t')).
Proof.
  intros Hc Hs. unfold NHNCloudTime.UnmarshalJSON, rawText, quoted.
  rewrite escapeString_safe by assumption.
  rewrite Trim_quoted by assumption.
  assert (Hn : Ascii.eqb c "n" = false).
  { destruct (Ascii.eqb_spec c "n") as [->|]; [discriminate | reflexivity]. }
  cbn [String.eqb]. rewrite Hn. reflexivity.
Qed.

Lemma daysIn_le (m y : Z) : daysIn m y <= 31.
Proof.
  unfold daysIn. destruct (m =? 2); [destruct (isLeap y); lia|].
  destruct ((m =? 4) || (m =? 6) || (m =? 9) || (m =? 11)); lia.
Qed.

(** The wall clock of a time is a real date and a real clock, and names the
    instant. *)
Lemma wall_fields (t : Time) :
  1 <= Month t <= 12
  /\ 1 <= Day t <= daysIn (Month t) (Year t)
  /\ 0 <= Day t < 100
  /\ 0 <= Hour t < 24 /\ 0 <= Minute t < 60 /\ 0 <= Second t < 60
  /\ daysSinceEpoch (Year t) (Month t) (Day t) * 86400
     + Hour t * 3600 + Minute t * 60 + Second t
     = t_sec t + t_offset t.
Proof.
  unfold Year, Month, Day, Hour, Minute, Second.
  pose proof (civil_valid (wall_days t)) as Hc.
  destruct (civil (wall_days t)) as [[y m] d]. cbn [fst snd].
  destruct Hc as (Hm & Hd & Hdays).
  assert (Hs : 0 <= wall_secs t < 86400)
    by (unfold wall_secs; apply Z.mod_pos_bound; lia).
  destruct (clock_valid (wall_secs t) Hs) as (Hh & Hmi & Hse & Hclock).
  pose proof (daysIn_le m y).
  repeat split; try lia.
  rewrite Hdays. unfold wall_days, wall_secs in *.
  pose proof (Z.div_mod (t_sec t + t_offset t) 86400 ltac:(lia)). lia.
Qed.

(** From the fields that the loop leaves to the time that [Parse] returns. *)
Lemma Parse_of_loop (l : layout) (value : string) (t : Time) (z : bool)
  (zo : Z) :
  parse_loop l fields0 value
  = Ok (mkFields (Year t) (Month t) (Day t) (Hour t) (Minute t) (Second t)
          (t_nsec t) z zo) ->
  (z = true /\ t_offset t = 0)
  \/ (z = false /\ zo = -1 /\ t_offset t = 0)
  \/ (z = false /\ zo <> -1 /\ zo = t_offset t) ->
  Parse l value = Ok t.
Proof.
  intros Hloop Hz. unfold Parse. rewrite Hloop. cbn [bind f_year f_month f_day
    f_hour f_min f_sec f_nsec f_z f_zoneOffset].
  destruct (wall_fields t) as (Hm & Hd & _ & _ & _ & _ & Hinst).
  replace (Month t <? 0) with false by (symmetry; apply Z.ltb_ge; lia).
  replace (Day t <? 0) with false by (symmetry; apply Z.ltb_ge; lia).
  replace (Day t <? 1) with false by (symmetry; apply Z.ltb_ge; lia).
  replace (daysIn (Month t) (Year t) <? Day t) with false
    by (symmetry; apply Z.ltb_ge; lia).
  cbn [orb].
  assert (Hd0 : forall off, off = t_offset t ->
            Date (Year t) (Month t) (Day t) (Hour t) (Minute t) (Second t)
              (t_nsec t) off = t).
  { intros off ->. unfold Date. destruct t as [sec nsec off]. cbn [t_sec t_nsec t_offset] in *.
    f_equal. lia. }
  destruct Hz as [[-> Ho] | [[-> [-> Ho]] | [-> [Hne Ho]]]].
  - now rewrite (Hd0 0) by (symmetry; exact Ho).
  - cbn [negb Z.eqb]. now rewrite (Hd0 0) by (symmetry; exact Ho).
  - replace (zo =? -1) with false by (symmetry; apply Z.eqb_neq; assumption).
    cbn [negb]. now rewrite (Hd0 zo Ho).
Qed.

Ltac run_chunk :=
  rewrite parse_loop_cons;
  first [ rewrite P_year by lia
        | rewrite P_month by lia
        | rewrite P_day by lia
        | rewrite P_hour by lia
        | rewrite P_minute by lia
        | rewrite P_second by (first [lia | reflexivity])
        | rewrite P_second_fraction by (first [lia | reflexivity | (left; reflexivity) | (right; reflexivity)])
        | rewrite P_lit_space by lia
        | rewrite P_lit_char by reflexivity
        | rewrite P_zone_Z ];
  cbn [bind fst snd f_year f_month f_day f_hour f_min f_sec f_nsec f_z
       f_zoneOffset fields0].

Lemma loop_space (t : Time) :
  0 <= Year t <= 9999 ->
  parse_loop layout_space fields0 (Format layout_space t)
  = Ok (mkFields (Year t) (Month t) (Day t) (Hour t) (Minute t) (Second t)
          0 false (-1)).
Proof.
  intros Hy. destruct (wall_fields t) as (Hm & _ & Hd & Hh & Hmi & Hs & _).
  unfold layout_space. cbn [Format format_std].
  do 11 run_chunk. reflexivity.
Qed.

Lemma Parse_err (l : layout) (value : string) :
  is_ok (parse_loop l fields0 value) = false -> is_ok (Parse l value) = false.
Proof.
  unfold Parse. destruct (parse_loop l fields0 value); [discriminate|reflexivity].
Qed.

Section WholeSecond.
Variable t : Time.
Hypothesis Hy : 0 <= Year t <= 9999.

Ltac start :=
  destruct (wall_fields t) as (Hm & _ & Hd & Hh & Hmi & Hs & _);
  unfold layout_space, layout_T, layout_TZ, layout_RFC3339,
    layout_space_micro, layout_TZ_micro;
  cbn [Format format_std].

Lemma loop_T : parse_loop layout_T fields0 (Format layout_T t) = Ok (mkFields (Year t) (Month t) (Day t) (Hour t) (Minute t) (Second t)
        0 false (-1)).
Proof. start. do 11 run_chunk. reflexivity. Qed.

Lemma loop_TZ : parse_loop layout_TZ fields0 (Format layout_TZ t) = Ok (mkFields (Year t) (Month t) (Day t) (Hour t) (Minute t) (Second t)
        0 false (-1)).
Proof. start. do 12 run_chunk. reflexivity. Qed.

Lemma loop_space_on_T (l : layout) :
  is_ok (parse_loop layout_space fields0
           (Format (stdLongYear :: lit "-" :: stdZeroMonth :: lit "-"
                    :: stdZeroDay :: lit "T" :: l) t)) = false.
Proof. start. do 5 run_chunk. reflexivity. Qed.

Lemma loop_T_on_TZ :
  is_ok (parse_loop layout_T fields0 (Format layout_TZ t)) = false.
Proof. start. do 11 run_chunk. reflexivity. Qed.

Hypothesis Hnsec : t_nsec t = 0.

Lemma loop_space_on_micro :
  parse_loop layout_space fields0 (Format layout_space_micro t)
  = Ok (mkFields (Year t) (Month t) (Day t) (Hour t) (Minute t) (Second t)
        0 false (-1)).
Proof.
  start. rewrite Hnsec.
  change (formatNano 0 6) with ".000000".
  do 11 run_chunk. reflexivity.
Qed.

Lemma loop_T_on_TZ_micro :
  is_ok (parse_loop layout_T fields0 (Format layout_TZ_micro t)) = false.
Proof.
  start. rewrite Hnsec. change (formatNano 0 6) with ".000000".
  do 11 run_chunk. reflexivity.
Qed.

Lemma loop_TZ_on_TZ_micro :
  parse_loop layout_TZ fields0 (Format layout_TZ_micro t) = Ok (mkFields (Year t) (Month t) (Day t) (Hour t) (Minute t) (Second t)
        0 false (-1)).
Proof.
  start. rewrite Hnsec. change (formatNano 0 6) with ".000000".
  do 12 run_chunk. reflexivity.
Qed.
End WholeSecond.

Lemma app_assoc_s (a b c : string) : (a ++ b) ++ c = a ++ b ++ c.
Proof. induction a as [|x a IH]; simpl; auto. now rewrite IH. Qed.

Lemma zone_arith (off : Z) :
  off mod 60 = 0 -> -86400 <= off <= 86400 ->
  let zone := Z.quot off 60 in
  0 <= Z.abs zone / 60 <= 24
  /\ 0 <= Z.abs zone mod 60 < 60
  /\ (if zone <? 0
      then - ((Z.abs zone / 60 * 60 + Z.abs zone mod 60) * 60)
      else (Z.abs zone / 60 * 60 + Z.abs zone mod 60) * 60) = off.
Proof.
  intros Hmod Hr.
  assert (Hk : off = off / 60 * 60).
  { pose proof (Z.div_mod off 60 ltac:(lia)). lia. }
  set (k := off / 60) in *.
  assert (Hq : Z.quot off 60 = k) by (rewrite Hk; apply Z.quot_mul; lia).
  cbv zeta. rewrite Hq.
  pose proof (Z.div_mod (Z.abs k) 60 ltac:(lia)).
  pose proof (Z.mod_pos_bound (Z.abs k) 60 ltac:(lia)).
  assert (0 <= Z.abs k / 60 <= 24).
  { split; [apply Z.div_pos; lia|]. apply Z.div_le_upper_bound; lia. }
  repeat split; try lia.
  destruct (k <? 0) eqn:E; [apply Z.ltb_lt in E | apply Z.ltb_ge in E]; lia.
Qed.

Section WithOffset.
Variable t : Time.
Hypothesis Hy : 0 <= Year t <= 9999.
Hypothesis Hoff : t_offset t <> 0.
Hypothesis Hmod : t_offset t mod 60 = 0.
Hypothesis Hrange : -86400 <= t_offset t <= 86400.


Lemma Format_RFC3339_offset :
  Format layout_RFC3339 t
  = appendInt (Year t) 4 ++ "-" ++ appendInt (Month t) 2 ++ "-"
    ++ appendInt (Day t) 2 ++ "T" ++ appendInt (Hour t) 2 ++ ":"
    ++ appendInt (Minute t) 2 ++ ":" ++ appendInt (Second t) 2 ++ zone_text t.
Proof.
  unfold layout_RFC3339. cbn [Format format_std].
  replace (t_offset t =? 0) with false
    by (symmetry; apply Z.eqb_neq; assumption).
  cbv zeta. fold (zoneMinutes t). unfold zone_text.
  destruct (zoneMinutes t <? 0); rewrite !app_assoc_s; reflexivity.
Qed.

Ltac start :=
  destruct (wall_fields t) as (Hm & _ & Hd & Hh & Hmi & Hs & _);
  destruct (zone_arith (t_offset t) Hmod Hrange) as (Hzh & Hzm & Hzo);
  fold (zoneMinutes t) in Hzh, Hzm, Hzo;
  rewrite Format_RFC3339_offset;
  unfold layout_space, layout_T, layout_TZ, layout_RFC3339, zone_text.

Lemma loop_RFC3339_offset :
  parse_loop layout_RFC3339 fields0 (Format layout_RFC3339 t)
  = Ok (mkFields (Year t) (Month t) (Day t) (Hour t) (Minute t) (Second t)
          0 false (t_offset t)).
Proof.
  start. do 10 run_chunk.
  destruct (zoneMinutes t <? 0).
  - run_chunk. rewrite parse_loop_cons.
    rewrite (P_zone_offset _ _ true) by lia. cbn [bind fst snd parse_loop].
    now rewrite Hzo.
  - run_chunk. rewrite parse_loop_cons.
    rewrite (P_zone_offset _ _ false) by lia. cbn [bind fst snd parse_loop].
    now rewrite Hzo.
Qed.

Lemma loop_space_on_offset :
  is_ok (parse_loop layout_space fields0 (Format layout_RFC3339 t)) = false.
Proof. start. do 5 run_chunk. reflexivity. Qed.

Lemma loop_T_on_offset :
  is_ok (parse_loop layout_T fields0 (Format layout_RFC3339 t)) = false.
Proof.
  start. do 10 run_chunk. destruct (zoneMinutes t <? 0); run_chunk; reflexivity.
Qed.

Lemma loop_TZ_on_offset :
  is_ok (parse_loop layout_TZ fields0 (Format layout_RFC3339 t)) = false.
Proof.
  start. do 10 run_chunk. destruct (zoneMinutes t <? 0); run_chunk; reflexivity.
Qed.
End WithOffset.

Lemma allb_take (p : ascii -> bool) (n : nat) (s : string) :
  allb p s = true -> allb p (take n s) = true.
Proof.
  revert s. induction n as [|n IH]; intros [|c s] H; simpl in *; auto.
  apply andb_true_iff in H as [Hc Hs]. now rewrite Hc, IH.
Qed.

Lemma safe_Format (t : Time) (l : layout) :
  0 <= Year t <= 9999 -> t_nsec t = 0 ->
  t_offset t mod 60 = 0 -> -86400 <= t_offset t <= 86400 ->
  literals_safe l = true ->
  allb htmlSafe (Format l t) = true.
Proof.
  intros Hy Hn Hmod Hrange.
  destruct (wall_fields t) as (Hm & _ & Hd & Hh & Hmi & Hs & _).
  destruct (zone_arith (t_offset t) Hmod Hrange) as (Hzh & Hzm & _).
  induction l as [|c l IH]; intros Hl; [reflexivity|].
  simpl in Hl. apply andb_true_iff in Hl as [Hc Hl].
  cbn [Format]. rewrite allb_app, (IH Hl), andb_true_r.
  destruct c; cbn [format_std]; auto.
  - apply safe_appendInt_4; lia.
  - apply safe_appendInt_2; lia.
  - apply safe_appendInt_2; lia.
  - apply safe_appendInt_2; lia.
  - apply safe_appendInt_2; lia.
  - apply safe_appendInt_2; lia.
  - rewrite Hn. unfold formatNano. cbn [allb]. apply allb_take. reflexivity.
  - destruct (t_offset t =? 0); [reflexivity|]. cbv zeta.
    rewrite !allb_app, !safe_appendInt_2 by lia.
    destruct (Z.quot (t_offset t) 60 <? 0); reflexivity.
Qed.

Lemma Format_starts_with_digit (t : Time) (l : layout) :
  0 <= Year t <= 9999 ->
  exists c s, Format (stdLongYear :: l) t = String c s /\ isDigitChar c = true.
Proof.
  intros Hy. cbn [Format format_std]. rewrite appendInt_4 by lia.
  destruct (d4_digits (Year t) ltac:(lia)) as (H1 & _).
  unfold d4. cbn [append]. eexists _, _. split; [reflexivity|].
  now apply isDigitChar_digit.
Qed.

(** The first pattern that parses wins. *)
Lemma try_formats_first (pre : list layout) (f : layout) (post : list layout)
  (s : string) (t : Time) :
  forallb (fun g => negb (is_ok (Parse g s))) pre = true ->
  Parse f s = Ok t ->
  forall e, NHNCloudTime.try_formats (pre ++ f :: post) s e = Ok t.
Proof.
  intros Hpre Hf. induction pre as [|g pre IH]; intros e; simpl.
  - now rewrite Hf.
  - simpl in Hpre. apply andb_true_iff in Hpre as [Hg Hpre].
    destruct (Parse g s); [discriminate|]. now apply IH.
Qed.

Lemma Format_RFC3339_utc (t : Time) :
  t_offset t = 0 -> Format layout_RFC3339 t = Format layout_TZ t.
Proof.
  intros H. unfold layout_RFC3339, layout_TZ. cbn [Format format_std].
  now rewrite H.
Qed.

(** Decoding the text of a whole-second UTC time written in any of the six
    layouts. *)
Lemma unmarshal_utc (ct : NHNCloudTime.t) (sec : Z) (l : layout) :
  0 <= Year (mkTime sec 0 0) <= 9999 ->
  In l NHNCloudTime.formats ->
  NHNCloudTime.UnmarshalJSON ct (rawText (JStr (Format l (mkTime sec 0 0))))
  = Ok (NHNCloudTime.mk (mkTime sec 0 0)).
Proof.
  intros Hy Hin. set (t := mkTime sec 0 0) in *.
  assert (Hsafe : forall l', literals_safe l' = true ->
                             allb htmlSafe (Format l' t) = true).
  { intros l'. apply safe_Format; auto; cbn; lia. }
  assert (Hutc : (false = true /\ t_offset t = 0)
                 \/ (false = false /\ -1 = -1 /\ t_offset t = 0)
                 \/ (false = false /\ -1 <> -1 /\ -1 = t_offset t))
    by (right; left; auto).
  assert (Hrun : forall (lay : layout) (pre : list layout) (f : layout)
                        (post : list layout) l0,
             lay = stdLongYear :: l0 ->
             literals_safe lay = true ->
             NHNCloudTime.formats = (pre ++ f :: post)%list ->
             forallb (fun g => negb (is_ok (Parse g (Format lay t)))) pre = true ->
             parse_loop f fields0 (Format lay t)
             = Ok (mkFields (Year t) (Month t) (Day t) (Hour t) (Minute t)
                     (Second t) (t_nsec t) false (-1)) ->
             NHNCloudTime.UnmarshalJSON ct (rawText (JStr (Format lay t)))
             = Ok (NHNCloudTime.mk t)).
  { intros lay pre f post l0 Hlay Hlit Hfs Hpre Hloop.
    destruct (Format_starts_with_digit t l0 Hy) as (c & s & Hcs & Hc).
    pose proof (Hsafe _ Hlit) as Hsf. rewrite <- Hlay in Hcs.
    rewrite Hcs in *. rewrite unmarshal_digits_text by assumption.
    rewrite Hfs.
    rewrite (try_formats_first pre f post (String c s) t Hpre
               (Parse_of_loop f (String c s) t false (-1) Hloop Hutc)).
    reflexivity. }
  assert (E1 : forall l0,
             is_ok (Parse layout_space
                      (Format (stdLongYear :: lit "-" :: stdZeroMonth
                               :: lit "-" :: stdZeroDay :: lit "T" :: l0) t))
             = false)
    by (intros l0; apply Parse_err, loop_space_on_T, Hy).
  assert (E2 : is_ok (Parse layout_T (Format layout_TZ t)) = false)
    by (apply Parse_err, loop_T_on_TZ, Hy).
  assert (E3 : is_ok (Parse layout_T (Format layout_TZ_micro t)) = false)
    by (apply Parse_err, loop_T_on_TZ_micro; [exact Hy | reflexivity]).
  simpl in Hin.
  destruct Hin as [<- | [<- | [<- | [<- | [<- | [<- | []]]]]]].
  - apply (Hrun layout_space [] layout_space _ _
             eq_refl eq_refl eq_refl eq_refl).
    apply loop_space; assumption.
  - apply (Hrun layout_T [layout_space] layout_T _ _ eq_refl eq_refl eq_refl).
    + cbn [forallb]. unfold layout_T at 1. now rewrite E1.
    + apply loop_T; assumption.
  - apply (Hrun layout_TZ [layout_space; layout_T] layout_TZ _ _
             eq_refl eq_refl eq_refl).
    + cbn [forallb]. rewrite E2. unfold layout_TZ at 1. now rewrite E1.
    + apply loop_TZ; assumption.
  - rewrite Format_RFC3339_utc by reflexivity.
    apply (Hrun layout_TZ [layout_space; layout_T] layout_TZ _ _
             eq_refl eq_refl eq_refl).
    + cbn [forallb]. rewrite E2. unfold layout_TZ at 1. now rewrite E1.
    + apply loop_TZ; assumption.
  - apply (Hrun layout_space_micro [] layout_space _ _
             eq_refl eq_refl eq_refl eq_refl).
    apply loop_space_on_micro; auto.
  - apply (Hrun layout_TZ_micro [layout_space; layout_T] layout_TZ _ _
             eq_refl eq_refl eq_refl).
    + cbn [forallb]. rewrite E3. unfold layout_TZ_micro at 1. now rewrite E1.
    + apply loop_TZ_on_TZ_micro; auto.
Qed.

(** Decoding the RFC3339 text of a whole-second time written at an offset. *)
Lemma unmarshal_offset (ct : NHNCloudTime.t) (sec off : Z) :
  0 <= Year (mkTime sec 0 off) <= 9999 ->
  off <> 0 -> off mod 60 = 0 -> -86400 <= off <= 86400 ->
  NHNCloudTime.UnmarshalJSON ct
    (rawText (JStr (Format layout_RFC3339 (mkTime sec 0 off))))
  = Ok (NHNCloudTime.mk (mkTime sec 0 off)).
Proof.
  intros Hy Hoff Hmod Hrange. set (t := mkTime sec 0 off) in *.
  destruct (Format_starts_with_digit t
              [lit "-"; stdZeroMonth; lit "-"; stdZeroDay; lit "T"; stdHour;
               lit ":"; stdZeroMinute; lit ":"; stdZeroSecond;
               stdISO8601ColonTZ] Hy) as (c & s & Hcs & Hc).
  fold layout_RFC3339 in Hcs.
  assert (Hsf : allb htmlSafe (Format layout_RFC3339 t) = true)
    by (apply safe_Format; auto).
  assert (Hloop := loop_RFC3339_offset t Hy Hoff Hmod Hrange).
  assert (H1 := Parse_err _ _ (loop_space_on_offset t Hy Hoff Hmod Hrange)).
  assert (H2 := Parse_err _ _ (loop_T_on_offset t Hy Hoff Hmod Hrange)).
  assert (H3 := Parse_err _ _ (loop_TZ_on_offset t Hy Hoff Hmod Hrange)).
  rewrite Hcs in *. rewrite unmarshal_digits_text by assumption.
  rewrite (try_formats_first [layout_space; layout_T; layout_TZ] layout_RFC3339
             [layout_space_micro; layout_TZ_micro] (String c s) t).
  - reflexivity.
  - cbn [forallb]. now rewrite H1, H2, H3.
  - apply (Parse_of_loop _ _ t false off Hloop).
    right; right. repeat split; auto.
    intros ->. simpl in Hmod. discriminate.
Qed.

(** C2, as the code has it: a whole-second instant whose year lies in
    0000..9999, written in any of the six layouts in UTC, decodes to the one
    timestamp of that instant in UTC; written in the RFC3339 layout at an
    offset of whole minutes within a day, it decodes to the same instant
    carrying that offset; a timestamp that is not at the zero instant encodes
    to the canonical text of its wall clock at its own offset; and the first
    layout of the list that parses decides. *)
Theorem timestamp_representations_agree :
  forall (ct : NHNCloudTime.t) (sec off : Z),
    0 <= Year (mkTime sec 0 0) <= 9999 ->
    0 <= Year (mkTime sec 0 off) <= 9999 ->
    off mod 60 = 0 -> -86400 <= off <= 86400 ->
    (forall l, In l NHNCloudTime.formats ->
       NHNCloudTime.UnmarshalJSON ct
         (rawText (JStr (Format l (mkTime sec 0 0))))
       = Ok (NHNCloudTime.mk (mkTime sec 0 0)))
    /\ NHNCloudTime.UnmarshalJSON ct
         (rawText (JStr (Format layout_RFC3339 (mkTime sec 0 off))))
       = Ok (NHNCloudTime.mk (mkTime sec 0 off))
    /\ (sec <> 0 ->
        NHNCloudTime.MarshalJSON (NHNCloudTime.mk (mkTime sec 0 0))
        = Ok (String quote
                (Format layout_space (mkTime sec 0 0) ++ String quote ""))
        /\ NHNCloudTime.MarshalJSON (NHNCloudTime.mk (mkTime sec 0 off))
           = Ok (String quote
                   (Format layout_space (mkTime sec 0 off) ++ String quote "")))
    /\ (forall pre f post s t e,
           forallb (fun g => negb (is_ok (Parse g s))) pre = true ->
           Parse f s = Ok t ->
           NHNCloudTime.try_formats (pre ++ f :: post) s e = Ok t).
Proof.
  intros ct sec off Hy0 Hy Hmod Hrange.
  split; [intros l Hl; now apply unmarshal_utc|].
  split.
  { destruct (Z.eq_dec off 0) as [->|Hoff].
    - apply unmarshal_utc; [assumption|]. simpl. auto.
    - now apply unmarshal_offset. }
  split.
  { intros Hsec.
    assert (Hz : forall o, IsZero (mkTime sec 0 o) = false).
    { intros o. unfold IsZero. cbn [t_sec].
      replace (sec =? 0) with false by (symmetry; now apply Z.eqb_neq).
      reflexivity. }
    unfold NHNCloudTime.MarshalJSON. cbn [NHNCloudTime.Time_].
    rewrite !Hz. unfold rawText, quoted.
    rewrite !escapeString_safe; [split; reflexivity | |];
      apply safe_Format; auto; cbn [t_offset]; try reflexivity; lia. }
  intros pre f post s t e Hpre Hf. now apply try_formats_first.
Qed.

Lemma timestamp_representations_agree_witness :
  NHNCloudTime.UnmarshalJSON NHNCloudTime.zero
    (rawText (JStr (Format layout_RFC3339 (mkTime 63843385557 0 32400))))
  = Ok (NHNCloudTime.mk (mkTime 63843385557 0 32400)).
Proof.
  refine (proj1 (proj2 (timestamp_representations_agree NHNCloudTime.zero
                          63843385557 32400 _ _ _ _))).
  - split; apply Z.leb_le; vm_compute; reflexivity.
  - split; apply Z.leb_le; vm_compute; reflexivity.
  - reflexivity.
  - lia.
Defined.

(** C2 as stated fails: the space-separated text in UTC and the RFC3339 text
    at +09:00 name one instant, and their decoded values encode to different
    texts; and the zero instant does not encode to a formatted text. *)
Lemma timestamp_offset_encodes_wall_clock :
  Format layout_space (mkTime 63843385557 0 0) = "2024-02-13 01:45:57"
  /\ Format layout_RFC3339 (mkTime 63843385557 0 32400)
     = "2024-02-13T10:45:57+09:00"
  /\ NHNCloudTime.UnmarshalJSON NHNCloudTime.zero
       (rawText (JStr "2024-02-13 01:45:57"))
     = Ok (NHNCloudTime.mk (mkTime 63843385557 0 0))
  /\ NHNCloudTime.UnmarshalJSON NHNCloudTime.zero
       (rawText (JStr "2024-02-13T10:45:57+09:00"))
     = Ok (NHNCloudTime.mk (mkTime 63843385557 0 32400))
  /\ NHNCloudTime.MarshalJSON (NHNCloudTime.mk (mkTime 63843385557 0 0))
     = Ok (rawText (JStr "2024-02-13 01:45:57"))
  /\ NHNCloudTime.MarshalJSON (NHNCloudTime.mk (mkTime 63843385557 0 32400))
     = Ok (rawText (JStr "2024-02-13 10:45:57"))
  /\ rawText (JStr "2024-02-13 01:45:57") <> rawText (JStr "2024-02-13 10:45:57")
  /\ NHNCloudTime.UnmarshalJSON NHNCloudTime.zero
       (rawText (JStr "0001-01-01 00:00:00"))
     = Ok (NHNCloudTime.mk (mkTime 0 0 0))
  /\ NHNCloudTime.MarshalJSON (NHNCloudTime.mk (mkTime 0 0 0)) = Ok "null".
Proof.
  repeat split; try (vm_compute; reflexivity).
  vm_compute. discriminate.
Qed.

(** ** The gateway timestamp (C9) *)

Lemma field_match_excl (n1 n2 k : string) :
  field_match n1 k = true ->
  String.eqb (foldName n1) (foldName n2) = false ->
  field_match n2 k = false.
Proof.
  unfold field_match. intros H1 H2. apply String.eqb_eq in H1. now rewrite H1.
Qed.

Lemma fold_step_split {A} (member : A -> string * json -> result A)
  (pre post : list (string * json)) (kv : string * json) (a a' : A) :
  fold_left (step member) (pre ++ kv :: post) (Ok a) = Ok a' ->
  exists a1 a2,
    fold_left (step member) pre (Ok a) = Ok a1
    /\ member a1 kv = Ok a2
    /\ fold_left (step member) post (Ok a2) = Ok a'.
Proof.
  rewrite fold_step_app. simpl.
  destruct (fold_left (step member) pre (Ok a)) as [a1|e]; simpl.
  - destruct (member a1 kv) as [a2|e] eqn:E.
    + intros H. exists a1, a2. auto.
    + rewrite fold_step_err. discriminate.
  - rewrite fold_step_err. discriminate.
Qed.

Ltac skip_field k Hk n :=
  rewrite (field_match_excl _ n k Hk) by reflexivity.

Lemma gw_member_create_time (s : InternetGateways.InternetGateway.s_t) (k : string) (v : json) :
  field_match "create_time" k = true ->
  InternetGateways.InternetGateway.s_member s (k, v)
  = bind (unmarshal_string (InternetGateways.InternetGateway.s_CreateTime s) v)
      (fun x => Ok (InternetGateways.InternetGateway.mk_s (InternetGateways.InternetGateway.tmp s) x)).
Proof.
  intros Hk. unfold InternetGateways.InternetGateway.s_member. cbn [fst snd].
  skip_field k Hk "id". skip_field k Hk "name".
  skip_field k Hk "external_network_id". skip_field k Hk "routingtable_id".
  skip_field k Hk "state". skip_field k Hk "tenant_id".
  skip_field k Hk "migrate_status". skip_field k Hk "migrate_error".
  now rewrite Hk.
Qed.

Ltac gw_cases k :=
  unfold InternetGateways.InternetGateway.s_member; cbn [fst snd];
  repeat match goal with
    | |- context [field_match ?n k] =>
        lazymatch goal with
        | H : field_match n k = _ |- _ => rewrite H
        | _ => let E := fresh "E" in destruct (field_match n k) eqn:E
        end
    end.

Lemma gw_member_keeps_create_time :
  forall s kv s', field_match "create_time" (fst kv) = false ->
    InternetGateways.InternetGateway.s_member s kv = Ok s' ->
    InternetGateways.InternetGateway.s_CreateTime s' = InternetGateways.InternetGateway.s_CreateTime s.
Proof.
  intros s [k v] s' Hk. cbn [fst] in Hk. gw_cases k;
    try (case_unmarshal; intros H; inversion H; reflexivity);
    intros H; inversion H; reflexivity.
Qed.

Lemma gw_member_keeps_tmp_time :
  forall s kv s', (fun _ : string => false) (fst kv) = false ->
    InternetGateways.InternetGateway.s_member s kv = Ok s' ->
    InternetGateways.InternetGateway.CreateTime (InternetGateways.InternetGateway.tmp s')
    = InternetGateways.InternetGateway.CreateTime (InternetGateways.InternetGateway.tmp s).
Proof.
  intros s [k v] s' _. gw_cases k;
    try (case_unmarshal; intros H; inversion H; reflexivity);
    intros H; inversion H; reflexivity.
Qed.

Lemma forallb_const_true {A} (m : list A) :
  forallb (fun kv => negb ((fun _ : string => false) "")) m = true.
Proof. induction m; simpl; auto. Qed.

Lemma gw_struct_create_time (pre post : list (string * json)) (k s : string)
  (st : InternetGateways.InternetGateway.s_t) :
  field_match "create_time" k = true ->
  noMember "create_time" post = true ->
  unmarshal_struct InternetGateways.InternetGateway.s_member
    (InternetGateways.InternetGateway.mk_s InternetGateways.InternetGateway.zero "")
    (JObj (pre ++ (k, JStr s) :: post)) = Ok st ->
  InternetGateways.InternetGateway.s_CreateTime st = s.
Proof.
  intros Hk Hpost Hst. simpl in Hst.
  destruct (fold_step_split _ _ _ _ _ _ Hst) as (s1 & s2 & _ & Hm & Hp).
  rewrite gw_member_create_time in Hm by assumption. simpl in Hm.
  inversion Hm; subst s2.
  now rewrite (fold_step_preserve _ InternetGateways.InternetGateway.s_CreateTime
                 (field_match "create_time") gw_member_keeps_create_time
                 post _ _ Hpost Hp).
Qed.

Lemma gw_struct_tmp_time (members : list (string * json))
  (st : InternetGateways.InternetGateway.s_t) :
  unmarshal_struct InternetGateways.InternetGateway.s_member
    (InternetGateways.InternetGateway.mk_s InternetGateways.InternetGateway.zero "") (JObj members) = Ok st ->
  InternetGateways.InternetGateway.CreateTime (InternetGateways.InternetGateway.tmp st) = zeroTime.
Proof.
  intros Hst. simpl in Hst.
  apply (fold_step_preserve _
           (fun s => InternetGateways.InternetGateway.CreateTime (InternetGateways.InternetGateway.tmp s))
           (fun _ => false) gw_member_keeps_tmp_time members _ _) in Hst; auto.
  clear. induction members; simpl; auto.
Qed.

(** C9, as the code has it: the gateway decoder hands a non-empty
    "create_time" string to [time.Parse] under the one layout
    2006-01-02 15:04:05: when that rejects the string the whole gateway
    fails, and when it accepts it the time is stored; an empty or absent
    "create_time" leaves the zero time without error.  The layout rejects the
    T-separated, Z and offset texts of a time; it accepts the exact text, and
    also the exact text followed by a fraction of a second. *)
Theorem gateway_create_time_single_layout :
  (forall (pre post : list (string * json)) (k s : string),
      field_match "create_time" k = true ->
      noMember "create_time" post = true ->
      s <> "" ->
      (is_ok (Parse layout_space s) = false ->
       is_ok (InternetGateways.InternetGateway.UnmarshalJSON (JObj (pre ++ (k, JStr s) :: post)))
       = false)
      /\ (forall t st,
             Parse layout_space s = Ok t ->
             unmarshal_struct InternetGateways.InternetGateway.s_member
               (InternetGateways.InternetGateway.mk_s InternetGateways.InternetGateway.zero "")
               (JObj (pre ++ (k, JStr s) :: post)) = Ok st ->
             InternetGateways.InternetGateway.UnmarshalJSON (JObj (pre ++ (k, JStr s) :: post))
             = Ok (InternetGateways.InternetGateway.set_CreateTime (InternetGateways.InternetGateway.tmp st) t)))
  /\ (forall (members : list (string * json)) (st : InternetGateways.InternetGateway.s_t),
         (noMember "create_time" members = true
          \/ exists pre k post,
              members = (pre ++ (k, JStr "") :: post)%list
              /\ field_match "create_time" k = true
              /\ noMember "create_time" post = true) ->
         unmarshal_struct InternetGateways.InternetGateway.s_member
           (InternetGateways.InternetGateway.mk_s InternetGateways.InternetGateway.zero "") (JObj members) = Ok st ->
         InternetGateways.InternetGateway.UnmarshalJSON (JObj members) = Ok (InternetGateways.InternetGateway.tmp st)
         /\ InternetGateways.InternetGateway.CreateTime (InternetGateways.InternetGateway.tmp st) = zeroTime)
  /\ (forall (t : Time) (l : layout),
         0 <= Year t <= 9999 ->
         In l [layout_T; layout_TZ; layout_RFC3339; layout_TZ_micro] ->
         is_ok (Parse layout_space (Format l t)) = false)
  /\ (forall sec : Z,
         0 <= Year (mkTime sec 0 0) <= 9999 ->
         Parse layout_space (Format layout_space (mkTime sec 0 0))
         = Ok (mkTime sec 0 0)
         /\ Parse layout_space (Format layout_space_micro (mkTime sec 0 0))
            = Ok (mkTime sec 0 0)).
Proof.
  split; [|split; [|split]].
  - intros pre post k s Hk Hpost Hs. apply String.eqb_neq in Hs.
    split.
    + intros Hparse. unfold InternetGateways.InternetGateway.UnmarshalJSON.
      destruct (unmarshal_struct _ _ _) as [st|e] eqn:Hst; [|reflexivity].
      rewrite (gw_struct_create_time pre post k s st Hk Hpost Hst).
      rewrite Hs. cbn [negb].
      destruct (Parse layout_space s); [discriminate|reflexivity].
    + intros t st Hparse Hst. unfold InternetGateways.InternetGateway.UnmarshalJSON.
      rewrite Hst.
      rewrite (gw_struct_create_time pre post k s st Hk Hpost Hst).
      rewrite Hs. cbn [negb]. now rewrite Hparse.
  - intros members st Hcase Hst.
    split; [|now apply (gw_struct_tmp_time members)].
    unfold InternetGateways.InternetGateway.UnmarshalJSON. rewrite Hst.
    assert (Hct : InternetGateways.InternetGateway.s_CreateTime st = "").
    { destruct Hcase as [Hno | (pre & k & post & -> & Hk & Hpost)].
      - simpl in Hst.
        apply (fold_step_preserve _ InternetGateways.InternetGateway.s_CreateTime
                 (field_match "create_time") gw_member_keeps_create_time
                 members _ _ Hno Hst).
      - now apply (gw_struct_create_time pre post k "" st). }
    now rewrite Hct.
  - intros t l Hy Hin. apply Parse_err. simpl in Hin.
    destruct Hin as [<- | [<- | [<- | [<- | []]]]];
      apply (loop_space_on_T t Hy).
  - intros sec Hy. split.
    + apply (Parse_of_loop _ _ (mkTime sec 0 0) false (-1)).
      * now apply loop_space.
      * right; left; auto.
    + apply (Parse_of_loop _ _ (mkTime sec 0 0) false (-1)).
      * now apply loop_space_on_micro.
      * right; left; auto.
Qed.

Lemma gateway_create_time_single_layout_witness :
  is_ok (InternetGateways.InternetGateway.UnmarshalJSON
           (JObj [("id", JStr "igw-1");
                  ("create_time", JStr "2024-02-13T10:45:57")])) = false.
Proof.
  refine (proj1 (proj1 gateway_create_time_single_layout
                   [("id", JStr "igw-1")] [] "create_time"
                   "2024-02-13T10:45:57" _ _ _) _).
  - reflexivity.
  - reflexivity.
  - discriminate.
  - vm_compute. reflexivity.
Defined.

(** C9 as stated fails: a string that is not in the exact format, because a
    fraction follows the seconds, is accepted. *)
Lemma gateway_accepts_fraction :
  InternetGateways.InternetGateway.UnmarshalJSON
    (JObj [("id", JStr "igw-1");
           ("create_time", JStr "2024-02-13 10:45:57.123456")])
  = Ok (InternetGateways.InternetGateway.mk "igw-1" "" "" None ""
          (mkTime 63843417957 123456000 0) "" "" None)
  /\ "2024-02-13 10:45:57.123456"
     <> Format layout_space (mkTime 63843417957 123456000 0).
Proof. split; [vm_compute; reflexivity | vm_compute; discriminate]. Qed.

(** ** Extracting a routing table (C1, C7) *)

Lemma map_get_set (m : gomap) (k key : string) (v : iface) :
  map_get (map_set m k v) key
  = if String.eqb k key then Some v else map_get m key.
Proof.
  induction m as [|[k0 v0] m IH]; simpl.
  - reflexivity.
  - destruct (String.eqb k0 k) eqn:E0; simpl.
    + apply String.eqb_eq in E0. subst k0.
      destruct (String.eqb k key); reflexivity.
    + destruct (String.eqb k0 key) eqn:E1.
      * apply String.eqb_eq in E1. subst k0.
        rewrite String.eqb_sym in E0. now rewrite E0.
      * apply IH.
  Qed.

Lemma map_get_fold (members : list (string * json)) (key : string) :
  forall acc,
    map_get (fold_left (fun m kv => map_set m (fst kv) (snd kv))
               (map (fun kv => (fst kv, to_iface (snd kv))) members) acc) key
    = match lookup key members with
      | Some v => Some (to_iface v)
      | None => map_get acc key
      end.
Proof.
  induction members as [|[k v] members IH]; intros acc; simpl.
  - reflexivity.
  - rewrite IH. destruct (lookup key members); [reflexivity|].
    rewrite map_get_set. cbn [fst snd].
    destruct (String.eqb k key); reflexivity.
Qed.

Lemma map_get_to_map (members : list (string * json)) (key : string) :
  map_get (to_map members) key = option_map to_iface (lookup key members).
Proof.
  unfold to_map. rewrite map_get_fold. destruct (lookup key members); reflexivity.
Qed.

Lemma to_iface_obj (members : list (string * json)) :
  to_iface (JObj members) = IMap (to_map members).
Proof. reflexivity. Qed.

Lemma lookup_split (key : string) (members : list (string * json)) (v : json) :
  lookup key members = Some v ->
  exists pre post, members = (pre ++ (key, v) :: post)%list.
Proof.
  induction members as [|[k0 v0] members IH]; simpl; [discriminate|].
  destruct (lookup key members) as [v'|] eqn:E.
  - intros H. inversion H; subst v'.
    destruct (IH eq_refl) as (pre & post & ->).
    exists ((k0, v0) :: pre), post. reflexivity.
  - destruct (String.eqb k0 key) eqn:Ek; [|discriminate].
    intros H. inversion H; subst v0. apply String.eqb_eq in Ek. subst k0.
    exists [], members. reflexivity.
Qed.

Lemma noMember_lookup (name : string) (members : list (string * json)) :
  noMember name members = true -> lookup name members = None.
Proof.
  induction members as [|[k v] members IH]; simpl; [reflexivity|].
  intros H. apply andb_true_iff in H as [Hk H]. rewrite (IH H).
  destruct (String.eqb k name) eqn:E; [|reflexivity].
  apply String.eqb_eq in E. subst k.
  unfold field_match in Hk. now rewrite String.eqb_refl in Hk.
Qed.

(** *** The envelope *)

Lemma s_member_match (p : option RoutingTable.t) (k : string) (v : json) :
  s_member p (k, v)
  = if field_match "routingtable" k then decode_ptr p v else Ok p.
Proof.
  unfold decode_ptr, s_member. cbn [fst snd].
  change (field_match "routingtable" "routingtable") with true.
  destruct (field_match "routingtable" k); reflexivity.
Qed.

Lemma fold_s_member (bm : list (string * json)) :
  forall r,
    fold_left (step s_member) bm r
    = fold_left (fun r v => bind r (fun p => decode_ptr p v))
        (matching "routingtable" bm) r.
Proof.
  unfold matching.
  induction bm as [|[k v] bm IH]; intros r; simpl; [reflexivity|].
  rewrite IH. destruct (field_match "routingtable" k) eqn:E; simpl.
  - f_equal. unfold step. destruct r; simpl; [|reflexivity].
    now rewrite s_member_match, E.
  - f_equal. unfold step. destruct r; simpl; [|reflexivity].
    now rewrite s_member_match, E.
Qed.

Lemma fold_response_member (bm : list (string * json)) :
  forall r,
    fold_left (step response_member) bm r
    = fold_left (fun r v => bind r (fun _ => Ok (Some v)))
        (matching "routingtable" bm) r.
Proof.
  unfold matching.
  induction bm as [|[k v] bm IH]; intros r; simpl; [reflexivity|].
  rewrite IH. unfold step, response_member. cbn [fst snd].
  destruct (field_match "routingtable" k) eqn:E; simpl.
  - reflexivity.
  - f_equal. destruct r; reflexivity.
Qed.

(** [Extract] on an envelope whose one "routingtable" member is an object:
    the strict decoding of the object, and on its failure the field-by-field
    parse of the object's map. *)
Lemma Extract_object (bm rtm : list (string * json)) :
  matching "routingtable" bm = [JObj rtm] ->
  RoutingTableResult_Extract (mkResult (JObj bm) None)
  = match RoutingTable.unmarshal RoutingTable.zero (JObj rtm) with
    | Ok rt => Ok (Some rt)
    | Err _ => parseRoutingTableFromMap (to_map rtm)
    end.
Proof.
  intros Hm.
  unfold RoutingTableResult_Extract,
    RoutingTableResult_ExtractRoutingTableWithFallback, ExtractInto.
  cbn [Err_ Body unmarshal_struct].
  rewrite fold_s_member, fold_response_member, Hm.
  cbn [fold_left bind]. unfold decode_ptr, s_member. cbn [fst snd].
  change (field_match "routingtable" "routingtable") with true. cbn iota.
  destruct (RoutingTable.unmarshal RoutingTable.zero (JObj rtm)) as [rt|e] eqn:E;
    cbn [bind unmarshal_raw].
  - reflexivity.
  - rewrite E. reflexivity.
Qed.

(** *** A timestamp of the wrong JSON type *)

Lemma TrimRight_noquote (s : string) :
  allb notQuote s = true -> TrimRight s quote = s.
Proof.
  induction s as [|c s IH]; simpl; auto.
  intros H. apply andb_true_iff in H as [Hc Hs]. rewrite (IH Hs).
  destruct s; [|reflexivity].
  unfold notQuote in Hc. apply negb_true_iff in Hc. now rewrite Hc.
Qed.

Lemma TrimRight_last (s : string) (c : ascii) :
  Ascii.eqb c quote = false ->
  TrimRight (s ++ String c "") quote = s ++ String c "".
Proof.
  intros Hc. induction s as [|a s IH]; simpl.
  - now rewrite Hc.
  - rewrite IH. destruct s; reflexivity.
Qed.

Lemma isDigitChar_notQuote (c : ascii) : isDigitChar c = true -> notQuote c = true.
Proof.
  intros H. unfold notQuote. apply negb_true_iff.
  destruct (Ascii.eqb_spec c quote) as [->|]; [discriminate|reflexivity].
Qed.

Lemma allb_impl (p q : ascii -> bool) (s : string) :
  (forall c, p c = true -> q c = true) -> allb p s = true -> allb q s = true.
Proof.
  intros Hpq. induction s as [|c s IH]; simpl; auto.
  intros H. apply andb_true_iff in H as [Hc Hs]. now rewrite (Hpq c Hc), IH.
Qed.

Lemma utod_digits (fuel : nat) :
  forall u acc, 0 <= u -> allb isDigitChar acc = true ->
                allb isDigitChar (utod fuel u acc) = true.
Proof.
  induction fuel as [|fuel IH]; intros u acc Hu Hacc; simpl; auto.
  destruct (u <? 10) eqn:E.
  - apply Z.ltb_lt in E. simpl. rewrite isDigitChar_digit by lia. assumption.
  - apply IH.
    + apply Z.div_pos; lia.
    + simpl. rewrite isDigitChar_digit; [assumption|].
      pose proof (Z.mod_pos_bound u 10 ltac:(lia)). lia.
Qed.

Lemma utod_nonempty (fuel : nat) :
  forall u acc, acc <> "" \/ (0 < fuel)%nat -> utod fuel u acc <> "".
Proof.
  induction fuel as [|fuel IH]; intros u acc H; simpl.
  - destruct H as [H|H]; [assumption|lia].
  - destruct (u <? 10); [discriminate|]. apply IH. left. discriminate.
Qed.

Lemma zeros_digits (n : nat) : allb isDigitChar (zeros n) = true.
Proof. induction n; simpl; auto. Qed.

(** The text of a number: digits, after a minus sign for a negative one. *)
Lemma number_text (n : Z) :
  exists ds, appendInt n 1 = (if n <? 0 then "-" else "") ++ ds
             /\ allb isDigitChar ds = true /\ ds <> "".
Proof.
  unfold appendInt. cbn [Nat.eqb andb].
  set (ds := utod _ _ _).
  exists (zeros (1 - String.length ds) ++ ds). split; [reflexivity|]. split.
  - rewrite allb_app, zeros_digits. apply utod_digits; [lia|reflexivity].
  - assert (ds <> "") by (apply utod_nonempty; right; lia).
    destruct (zeros (1 - String.length ds)); simpl; [assumption|discriminate].
Qed.

Lemma leadingInt_digits (s : string) :
  allb isDigitChar s = true -> forall x, exists q, leadingInt s x = (q, "").
Proof.
  induction s as [|c s IH]; simpl; intros H x.
  - now exists x.
  - apply andb_true_iff in H as [Hc Hs]. rewrite Hc. apply IH; assumption.
Qed.

(** No layout that starts with the year reads a text that does not start
    with a digit. *)
Lemma year_needs_digit (l : layout) (f : fields) (c : ascii) (s : string) :
  isDigitChar c = false ->
  is_ok (parse_loop (stdLongYear :: l) f (String c s)) = false.
Proof.
  intros Hc. rewrite parse_loop_cons. unfold parse_std, isDigit.
  cbn [String.get]. rewrite Hc, andb_false_r. reflexivity.
Qed.

(** No layout that starts with the year and a dash reads a text of digits. *)
Lemma year_dash_rejects_digits (l : layout) (f : fields) (s : string) :
  allb isDigitChar s = true ->
  is_ok (parse_loop (stdLongYear :: lit "-" :: l) f s) = false.
Proof.
  intros Hs. rewrite parse_loop_cons. unfold parse_std at 1.
  destruct ((4 <=? len s) && isDigit s 0) eqn:E; [|reflexivity].
  apply andb_true_iff in E as [Hlen _]. apply Z.leb_le in Hlen.
  destruct s as [|c1 [|c2 [|c3 [|c4 rest]]]];
    try (unfold len in Hlen; simpl in Hlen; lia).
  simpl in Hs.
  repeat (apply andb_true_iff in Hs as [? Hs]).
  cbn [take drop]. unfold atoi.
  assert (Hm : Ascii.eqb c1 "-" = false)
    by (destruct (Ascii.eqb_spec c1 "-") as [->|]; [discriminate|reflexivity]).
  assert (Hp : Ascii.eqb c1 "+" = false)
    by (destruct (Ascii.eqb_spec c1 "+") as [->|]; [discriminate|reflexivity]).
  rewrite Hm, Hp. cbn [leadingInt].
  repeat match goal with H : isDigitChar _ = true |- _ => rewrite H; clear H end.
  cbn [bind fst snd]. rewrite parse_loop_cons.
  destruct rest as [|d rest]; [reflexivity|].
  simpl in Hs. apply andb_true_iff in Hs as [Hd _].
  assert (Hdm : Ascii.eqb d "-" = false)
    by (destruct (Ascii.eqb_spec d "-") as [->|]; [discriminate|reflexivity]).
  unfold parse_std, skip. cbn [String.length skip_loop Ascii.eqb Bool.eqb].
  rewrite Hdm. reflexivity.
Qed.

Lemma try_formats_all_fail (fs : list layout) (s : string) :
  forallb (fun g => negb (is_ok (Parse g s))) fs = true ->
  forall e, is_ok (NHNCloudTime.try_formats fs s e) = false.
Proof.
  induction fs as [|g fs IH]; simpl; intros H e; [reflexivity|].
  apply andb_true_iff in H as [Hg H]. destruct (Parse g s); [discriminate|].
  now apply IH.
Qed.

(** A text that does not start with a digit, or that is all digits, is no
    timestamp under any of the formats. *)
Lemma formats_reject (s : string) :
  (exists c r, s = String c r /\ isDigitChar c = false)
  \/ allb isDigitChar s = true ->
  forall e, is_ok (NHNCloudTime.try_formats NHNCloudTime.formats s e) = false.
Proof.
  intros H. apply try_formats_all_fail. unfold NHNCloudTime.formats.
  cbn [forallb].
  assert (Hall : forall l, is_ok (parse_loop (stdLongYear :: lit "-" :: l) fields0 s) = false).
  { intros l. destruct H as [(c & r & -> & Hc) | Hd].
    - now apply year_needs_digit.
    - now apply year_dash_rejects_digits. }
  unfold layout_space, layout_T, layout_TZ, layout_RFC3339,
    layout_space_micro, layout_TZ_micro.
  rewrite !(Parse_err _ _ (Hall _)). reflexivity.
Qed.

Lemma time_rejects (ct : NHNCloudTime.t) (v : json) :
  isStrOrNull v = false ->
  is_ok (NHNCloudTime.UnmarshalJSON ct (rawText v)) = false.
Proof.
  intros Hv.
  assert (Hgo : forall s,
             Trim s quote = s ->
             (exists c r, s = String c r /\ isDigitChar c = false
                          /\ Ascii.eqb c "n" = false)
             \/ (allb isDigitChar s = true /\ s <> "") ->
             is_ok (NHNCloudTime.UnmarshalJSON ct s) = false).
  { intros s Htrim Hs. unfold NHNCloudTime.UnmarshalJSON. rewrite Htrim.
    assert (Hn : (String.eqb s "null" || String.eqb s "") = false).
    { destruct Hs as [(c & r & -> & _ & Hc) | [Hd Hne]].
      - cbn [String.eqb]. now rewrite Hc.
      - destruct s as [|c r]; [now elim Hne|].
        simpl in Hd. apply andb_true_iff in Hd as [Hc _].
        cbn [String.eqb].
        destruct (Ascii.eqb_spec c "n") as [->|]; [discriminate|reflexivity]. }
    rewrite Hn.
    assert (Hr : is_ok (NHNCloudTime.try_formats NHNCloudTime.formats s
                          (ErrOther "<nil>")) = false).
    { apply formats_reject. destruct Hs as [(c & r & -> & Hc & _) | [Hd _]].
      - left. now exists c, r.
      - now right. }
    destruct (NHNCloudTime.try_formats _ _ _); [discriminate|reflexivity]. }
  destruct v; try discriminate.
  - destruct b; vm_compute; reflexivity.
  - destruct (number_text n) as (ds & Htext & Hd & Hne).
    cbn [rawText]. rewrite Htext.
    pose proof (allb_impl _ _ ds isDigitChar_notQuote Hd) as Hq.
    destruct (n <? 0).
    + apply Hgo.
      * unfold Trim. cbn [append TrimLeft Ascii.eqb Bool.eqb quote].
        apply TrimRight_noquote. simpl. assumption.
      * left. exists "-"%char, ds. repeat split; reflexivity.
    + cbn [append]. apply Hgo.
      * unfold Trim. destruct ds as [|c r]; [now elim Hne|].
        pose proof Hq as Hq'. simpl in Hq'.
        apply andb_true_iff in Hq' as [Hc _].
        unfold notQuote in Hc. apply negb_true_iff in Hc.
        cbn [TrimLeft]. rewrite Hc. now apply TrimRight_noquote.
      * right. split; assumption.
  - cbn [rawText]. set (body := join "," (map rawText elems)).
    assert (Hshape : "[" ++ body ++ "]" = String "[" (body ++ String "]" ""))
      by reflexivity.
    rewrite Hshape. apply Hgo.
    + unfold Trim. cbn [TrimLeft Ascii.eqb Bool.eqb quote].
      change (String "[" (body ++ String "]" ""))
        with (String "[" body ++ String "]" "").
      now apply TrimRight_last.
    + left. eexists _, _. repeat split; reflexivity.
  - cbn [rawText].
    set (body := join "," (map _ members)).
    assert (Hshape : "{" ++ body ++ "}" = String "{" (body ++ String "}" ""))
      by reflexivity.
    rewrite Hshape. apply Hgo.
    + unfold Trim. cbn [TrimLeft Ascii.eqb Bool.eqb quote].
      change (String "{" (body ++ String "}" ""))
        with (String "{" body ++ String "}" "").
      now apply TrimRight_last.
    + left. eexists _, _. repeat split; reflexivity.
Qed.

(** *** The fields of a routing table *)

Lemma member_wrong_type (F : field) (a : RoutingTable.t) (v : json) :
  wrongType F v = true ->
  is_ok (RoutingTable.member a (fieldName F, v)) = false.
Proof.
  assert (Htime : isStrOrNull v = false ->
            is_ok (RoutingTable.member a ("create_time", v)) = false);
    [| destruct F; cbn [wrongType fieldName]; intros Hv;
       try (apply Htime; now apply negb_true_iff);
       clear Htime; destruct v; try discriminate; vm_compute; reflexivity ].
  intros Hv.
  unfold RoutingTable.member. cbn [fst snd].
  change (field_match "id" "create_time") with false.
  change (field_match "name" "create_time") with false.
  change (field_match "default_table" "create_time") with false.
  change (field_match "distributed" "create_time") with false.
  change (field_match "gateway_id" "create_time") with false.
  change (field_match "gateway_name" "create_time") with false.
  change (field_match "tenant_id" "create_time") with false.
  change (field_match "state" "create_time") with false.
  change (field_match "create_time" "create_time") with true.
  cbn iota.
  pose proof (time_rejects (RoutingTable.CreateTime a) v Hv) as Hr.
  destruct (NHNCloudTime.UnmarshalJSON _ _); [discriminate|reflexivity].
Qed.

Ltac rt_cases k :=
  unfold RoutingTable.member; cbn [fst snd];
  repeat match goal with
    | |- context [field_match ?n k] =>
        lazymatch goal with
        | H : field_match n k = _ |- _ => rewrite H
        | _ => let E := fresh "E" in destruct (field_match n k) eqn:E
        end
    end.

Lemma member_keeps_field (F : field) :
  forall a kv a',
    field_match (fieldName F) (fst kv) = false ->
    RoutingTable.member a kv = Ok a' ->
    fieldIsZero F a' = fieldIsZero F a.
Proof.
  intros a [k v] a' Hk. cbn [fst] in Hk.
  destruct F; cbn [fieldName] in Hk; rt_cases k;
    try (case_unmarshal; intros H; inversion H; reflexivity);
    intros H; inversion H; reflexivity.
Qed.

(** *** The field-by-field parse *)

Lemma if_ok_keep {A T B} (proj : T -> B) (o : option A) (assign : T -> A -> T)
  (target : T) :
  (forall r x, proj (assign r x) = proj r) ->
  proj (if_ok o assign target) = proj target.
Proof. intros H. destruct o; simpl; auto. Qed.

Ltac keep_fields P :=
  repeat (rewrite (if_ok_keep P);
          [| intros; try reflexivity;
             match goal with
             | |- context [if_ok ?o _ _] => destruct o; reflexivity
             end ]).

(** The parse never fails. *)
Lemma parse_map_ok (data : gomap) :
  exists rt, parseRoutingTableFromMap data = Ok (Some rt).
Proof. eexists. reflexivity. Qed.

Lemma parse_map_VPCs (data : gomap) (rt : RoutingTable.t) :
  parseRoutingTableFromMap data = Ok (Some rt) ->
  RoutingTable.VPCs rt
  = match map_get data "vpcs" with
    | Some vpcs => parseFlexibleVPCs vpcs
    | None => []
    end.
Proof.
  intros H. inversion H; subst rt; clear H.
  cbv zeta. keep_fields RoutingTable.VPCs.
  destruct (map_get data "vpcs"); cbn [if_ok].
  - reflexivity.
  - keep_fields RoutingTable.VPCs. reflexivity.
Qed.

Lemma parse_map_Subnets (data : gomap) (rt : RoutingTable.t) :
  parseRoutingTableFromMap data = Ok (Some rt) ->
  RoutingTable.Subnets rt
  = match map_get data "subnets" with
    | Some subnets => parseFlexibleSubnets subnets
    | None => []
    end.
Proof.
  intros H. inversion H; subst rt; clear H.
  cbv zeta. keep_fields RoutingTable.Subnets.
  destruct (map_get data "subnets"); cbn [if_ok].
  - reflexivity.
  - keep_fields RoutingTable.Subnets. reflexivity.
Qed.

Lemma unmarshal_elems_ok {A} (dec : json -> result A) (l : list json) :
  is_ok (unmarshal_elems dec l) = forallb (fun v => is_ok (dec v)) l.
Proof.
  induction l as [|v l IH]; simpl; [reflexivity|].
  destruct (dec v); simpl; [|reflexivity].
  rewrite <- IH. destruct (unmarshal_elems dec l); reflexivity.
Qed.

Lemma hardMalformed_rejected (v : json) :
  hardMalformed v = true -> refAccepts v = false.
Proof. destruct v; simpl; auto; discriminate. Qed.

Lemma forallb_app_bad (p : json -> bool) (pre post : list json) (bad : json) :
  p bad = false -> forallb p (pre ++ bad :: post) = false.
Proof.
  intros H. rewrite forallb_app. simpl. rewrite H.
  now rewrite andb_false_r.
Qed.

Ltac eval_field_match :=
  repeat match goal with
    | |- context [field_match ?a ?b] =>
        let r := eval vm_compute in (field_match a b) in
        change (field_match a b) with r
    end.

Lemma member_vpcs_bad (a : RoutingTable.t) (pre post : list json) (bad : json) :
  hardMalformed bad = true ->
  is_ok (RoutingTable.member a ("vpcs", JArr (pre ++ bad :: post))) = false.
Proof.
  intros Hbad. unfold RoutingTable.member. cbn [fst snd]. eval_field_match.
  cbn iota. unfold unmarshal_slice.
  pose proof (unmarshal_elems_ok
                (FlexibleVPCInfo.UnmarshalJSON FlexibleVPCInfo.zero)
                (pre ++ bad :: post)) as Hok.
  rewrite forallb_app_bad in Hok
    by (rewrite vpc_unmarshal_ok; now apply hardMalformed_rejected).
  destruct (unmarshal_elems _ _); [discriminate|reflexivity].
Qed.

Lemma member_subnets_bad (a : RoutingTable.t) (pre post : list json) (bad : json) :
  hardMalformed bad = true ->
  is_ok (RoutingTable.member a ("subnets", JArr (pre ++ bad :: post))) = false.
Proof.
  intros Hbad. unfold RoutingTable.member. cbn [fst snd]. eval_field_match.
  cbn iota. unfold unmarshal_slice.
  pose proof (unmarshal_elems_ok
                (FlexibleSubnetInfo.UnmarshalJSON FlexibleSubnetInfo.zero)
                (pre ++ bad :: post)) as Hok.
  rewrite forallb_app_bad in Hok
    by (rewrite subnet_unmarshal_ok; now apply hardMalformed_rejected).
  destruct (unmarshal_elems _ _); [discriminate|reflexivity].
Qed.

Lemma asString_lookup (key : string) (members : list (string * json)) :
  match asString (map_get (to_map members) key) with
  | Some s => s
  | None => ""
  end = strField key members.
Proof.
  rewrite map_get_to_map. unfold strField.
  destruct (lookup key members) as [[]|]; reflexivity.
Qed.

Lemma appendVPC_fold (elems : list json) :
  forall acc,
    fold_left appendVPC (map to_iface elems) acc
    = (acc ++ map vpcOf (filter isRef elems))%list.
Proof.
  induction elems as [|v elems IH]; intros acc; cbn [map fold_left filter].
  - now rewrite app_nil_r.
  - rewrite IH. destruct v; cbn [to_iface isRef map appendVPC]; try reflexivity.
    + now rewrite <- app_assoc.
    + rewrite <- app_assoc. cbn [app]. do 2 f_equal.
      fold (to_map members). cbv zeta. unfold vpcOf.
      rewrite <- (asString_lookup "id"), <- (asString_lookup "name").
      destruct (asString (map_get (to_map members) "id"));
        destruct (asString (map_get (to_map members) "name")); reflexivity.
Qed.

Lemma parseFlexibleVPCs_refs (elems : list json) :
  parseFlexibleVPCs (to_iface (JArr elems)) = map vpcOf (filter isRef elems).
Proof. cbn [to_iface parseFlexibleVPCs]. now rewrite appendVPC_fold. Qed.

Lemma appendSubnet_fold (elems : list json) :
  forall acc,
    fold_left appendSubnet (map to_iface elems) acc
    = (acc ++ map subnetOf (filter isRef elems))%list.
Proof.
  induction elems as [|v elems IH]; intros acc; cbn [map fold_left filter].
  - now rewrite app_nil_r.
  - rewrite IH. destruct v; cbn [to_iface isRef map appendSubnet]; try reflexivity.
    + now rewrite <- app_assoc.
    + rewrite <- app_assoc. cbn [app]. do 2 f_equal.
      fold (to_map members). cbv zeta. unfold subnetOf.
      rewrite <- (asString_lookup "id"), <- (asString_lookup "name").
      destruct (asString (map_get (to_map members) "id"));
        destruct (asString (map_get (to_map members) "name")); reflexivity.
Qed.

Lemma parseFlexibleSubnets_refs (elems : list json) :
  parseFlexibleSubnets (to_iface (JArr elems)) = map subnetOf (filter isRef elems).
Proof. cbn [to_iface parseFlexibleSubnets]. now rewrite appendSubnet_fold. Qed.

Lemma filter_one_bad (pre post : list json) (bad : json) :
  forallb isRef (pre ++ post) = true -> isRef bad = false ->
  filter isRef (pre ++ bad :: post) = (pre ++ post)%list.
Proof.
  intros Hall Hbad. rewrite forallb_app in Hall.
  apply andb_true_iff in Hall as [Hpre Hpost].
  rewrite filter_app. cbn [filter]. rewrite Hbad.
  assert (Hf : forall l, forallb isRef l = true -> filter isRef l = l).
  { induction l as [|x l IH]; simpl; auto. intros H.
    apply andb_true_iff in H as [Hx Hl]. now rewrite Hx, IH. }
  now rewrite !Hf.
Qed.

Lemma hardMalformed_not_ref (v : json) : hardMalformed v = true -> isRef v = false.
Proof. destruct v; simpl; auto; discriminate. Qed.

(** Strict decoding fails on a member that no current content can take. *)
Lemma strict_fails_at (rtm : list (string * json)) (key : string) (v : json) :
  lookup key rtm = Some v ->
  (forall a, is_ok (RoutingTable.member a (key, v)) = false) ->
  is_ok (RoutingTable.unmarshal RoutingTable.zero (JObj rtm)) = false.
Proof.
  intros Hl Hbad. destruct (lookup_split key rtm v Hl) as (pre & post & ->).
  unfold RoutingTable.unmarshal. cbn [unmarshal_struct].
  now apply fold_step_member_err.
Qed.

(** C1, as the code has it: when exactly one element of the "vpcs" (or
    "subnets") list of a routing-table payload is a number, a boolean or an
    array, and all the others are strings or objects, [Extract] returns a
    record, not an error, and its reference list holds exactly the others,
    in their order. *)
Theorem extract_drops_malformed_reference :
  forall (bm rtm : list (string * json)) (pre post : list json) (bad : json),
    matching "routingtable" bm = [JObj rtm] ->
    hardMalformed bad = true ->
    forallb isRef (pre ++ post) = true ->
    (lookup "vpcs" rtm = Some (JArr (pre ++ bad :: post)) ->
     exists rt,
       RoutingTableResult_Extract (mkResult (JObj bm) None) = Ok (Some rt)
       /\ RoutingTable.VPCs rt = map vpcOf (pre ++ post))
    /\ (lookup "subnets" rtm = Some (JArr (pre ++ bad :: post)) ->
        exists rt,
          RoutingTableResult_Extract (mkResult (JObj bm) None) = Ok (Some rt)
          /\ RoutingTable.Subnets rt = map subnetOf (pre ++ post)).
Proof.
  intros bm rtm pre post bad Hm Hbad Hrefs.
  pose proof (filter_one_bad pre post bad Hrefs
                (hardMalformed_not_ref bad Hbad)) as Hfilter.
  split; intros Hl.
  - rewrite (Extract_object bm rtm Hm).
    pose proof (strict_fails_at rtm "vpcs" _ Hl
                  (fun a => member_vpcs_bad a pre post bad Hbad)) as Hstrict.
    destruct (RoutingTable.unmarshal _ _); [discriminate|].
    destruct (parse_map_ok (to_map rtm)) as (rt & Hrt).
    exists rt. split; [assumption|].
    rewrite (parse_map_VPCs _ _ Hrt), map_get_to_map, Hl. cbn [option_map].
    now rewrite parseFlexibleVPCs_refs, Hfilter.
  - rewrite (Extract_object bm rtm Hm).
    pose proof (strict_fails_at rtm "subnets" _ Hl
                  (fun a => member_subnets_bad a pre post bad Hbad)) as Hstrict.
    destruct (RoutingTable.unmarshal _ _); [discriminate|].
    destruct (parse_map_ok (to_map rtm)) as (rt & Hrt).
    exists rt. split; [assumption|].
    rewrite (parse_map_Subnets _ _ Hrt), map_get_to_map, Hl. cbn [option_map].
    now rewrite parseFlexibleSubnets_refs, Hfilter.
Qed.

(** The field-by-field parse leaves a field at its zero value when the map
    has no entry for it, or an entry of another type. *)
Lemma parse_map_field_zero (rtm : list (string * json)) (F : field)
  (rt : RoutingTable.t) :
  parseRoutingTableFromMap (to_map rtm) = Ok (Some rt) ->
  lookup (fieldName F) rtm = None
  \/ (exists v, lookup (fieldName F) rtm = Some v /\ wrongType F v = true) ->
  fieldIsZero F rt = true.
Proof.
  intros Hrt Hcase.
  assert (Hget : map_get (to_map rtm) (fieldName F) = None
                 \/ exists v, map_get (to_map rtm) (fieldName F)
                              = Some (to_iface v)
                              /\ wrongType F v = true).
  { rewrite map_get_to_map.
    destruct Hcase as [-> | (v & -> & Hv)]; [now left | right; now exists v]. }
  clear Hcase. inversion Hrt; subst rt; clear Hrt. cbv zeta.
  destruct F; cbn [fieldName wrongType fieldIsZero] in *.
  - keep_fields RoutingTable.ID.
    destruct Hget as [-> | (v & -> & Hv)]; [|destruct v; try discriminate];
      cbn [asString to_iface if_ok]; reflexivity.
  - keep_fields RoutingTable.Name.
    destruct Hget as [-> | (v & -> & Hv)]; [|destruct v; try discriminate];
      cbn [asString to_iface if_ok]; keep_fields RoutingTable.Name; reflexivity.
  - keep_fields RoutingTable.DefaultTable.
    destruct Hget as [-> | (v & -> & Hv)]; [|destruct v; try discriminate];
      cbn [asBool to_iface if_ok]; keep_fields RoutingTable.DefaultTable;
      reflexivity.
  - keep_fields RoutingTable.Distributed.
    destruct Hget as [-> | (v & -> & Hv)]; [|destruct v; try discriminate];
      cbn [asBool to_iface if_ok]; keep_fields RoutingTable.Distributed;
      reflexivity.
  - keep_fields RoutingTable.GatewayID.
    destruct Hget as [-> | (v & -> & Hv)]; [|destruct v; try discriminate];
      cbn [asString to_iface if_ok]; keep_fields RoutingTable.GatewayID;
      reflexivity.
  - keep_fields RoutingTable.GatewayName.
    destruct Hget as [-> | (v & -> & Hv)]; [|destruct v; try discriminate];
      cbn [asString to_iface if_ok]; keep_fields RoutingTable.GatewayName;
      reflexivity.
  - keep_fields RoutingTable.TenantID.
    destruct Hget as [-> | (v & -> & Hv)]; [|destruct v; try discriminate];
      cbn [asString to_iface if_ok]; keep_fields RoutingTable.TenantID;
      reflexivity.
  - keep_fields RoutingTable.State.
    destruct Hget as [-> | (v & -> & Hv)]; [|destruct v; try discriminate];
      cbn [asString to_iface if_ok]; keep_fields RoutingTable.State;
      reflexivity.
  - keep_fields RoutingTable.CreateTime.
    destruct Hget as [-> | (v & -> & Hv)]; [|destruct v; try discriminate];
      cbn [asString to_iface if_ok]; keep_fields RoutingTable.CreateTime;
      reflexivity.
  - keep_fields RoutingTable.VPCs.
    destruct Hget as [-> | (v & -> & Hv)]; [|destruct v; try discriminate];
      cbn [to_iface if_ok]; keep_fields RoutingTable.VPCs; reflexivity.
  - keep_fields RoutingTable.Subnets.
    destruct Hget as [-> | (v & -> & Hv)]; [|destruct v; try discriminate];
      cbn [to_iface if_ok]; keep_fields RoutingTable.Subnets; reflexivity.
  - keep_fields RoutingTable.Routes.
    destruct Hget as [-> | (v & -> & Hv)]; [|destruct v; try discriminate];
      cbn [asSlice to_iface if_ok]; keep_fields RoutingTable.Routes;
      reflexivity.
Qed.

(** C7: from an envelope whose "routingtable" member is an object, [Extract]
    returns a record, never an error; a field that no member of the object
    matches, or whose member holds a value of the wrong JSON type, is at its
    zero value in that record.  The same holds for the field-by-field parse
    of the object's map on its own. *)
Theorem extract_tolerates_missing_and_mistyped :
  forall (bm rtm : list (string * json)),
    matching "routingtable" bm = [JObj rtm] ->
    (exists rt,
        RoutingTableResult_Extract (mkResult (JObj bm) None) = Ok (Some rt)
        /\ forall F : field,
            noMember (fieldName F) rtm = true
            \/ (exists v, lookup (fieldName F) rtm = Some v
                          /\ wrongType F v = true) ->
            fieldIsZero F rt = true)
    /\ (exists rt,
           parseRoutingTableFromMap (to_map rtm) = Ok (Some rt)
           /\ forall F : field,
               lookup (fieldName F) rtm = None
               \/ (exists v, lookup (fieldName F) rtm = Some v
                             /\ wrongType F v = true) ->
               fieldIsZero F rt = true).
Proof.
  intros bm rtm Hm.
  assert (Hperm : exists rt,
             parseRoutingTableFromMap (to_map rtm) = Ok (Some rt)
             /\ forall F : field,
                 lookup (fieldName F) rtm = None
                 \/ (exists v, lookup (fieldName F) rtm = Some v
                               /\ wrongType F v = true) ->
                 fieldIsZero F rt = true).
  { destruct (parse_map_ok (to_map rtm)) as (rt & Hrt). exists rt.
    split; [assumption|]. intros F. now apply parse_map_field_zero. }
  split; [|exact Hperm].
  rewrite (Extract_object bm rtm Hm).
  destruct (RoutingTable.unmarshal RoutingTable.zero (JObj rtm)) as [rt|e] eqn:E.
  - exists rt. split; [reflexivity|]. intros F [Hno | (v & Hl & Hv)].
    + unfold RoutingTable.unmarshal in E. cbn [unmarshal_struct] in E.
      rewrite (fold_step_preserve _ (fieldIsZero F)
                 (field_match (fieldName F)) (member_keeps_field F)
                 rtm _ _ Hno E).
      destruct F; reflexivity.
    + pose proof (strict_fails_at rtm (fieldName F) v Hl
                    (fun a => member_wrong_type F a v Hv)) as Hfail.
      rewrite E in Hfail. discriminate.
  - destruct Hperm as (rt & Hrt & Hz). exists rt. split; [assumption|].
    intros F [Hno | Hw]; apply Hz.
    + left. now apply noMember_lookup.
    + now right.
Qed.

Lemma extract_drops_malformed_reference_witness :
  exists rt,
    RoutingTableResult_Extract
      (mkResult
         (JObj [("routingtable",
                 JObj [("id", JStr "rt-1");
                       ("vpcs", JArr [JStr "vpc-1"; JNum 5;
                                      JObj [("id", JStr "vpc-2");
                                            ("name", JStr "secondvpc")]])])])
         None)
    = Ok (Some rt)
    /\ RoutingTable.VPCs rt
       = [FlexibleVPCInfo.mk "vpc-1" ""; FlexibleVPCInfo.mk "vpc-2" "secondvpc"].
Proof.
  exact (proj1 (extract_drops_malformed_reference
                  [("routingtable",
                    JObj [("id", JStr "rt-1");
                          ("vpcs", JArr [JStr "vpc-1"; JNum 5;
                                         JObj [("id", JStr "vpc-2");
                                               ("name", JStr "secondvpc")]])])]
                  [("id", JStr "rt-1");
                   ("vpcs", JArr [JStr "vpc-1"; JNum 5;
                                  JObj [("id", JStr "vpc-2");
                                        ("name", JStr "secondvpc")]])]
                  [JStr "vpc-1"]
                  [JObj [("id", JStr "vpc-2"); ("name", JStr "secondvpc")]]
                  (JNum 5) eq_refl eq_refl eq_refl) eq_refl).
Defined.

(** C1 as stated fails on a null element, which is neither a string nor an
    object: alone among references it is decoded strictly and stays in the
    list as an empty reference; next to a number it is dropped with the
    number. *)
Lemma extract_null_reference :
  (exists rt,
      RoutingTableResult_Extract
        (mkResult
           (JObj [("routingtable",
                   JObj [("vpcs", JArr [JStr "vpc-1"; JNull; JStr "vpc-2"])])])
           None)
      = Ok (Some rt)
      /\ RoutingTable.VPCs rt
         = [FlexibleVPCInfo.mk "vpc-1" ""; FlexibleVPCInfo.mk "" "";
            FlexibleVPCInfo.mk "vpc-2" ""])
  /\ (exists rt,
         RoutingTableResult_Extract
           (mkResult
              (JObj [("routingtable",
                      JObj [("vpcs", JArr [JStr "vpc-1"; JNull; JNum 5])])])
              None)
         = Ok (Some rt)
         /\ RoutingTable.VPCs rt = [FlexibleVPCInfo.mk "vpc-1" ""])
  /\ FlexibleVPCInfo.UnmarshalJSON FlexibleVPCInfo.zero JNull
     = Ok (FlexibleVPCInfo.mk "" "").
Proof.
  split; [|split].
  - eexists. split; vm_compute; reflexivity.
  - eexists. split; vm_compute; reflexivity.
  - reflexivity.
Qed.

Lemma extract_tolerates_missing_and_mistyped_witness :
  exists rt,
    RoutingTableResult_Extract
      (mkResult
         (JObj [("routingtable",
                 JObj [("id", JNum 5); ("name", JStr "rt")])])
         None)
    = Ok (Some rt)
    /\ fieldIsZero fID rt = true
    /\ fieldIsZero fState rt = true.
Proof.
  destruct (proj1 (extract_tolerates_missing_and_mistyped
                     [("routingtable",
                       JObj [("id", JNum 5); ("name", JStr "rt")])]
                     [("id", JNum 5); ("name", JStr "rt")] eq_refl))
    as (rt & Hrt & Hz).
  exists rt. split; [exact Hrt|]. split.
  - apply Hz. right. exists (JNum 5). split; reflexivity.
  - apply Hz. left. reflexivity.
Defined.

(** * Further properties of the code *)

(** ** References and timestamps, there and back *)


Lemma TrimLeft_snoc_quote (s : string) :
  TrimLeft (s ++ String quote "") quote
  = match TrimLeft s quote with
    | EmptyString => EmptyString
    | r => r ++ String quote ""
    end.
Proof.
  induction s as [|a s IH]; [reflexivity|].
  cbn [append TrimLeft]. destruct (Ascii.eqb a quote); [exact IH | reflexivity].
Qed.

Lemma Trim_leading_quote (s : string) : Trim (String quote s) quote = Trim s quote.
Proof. reflexivity. Qed.

Lemma Trim_trailing_quote (s : string) :
  Trim (s ++ String quote "") quote = Trim s quote.
Proof.
  unfold Trim. rewrite TrimLeft_snoc_quote.
  destruct (TrimLeft s quote) as [|a r] eqn:E; [reflexivity|].
  rewrite <- E. apply TrimRight_snoc.
Qed.

(** X2: [NHNCloudTime.UnmarshalJSON] strips the quotes before it looks
    at the text and never checks that there were any: a quote put in front
    of the input, behind it, or both, does not change the result.  A bare
    timestamp is decoded like a quoted one. *)
Theorem timestamp_decoder_ignores_quotes :
  forall (ct : NHNCloudTime.t) (data : string),
    NHNCloudTime.UnmarshalJSON ct (String quote data)
    = NHNCloudTime.UnmarshalJSON ct data
    /\ NHNCloudTime.UnmarshalJSON ct (data ++ String quote "")
       = NHNCloudTime.UnmarshalJSON ct data
    /\ NHNCloudTime.UnmarshalJSON ct (String quote (data ++ String quote ""))
       = NHNCloudTime.UnmarshalJSON ct data.
Proof.
  intros ct data. unfold NHNCloudTime.UnmarshalJSON.
  rewrite !Trim_leading_quote, !Trim_trailing_quote. auto.
Qed.

Lemma Format_space_wall (t : Time) :
  Format layout_space t = Format layout_space (mkTime (t_sec t + t_offset t) 0 0).
Proof.
  unfold layout_space. cbn [Format format_std].
  unfold Year, Month, Day, Hour, Minute, Second, wall_days, wall_secs.
  cbn [t_sec t_offset]. rewrite !Z.add_0_r. reflexivity.
Qed.

Lemma Year_wall (t : Time) : Year (mkTime (t_sec t + t_offset t) 0 0) = Year t.
Proof.
  unfold Year, wall_days. cbn [t_sec t_offset]. rewrite Z.add_0_r. reflexivity.
Qed.

(** X3: For a time that is not the zero instant and whose year has four
    digits, [MarshalJSON] succeeds and [UnmarshalJSON] accepts its output;
    the decoded time is the wall clock of the original read as UTC, without
    the nanoseconds.  So the round trip is exact only for whole-second UTC
    times.  Encoding the decoded time gives the same text again, unless the
    wall clock reads 0001-01-01 00:00:00: that decodes to the zero time,
    which encodes as null. *)
Theorem timestamp_encode_decode :
  forall (ct : NHNCloudTime.t) (t : Time),
    IsZero t = false ->
    0 <= Year t <= 9999 ->
    exists text,
      NHNCloudTime.MarshalJSON (NHNCloudTime.mk t) = Ok text
      /\ NHNCloudTime.UnmarshalJSON ct text
         = Ok (NHNCloudTime.mk (mkTime (t_sec t + t_offset t) 0 0))
      /\ NHNCloudTime.MarshalJSON
           (NHNCloudTime.mk (mkTime (t_sec t + t_offset t) 0 0))
         = Ok (if t_sec t + t_offset t =? 0 then "null" else text).
Proof.
  intros ct t Hz Hy. unfold NHNCloudTime.MarshalJSON. cbn [NHNCloudTime.Time_].
  rewrite Hz. eexists; split; [reflexivity|]. split.
  - rewrite Format_space_wall.
    apply unmarshal_utc; [rewrite Year_wall; exact Hy | left; reflexivity].
  - unfold IsZero. cbn [t_sec t_nsec].
    destruct (t_sec t + t_offset t =? 0); cbn [andb Z.eqb]; [reflexivity|].
    now rewrite <- Format_space_wall.
Qed.

Lemma timestamp_encode_decode_witness :
  exists text,
    NHNCloudTime.MarshalJSON (NHNCloudTime.mk (mkTime 63843385557 123456000 32400))
    = Ok text
    /\ NHNCloudTime.UnmarshalJSON NHNCloudTime.zero text
       = Ok (NHNCloudTime.mk (mkTime 63843417957 0 0))
    /\ NHNCloudTime.MarshalJSON (NHNCloudTime.mk (mkTime 63843417957 0 0))
       = Ok text.
Proof.
  apply (timestamp_encode_decode NHNCloudTime.zero
           (mkTime 63843385557 123456000 32400)).
  - reflexivity.
  - vm_compute. split; discriminate.
Defined.

Lemma try_formats_result (s : string) (fs : list layout) :
  forall e0,
    match NHNCloudTime.try_formats fs s e0 with
    | Ok t =>
        exists pre f post,
          fs = (pre ++ f :: post)%list
          /\ forallb (fun g => negb (is_ok (Parse g s))) pre = true
          /\ Parse f s = Ok t
    | Err e =>
        forallb (fun g => negb (is_ok (Parse g s))) fs = true
        /\ exists e', e = Errorf "unable to parse time %q with any known format: %v" s e'
                      /\ match rev fs with
                         | [] => e' = e0
                         | f :: _ => Parse f s = Err e'
                         end
    end.
Proof.
  induction fs as [|f fs IH]; intros e0.
  - cbn. split; [reflexivity|]. eexists; split; reflexivity.
  - cbn [NHNCloudTime.try_formats]. destruct (Parse f s) as [t|e1] eqn:Ef.
    + exists [], f, fs. repeat split; assumption.
    + specialize (IH e1).
      destruct (NHNCloudTime.try_formats fs s e1) as [t|e].
      * destruct IH as (pre & g & post & -> & Hpre & Hg).
        exists (f :: pre), g, post. repeat split; [|exact Hg].
        cbn [forallb]. rewrite Ef. exact Hpre.
      * destruct IH as (Hall & e' & -> & Hlast). split.
        { cbn [forallb]. rewrite Ef. exact Hall. }
        exists e'. split; [reflexivity|].
        cbn [rev]. destruct (rev fs) as [|g r] eqn:Er.
        { cbn. subst e'. exact Ef. }
        { cbn. exact Hlast. }
Qed.

(** X4: The three outcomes of [NHNCloudTime.UnmarshalJSON].  It returns
    the receiver unchanged when the trimmed text is null or empty.  Otherwise
    it returns the time of the first layout of the list that parses the
    trimmed text.  It fails only when no layout of the list parses the text,
    and the error then carries the trimmed text and the error of the last
    layout of the list, the one with microseconds and a trailing Z. *)
Theorem timestamp_decode_outcomes :
  forall (ct : NHNCloudTime.t) (data : string),
    match NHNCloudTime.UnmarshalJSON ct data with
    | Ok ct' =>
        ((Trim data quote = "null" \/ Trim data quote = "") /\ ct' = ct)
        \/ exists pre f post,
            NHNCloudTime.formats = (pre ++ f :: post)%list
            /\ forallb (fun g => negb (is_ok (Parse g (Trim data quote)))) pre = true
            /\ Parse f (Trim data quote) = Ok (NHNCloudTime.Time_ ct')
    | Err e =>
        Trim data quote <> "null" /\ Trim data quote <> ""
        /\ forallb (fun g => negb (is_ok (Parse g (Trim data quote))))
             NHNCloudTime.formats = true
        /\ exists e',
            Parse layout_TZ_micro (Trim data quote) = Err e'
            /\ e = Errorf "unable to parse time %q with any known format: %v"
                     (Trim data quote) e'
    end.
Proof.
  intros ct data. unfold NHNCloudTime.UnmarshalJSON.
  set (s := Trim data quote).
  destruct (String.eqb s "null") eqn:En.
  { left. apply String.eqb_eq in En. auto. }
  destruct (String.eqb s "") eqn:Ee.
  { left. apply String.eqb_eq in Ee. auto. }
  cbn [orb].
  pose proof (try_formats_result s NHNCloudTime.formats (ErrOther "<nil>")) as H.
  destruct (NHNCloudTime.try_formats NHNCloudTime.formats s (ErrOther "<nil>"))
    as [t|e]; cbn [bind].
  - right. exact H.
  - destruct H as (Hall & e' & -> & Hlast). cbn in Hlast.
    apply String.eqb_neq in En, Ee. repeat split; try assumption.
    exists e'. split; [exact Hlast | reflexivity].
Qed.

(** ** The extractors of the two packages *)

(** ** Envelopes with one field *)

Lemma fold_one_field {A} (name : string) (member : A -> string * json -> result A)
  (dec : A -> json -> result A) :
  (forall cur kv, member cur kv
                  = if field_match name (fst kv) then dec cur (snd kv) else Ok cur) ->
  forall (bm : list (string * json)) (r : result A),
    fold_left (step member) bm r
    = fold_left (fun r v => bind r (fun cur => dec cur v)) (matching name bm) r.
Proof.
  intros Hm. unfold matching.
  induction bm as [|[k v] bm IH]; intros r; simpl; [reflexivity|].
  rewrite IH. unfold step. destruct r as [cur|e]; cbn [bind].
  - rewrite Hm. cbn [fst snd]. destruct (field_match name k); reflexivity.
  - destruct (field_match name k); reflexivity.
Qed.

Lemma noMember_matching (name : string) (bm : list (string * json)) :
  noMember name bm = true -> matching name bm = [].
Proof.
  unfold noMember, matching. induction bm as [|[k v] bm IH]; [reflexivity|].
  cbn [forallb filter fst]. intros H. apply andb_true_iff in H as [H1 H2].
  apply negb_true_iff in H1. rewrite H1. auto.
Qed.

(** X5: [Extract] and [ExtractRoutingTable] on a response body that is
    an object.  Without a routingtable member, [Extract] returns no table
    and no error, while [ExtractRoutingTable] fails with a wrapped syntax
    error.  With the member null, [Extract] again returns no table, while
    [ExtractRoutingTable] returns an empty table.  With one member that is
    not null, the two return the same. *)
Theorem routing_table_entry_points :
  forall bm : list (string * json),
    (noMember "routingtable" bm = true ->
     RoutingTableResult_Extract (mkResult (JObj bm) None) = Ok None
     /\ RoutingTableResult_ExtractRoutingTable (mkResult (JObj bm) None)
        = Err (Errorf "failed to unmarshal routing table: %w" "" SyntaxError))
    /\ (matching "routingtable" bm = [JNull] ->
        RoutingTableResult_Extract (mkResult (JObj bm) None) = Ok None
        /\ RoutingTableResult_ExtractRoutingTable (mkResult (JObj bm) None)
           = Ok (Some RoutingTable.zero))
    /\ (forall v, matching "routingtable" bm = [v] -> v <> JNull ->
        RoutingTableResult_Extract (mkResult (JObj bm) None)
        = RoutingTableResult_ExtractRoutingTable (mkResult (JObj bm) None)).
Proof.
  intros bm.
  unfold RoutingTableResult_ExtractRoutingTable, RoutingTableResult_Extract,
    RoutingTableResult_ExtractRoutingTableWithFallback, ExtractInto.
  cbn [Err_ Body unmarshal_struct].
  rewrite fold_s_member, fold_response_member.
  split; [|split].
  - intros Hno. rewrite (noMember_matching _ _ Hno). split; reflexivity.
  - intros ->. split; reflexivity.
  - intros v -> Hv. cbn [fold_left bind]. unfold decode_ptr, s_member.
    cbn [fst snd]. change (field_match "routingtable" "routingtable") with true.
    cbn iota. unfold unmarshal_raw.
    destruct v; try congruence;
      match goal with
      | |- context [RoutingTable.unmarshal RoutingTable.zero ?w] =>
          destruct (RoutingTable.unmarshal RoutingTable.zero w) eqn:E;
          cbn [bind]; reflexivity
      end.
Qed.

Lemma routing_table_entry_points_witness :
  RoutingTableResult_Extract (mkResult (JObj [("routingtables", JArr [])]) None)
  = Ok None
  /\ RoutingTableResult_ExtractRoutingTable
       (mkResult (JObj [("routingtables", JArr [])]) None)
     = Err (Errorf "failed to unmarshal routing table: %w" "" SyntaxError).
Proof.
  apply (routing_table_entry_points [("routingtables", JArr [])]). reflexivity.
Defined.

Lemma route_member_match (p : option Route.t) (kv : string * json) :
  route_member p kv
  = if field_match "route" (fst kv)
    then route_member p ("route", snd kv) else Ok p.
Proof.
  unfold route_member. cbn [fst snd].
  change (field_match "route" "route") with true.
  destruct (field_match "route" (fst kv)); reflexivity.
Qed.

(** X6: [RouteResult.Extract] and [ExtractRoute] on a response body that
    is an object.  Without a route member, [Extract] returns no route and no
    error, while [ExtractRoute] fails with a wrapped syntax error.  With the
    member null, [Extract] returns no route, while [ExtractRoute] returns an
    empty route.  With one member that is not null, both return the strictly
    decoded route if the decoding succeeds; if it fails, [Extract] returns
    the decoding error and [ExtractRoute] the same error wrapped.  Neither
    has a fallback. *)
Theorem route_entry_points :
  forall bm : list (string * json),
    (noMember "route" bm = true ->
     RouteResult_Extract (mkResult (JObj bm) None) = Ok None
     /\ RouteResult_ExtractRoute (mkResult (JObj bm) None)
        = Err (Errorf "failed to unmarshal route: %w" "" SyntaxError))
    /\ (matching "route" bm = [JNull] ->
        RouteResult_Extract (mkResult (JObj bm) None) = Ok None
        /\ RouteResult_ExtractRoute (mkResult (JObj bm) None)
           = Ok (Some Route.zero))
    /\ (forall v, matching "route" bm = [v] -> v <> JNull ->
        match unmarshal_struct Route.member Route.zero v with
        | Ok route =>
            RouteResult_Extract (mkResult (JObj bm) None) = Ok (Some route)
            /\ RouteResult_ExtractRoute (mkResult (JObj bm) None)
               = Ok (Some route)
        | Err e =>
            RouteResult_Extract (mkResult (JObj bm) None) = Err e
            /\ RouteResult_ExtractRoute (mkResult (JObj bm) None)
               = Err (Errorf "failed to unmarshal route: %w" "" e)
        end).
Proof.
  intros bm.
  unfold RouteResult_Extract, RouteResult_ExtractRoute, ExtractInto.
  cbn [Err_ Body unmarshal_struct].
  rewrite (fold_one_field "route" route_member
             (fun p v => route_member p ("route", v)) route_member_match).
  rewrite (fold_one_field "route" route_response_member
             (fun _ v => Ok (Some v)) (fun cur kv => eq_refl)).
  split; [|split].
  - intros Hno. rewrite (noMember_matching _ _ Hno). split; reflexivity.
  - intros ->. split; reflexivity.
  - intros v -> Hv. cbn [fold_left bind]. unfold route_member.
    cbn [fst snd]. change (field_match "route" "route") with true.
    cbn iota. unfold unmarshal_raw.
    destruct v; try congruence;
      match goal with
      | |- context [unmarshal_struct Route.member Route.zero ?w] =>
          destruct (unmarshal_struct Route.member Route.zero w) eqn:E;
          cbn [bind]; split; reflexivity
      end.
Qed.

Lemma route_entry_points_witness :
  RouteResult_Extract (mkResult (JObj [("route", JNull)]) None) = Ok None
  /\ RouteResult_ExtractRoute (mkResult (JObj [("route", JNull)]) None)
     = Ok (Some Route.zero).
Proof.
  apply (route_entry_points [("route", JNull)]). reflexivity.
Defined.

Lemma unmarshal_elems_length {A} (dec : json -> result A) (l : list json) :
  forall xs, unmarshal_elems dec l = Ok xs -> List.length xs = List.length l.
Proof.
  induction l as [|v l IH]; intros xs H; cbn [unmarshal_elems] in H.
  - injection H as <-. reflexivity.
  - destruct (dec v) as [a|e]; cbn [bind] in H; [|discriminate].
    destruct (unmarshal_elems dec l) as [rest|e]; cbn [bind] in H; [|discriminate].
    injection H as <-. cbn [List.length]. f_equal. now apply IH.
Qed.

Lemma eqb_length_isNil {A B} (xs : list A) (l : list B) :
  List.length xs = List.length l -> Nat.eqb (List.length xs) 0 = isNil l.
Proof. destruct xs, l; cbn; intros H; congruence. Qed.

(** X7: The list extractors of the package on a response body that is
    an object.  Without the list member the list is empty, the page reports
    empty, and there is no error.  With one list member that is an array
    whose decoding succeeds, there is one record per element of the array,
    whatever the element is (a null or an empty object counts), and the page
    reports empty exactly when the array has no element.  This holds for
    routing tables, for routes and for the gateways of [GatewayResult]. *)
Theorem page_emptiness :
  forall bm : list (string * json),
    (noMember "routingtables" bm = true ->
     ExtractRoutingTables (mkResult (JObj bm) None) = Ok []
     /\ RoutingTablePage_IsEmpty (mkResult (JObj bm) None) = Ok true)
    /\ (forall elems tables,
           matching "routingtables" bm = [JArr elems] ->
           ExtractRoutingTables (mkResult (JObj bm) None) = Ok tables ->
           List.length tables = List.length elems
           /\ RoutingTablePage_IsEmpty (mkResult (JObj bm) None)
              = Ok (isNil elems))
    /\ (noMember "routes" bm = true ->
        ExtractRoutes (mkResult (JObj bm) None) = Ok []
        /\ RoutePage_IsEmpty (mkResult (JObj bm) None) = Ok true)
    /\ (forall elems routes,
           matching "routes" bm = [JArr elems] ->
           ExtractRoutes (mkResult (JObj bm) None) = Ok routes ->
           List.length routes = List.length elems
           /\ RoutePage_IsEmpty (mkResult (JObj bm) None) = Ok (isNil elems))
    /\ (noMember "gateways" bm = true ->
        GatewayResult_Extract (mkResult (JObj bm) None) = Ok [])
    /\ (forall elems gateways,
           matching "gateways" bm = [JArr elems] ->
           GatewayResult_Extract (mkResult (JObj bm) None) = Ok gateways ->
           List.length gateways = List.length elems).
Proof.
  intros bm.
  unfold RoutingTablePage_IsEmpty, RoutePage_IsEmpty, ExtractRoutingTables,
    ExtractRoutes, GatewayResult_Extract, ExtractInto.
  cbn [Err_ Body unmarshal_struct].
  rewrite (fold_one_field "routingtables" routingtables_member
             (fun _ v => unmarshal_slice (RoutingTable.unmarshal RoutingTable.zero) v)
             (fun cur kv => eq_refl)).
  rewrite (fold_one_field "routes" routes_member
             (fun _ v => unmarshal_slice (unmarshal_struct Route.member Route.zero) v)
             (fun cur kv => eq_refl)).
  rewrite (fold_one_field "gateways" gateways_member
             (fun _ v => unmarshal_slice
                           (unmarshal_struct Gateway.member Gateway.zero) v)
             (fun cur kv => eq_refl)).
  split; [|split; [|split; [|split; [|split]]]].
  - intros Hno. rewrite (noMember_matching _ _ Hno). split; reflexivity.
  - intros elems tables -> H. cbn [fold_left bind unmarshal_slice] in *.
    rewrite H. pose proof (unmarshal_elems_length _ _ _ H) as Hl.
    split; [exact Hl|]. now rewrite (eqb_length_isNil _ _ Hl).
  - intros Hno. rewrite (noMember_matching _ _ Hno). split; reflexivity.
  - intros elems routes -> H. cbn [fold_left bind unmarshal_slice] in *.
    rewrite H. pose proof (unmarshal_elems_length _ _ _ H) as Hl.
    split; [exact Hl|]. now rewrite (eqb_length_isNil _ _ Hl).
  - intros Hno. now rewrite (noMember_matching _ _ Hno).
  - intros elems gateways -> H. cbn [fold_left bind unmarshal_slice] in *.
    exact (unmarshal_elems_length _ _ _ H).
Qed.

Lemma page_emptiness_witness :
  List.length [Route.zero; Route.zero] = List.length [JNull; JObj []]
  /\ RoutePage_IsEmpty (mkResult (JObj [("routes", JArr [JNull; JObj []])]) None)
     = Ok (isNil [JNull; JObj []]).
Proof.
  destruct (page_emptiness [("routes", JArr [JNull; JObj []])])
    as (_ & _ & _ & H & _).
  apply (H [JNull; JObj []] [Route.zero; Route.zero]); reflexivity.
Defined.

(** X8: [ExtractRoutingTables] has no fallback.  If the strict decoder
    rejects one table of the list, the extraction of the whole list fails
    and so does [IsEmpty], wherever the table stands in the list.  The same
    table, when it is an object, is accepted by [Extract] as the only table
    of a response: there the field-by-field parse takes over. *)
Theorem list_extraction_is_strict :
  forall (bm : list (string * json)) (pre post : list json) (table : json),
    matching "routingtables" bm = [JArr (pre ++ table :: post)] ->
    is_ok (RoutingTable.unmarshal RoutingTable.zero table) = false ->
    is_ok (ExtractRoutingTables (mkResult (JObj bm) None)) = false
    /\ is_ok (RoutingTablePage_IsEmpty (mkResult (JObj bm) None)) = false
    /\ (forall rtm, table = JObj rtm ->
        RoutingTableResult_Extract
          (mkResult (JObj [("routingtable", table)]) None)
        = parseRoutingTableFromMap (to_map rtm)
        /\ is_ok (RoutingTableResult_Extract
                    (mkResult (JObj [("routingtable", table)]) None)) = true).
Proof.
  intros bm pre post table Hm Hbad.
  assert (H : is_ok (ExtractRoutingTables (mkResult (JObj bm) None)) = false).
  { unfold ExtractRoutingTables, ExtractInto.
    cbn [Err_ Body unmarshal_struct].
    rewrite (fold_one_field "routingtables" routingtables_member
               (fun _ v => unmarshal_slice (RoutingTable.unmarshal RoutingTable.zero) v)
               (fun cur kv => eq_refl)).
    rewrite Hm. cbn [fold_left bind unmarshal_slice].
    rewrite unmarshal_elems_ok. apply forallb_app_bad. exact Hbad. }
  split; [exact H|]. split.
  - unfold RoutingTablePage_IsEmpty.
    destruct (ExtractRoutingTables _); [discriminate | reflexivity].
  - intros rtm ->.
    rewrite (Extract_object [("routingtable", JObj rtm)] rtm eq_refl).
    destruct (RoutingTable.unmarshal RoutingTable.zero (JObj rtm)); [discriminate|].
    split; [reflexivity|].
    destruct (parse_map_ok (to_map rtm)) as [rt ->]. reflexivity.
Qed.

Lemma list_extraction_is_strict_witness :
  is_ok (ExtractRoutingTables
           (mkResult
              (JObj [("routingtables",
                      JArr [JObj [("id", JStr "rt-1")];
                            JObj [("id", JStr "rt-2"); ("vpcs", JArr [JNum 5])]])])
              None)) = false.
Proof.
  apply (list_extraction_is_strict
           [("routingtables",
             JArr [JObj [("id", JStr "rt-1")];
                   JObj [("id", JStr "rt-2"); ("vpcs", JArr [JNum 5])]])]
           [JObj [("id", JStr "rt-1")]] []
           (JObj [("id", JStr "rt-2"); ("vpcs", JArr [JNum 5])])).
  - reflexivity.
  - reflexivity.
Defined.

Import InternetGateways.

Lemma internetgateway_member_match (p : option InternetGateway.t)
  (kv : string * json) :
  internetgateway_member p kv
  = if field_match "internetgateway" (fst kv)
    then internetgateway_member p ("internetgateway", snd kv) else Ok p.
Proof.
  unfold internetgateway_member. cbn [fst snd].
  change (field_match "internetgateway" "internetgateway") with true.
  destruct (field_match "internetgateway" (fst kv)); reflexivity.
Qed.

(** X9: The extractors of internet gateways on a response body that is
    an object.  Without the internetgateway member, or with the member null,
    both [Extract] return no gateway and no error.  Without the
    internetgateways member the list is empty and the page reports empty.
    If [InternetGateway.UnmarshalJSON] rejects a gateway, for instance for a
    create_time in another layout, then the list that holds it fails as a
    whole, [IsEmpty] fails, and both [Extract] fail on it: nothing is
    dropped or salvaged. *)
Theorem gateway_extractors_are_strict :
  forall (bm : list (string * json)),
    (noMember "internetgateway" bm = true
     \/ matching "internetgateway" bm = [JNull] ->
     GetResult_Extract (mkResult (JObj bm) None) = Ok None
     /\ CreateResult_Extract (mkResult (JObj bm) None) = Ok None)
    /\ (noMember "internetgateways" bm = true ->
        ExtractInternetGateways (mkResult (JObj bm) None) = Ok []
        /\ InternetGatewayPage_IsEmpty (mkResult (JObj bm) None) = Ok true)
    /\ (forall g : json,
           is_ok (InternetGateway.UnmarshalJSON g) = false ->
           (forall pre post,
               matching "internetgateways" bm = [JArr (pre ++ g :: post)] ->
               is_ok (ExtractInternetGateways (mkResult (JObj bm) None)) = false
               /\ is_ok (InternetGatewayPage_IsEmpty (mkResult (JObj bm) None))
                  = false)
           /\ (matching "internetgateway" bm = [g] ->
               is_ok (GetResult_Extract (mkResult (JObj bm) None)) = false
               /\ is_ok (CreateResult_Extract (mkResult (JObj bm) None))
                  = false)).
Proof.
  intros bm.
  unfold InternetGatewayPage_IsEmpty, ExtractInternetGateways, GetResult_Extract,
    CreateResult_Extract, ExtractInto.
  cbn [Err_ Body unmarshal_struct].
  rewrite (fold_one_field "internetgateways" internetgateways_member
             (fun _ v => unmarshal_slice InternetGateway.UnmarshalJSON v)
             (fun cur kv => eq_refl)).
  rewrite (fold_one_field "internetgateway" internetgateway_member
             (fun p v => internetgateway_member p ("internetgateway", v))
             internetgateway_member_match).
  split; [|split].
  - intros [Hno | ->]; [rewrite (noMember_matching _ _ Hno)|]; split; reflexivity.
  - intros Hno. rewrite (noMember_matching _ _ Hno). split; reflexivity.
  - intros g Hbad. split.
    + intros pre post ->. cbn [fold_left bind unmarshal_slice].
      assert (H : is_ok (unmarshal_elems InternetGateway.UnmarshalJSON
                           (pre ++ g :: post)) = false)
        by (rewrite unmarshal_elems_ok; apply forallb_app_bad; exact Hbad).
      destruct (unmarshal_elems _ _); [discriminate | split; reflexivity].
    + intros ->. cbn [fold_left bind]. unfold internetgateway_member.
      cbn [fst snd].
      change (field_match "internetgateway" "internetgateway") with true.
      cbn iota.
      destruct g; try discriminate Hbad;
        match goal with
        | |- context [InternetGateway.UnmarshalJSON ?w] =>
            destruct (InternetGateway.UnmarshalJSON w);
            [discriminate Hbad | split; reflexivity]
        end.
Qed.

Lemma gateway_extractors_are_strict_witness :
  is_ok (ExtractInternetGateways
           (mkResult
              (JObj [("internetgateways",
                      JArr [JObj [("id", JStr "igw-1");
                                  ("create_time", JStr "2024-02-13 10:45:57")];
                            JObj [("id", JStr "igw-2");
                                  ("create_time", JStr "2024-02-13T10:45:57Z")]])])
              None)) = false
  /\ is_ok (InternetGatewayPage_IsEmpty
              (mkResult
                 (JObj [("internetgateways",
                         JArr [JObj [("id", JStr "igw-1");
                                     ("create_time", JStr "2024-02-13 10:45:57")];
                               JObj [("id", JStr "igw-2");
                                     ("create_time", JStr "2024-02-13T10:45:57Z")]])])
                 None)) = false.
Proof.
  pose proof (gateway_extractors_are_strict
                [("internetgateways",
                  JArr [JObj [("id", JStr "igw-1");
                              ("create_time", JStr "2024-02-13 10:45:57")];
                        JObj [("id", JStr "igw-2");
                              ("create_time", JStr "2024-02-13T10:45:57Z")]])])
    as (_ & _ & H).
  destruct (H (JObj [("id", JStr "igw-2");
                     ("create_time", JStr "2024-02-13T10:45:57Z")]) eq_refl)
    as [H1 _].
  apply (H1 [JObj [("id", JStr "igw-1");
                   ("create_time", JStr "2024-02-13 10:45:57")]] []).
  reflexivity.
Defined.

(** X10: A page of routes whose body has no routes_links member, or has
    it as null or as an empty array, reports no next page and no error; so
    does a page of internet gateways for internetgateways_links.  The links
    of another resource in the same body do not count. *)
Theorem pages_without_links :
  forall bm : list (string * json),
    (noMember "routes_links" bm = true
     \/ matching "routes_links" bm = [JNull]
     \/ matching "routes_links" bm = [JArr []] ->
     RoutePage_NextPageURL (mkResult (JObj bm) None) = Ok "")
    /\ (noMember "internetgateways_links" bm = true
        \/ matching "internetgateways_links" bm = [JNull]
        \/ matching "internetgateways_links" bm = [JArr []] ->
        InternetGatewayPage_NextPageURL (mkResult (JObj bm) None) = Ok "").
Proof.
  intros bm.
  unfold RoutePage_NextPageURL, InternetGatewayPage_NextPageURL, ExtractInto.
  cbn [Err_ Body unmarshal_struct].
  rewrite (fold_one_field "routes_links" routes_links_member
             (fun _ v => unmarshal_slice (unmarshal_struct Link.member Link.zero) v)
             (fun cur kv => eq_refl)).
  rewrite (fold_one_field "internetgateways_links" internetgateways_links_member
             (fun _ v => unmarshal_slice (unmarshal_struct Link.member Link.zero) v)
             (fun cur kv => eq_refl)).
  split; (intros [Hno | [-> | ->]];
          [rewrite (noMember_matching _ _ Hno)| |]; reflexivity).
Qed.

Lemma pages_without_links_witness :
  RoutePage_NextPageURL
    (mkResult (JObj [("routes", JArr [JObj [("id", JStr "r-1")]]);
                     ("routingtables_links",
                      JArr [JObj [("rel", JStr "next");
                                  ("href", JStr "http://next")]])]) None)
  = Ok "".
Proof.
  apply (pages_without_links
           [("routes", JArr [JObj [("id", JStr "r-1")]]);
            ("routingtables_links",
             JArr [JObj [("rel", JStr "next"); ("href", JStr "http://next")]])]).
  left. reflexivity.
Defined.

Lemma unmarshal_elems_Forall2 {A} (dec : json -> result A) (l : list json) :
  forall xs, unmarshal_elems dec l = Ok xs ->
             Forall2 (fun v x => dec v = Ok x) l xs.
Proof.
  induction l as [|v l IH]; intros xs H; cbn [unmarshal_elems] in H.
  - injection H as <-. constructor.
  - destruct (dec v) as [a|e] eqn:Ev; cbn [bind] in H; [|discriminate].
    destruct (unmarshal_elems dec l) as [rest|e]; cbn [bind] in H; [|discriminate].
    injection H as <-. constructor; [exact Ev | now apply IH].
Qed.

Lemma Extract_single_strict (v : json) (rt : RoutingTable.t) :
  v <> JNull ->
  RoutingTable.unmarshal RoutingTable.zero v = Ok rt ->
  RoutingTableResult_Extract (mkResult (JObj [("routingtable", v)]) None)
  = Ok (Some rt).
Proof.
  intros Hv Hrt. unfold RoutingTableResult_Extract, ExtractInto.
  cbn [Err_ Body unmarshal_struct fold_left]. unfold step at 1. cbn [bind].
  unfold s_member. cbn [fst snd].
  change (field_match "routingtable" "routingtable") with true. cbn iota.
  destruct v; try congruence; rewrite Hrt; reflexivity.
Qed.

(** X11: When [ExtractRoutingTables] succeeds on a body with one
    routingtables array, every table of the result is the one that [Extract]
    returns for the corresponding element sent alone, for each element that
    is not null. *)
Theorem list_and_single_extraction_agree :
  forall (bm : list (string * json)) (elems : list json)
         (tables : list RoutingTable.t),
    matching "routingtables" bm = [JArr elems] ->
    ExtractRoutingTables (mkResult (JObj bm) None) = Ok tables ->
    Forall2
      (fun v rt =>
         v <> JNull ->
         RoutingTableResult_Extract
           (mkResult (JObj [("routingtable", v)]) None) = Ok (Some rt))
      elems tables.
Proof.
  intros bm elems tables Hm. unfold ExtractRoutingTables, ExtractInto.
  cbn [Err_ Body unmarshal_struct].
  rewrite (fold_one_field "routingtables" routingtables_member
             (fun _ v => unmarshal_slice (RoutingTable.unmarshal RoutingTable.zero) v)
             (fun cur kv => eq_refl)).
  rewrite Hm. cbn [fold_left bind unmarshal_slice]. intros H.
  apply unmarshal_elems_Forall2 in H.
  clear Hm. induction H as [|v rt l xs Hv _ IH]; constructor.
  - intros Hn. now apply Extract_single_strict.
  - exact IH.
Qed.

Lemma list_and_single_extraction_agree_witness :
  Forall2
    (fun v rt =>
       v <> JNull ->
       RoutingTableResult_Extract
         (mkResult (JObj [("routingtable", v)]) None) = Ok (Some rt))
    [JObj [("id", JStr "rt-1"); ("vpcs", JArr [JStr "vpc-1"])]]
    [RoutingTable.set_VPCs (RoutingTable.set_ID RoutingTable.zero "rt-1")
       [FlexibleVPCInfo.mk "vpc-1" ""]].
Proof.
  apply (list_and_single_extraction_agree
           [("routingtables",
             JArr [JObj [("id", JStr "rt-1"); ("vpcs", JArr [JStr "vpc-1"])]])]);
    reflexivity.
Defined.

(** ** What the field-by-field parse returns *)

Lemma asBool_lookup (key : string) (members : list (string * json)) :
  match asBool (map_get (to_map members) key) with
  | Some b => b
  | None => false
  end = boolField key members.
Proof.
  rewrite map_get_to_map. unfold boolField.
  destruct (lookup key members) as [[]|]; reflexivity.
Qed.

Lemma asFloat64_lookup (key : string) (members : list (string * json)) :
  match asFloat64 (map_get (to_map members) key) with
  | Some n => n
  | None => 0
  end = numField key members.
Proof.
  rewrite map_get_to_map. unfold numField.
  destruct (lookup key members) as [[]|]; reflexivity.
Qed.

Lemma asString_opt_lookup (key : string) (members : list (string * json)) :
  asString (map_get (to_map members) key) = optStrField key members.
Proof.
  rewrite map_get_to_map. unfold optStrField.
  destruct (lookup key members) as [[]|]; reflexivity.
Qed.

Lemma parseRoutes_snoc (routes : list iface) (route : iface) :
  parseRoutes (routes ++ [route])
  = match route with
    | IMap routeMap => (parseRoutes routes ++ parseRoutes [route])%list
    | _ => parseRoutes routes
    end.
Proof.
  unfold parseRoutes. rewrite fold_left_app. cbn [fold_left].
  destruct route; reflexivity.
Qed.

Lemma parseRoutes_object (members : list (string * json)) :
  parseRoutes [to_iface (JObj members)] = [routeOf (JObj members)].
Proof.
  rewrite to_iface_obj. unfold parseRoutes. cbn [fold_left app]. cbv zeta.
  f_equal. unfold routeOf.
  rewrite <- (asString_lookup "id"), <- (asString_lookup "cidr"),
    <- (asFloat64_lookup "mask"), <- (asString_lookup "gateway"),
    <- (asString_lookup "gateway_id"), <- (asString_opt_lookup "description"),
    <- (asString_lookup "routingtable_id"), <- (asString_lookup "tenant_id"),
    <- (asBool_lookup "hidden").
  destruct (asString (map_get (to_map members) "id"));
    destruct (asString (map_get (to_map members) "cidr"));
    destruct (asFloat64 (map_get (to_map members) "mask"));
    destruct (asString (map_get (to_map members) "gateway"));
    destruct (asString (map_get (to_map members) "gateway_id"));
    destruct (asString (map_get (to_map members) "description"));
    destruct (asString (map_get (to_map members) "routingtable_id"));
    destruct (asString (map_get (to_map members) "tenant_id"));
    destruct (asBool (map_get (to_map members) "hidden")); reflexivity.
Qed.

Lemma parseRoutes_objects (elems : list json) :
  parseRoutes (map to_iface elems) = map routeOf (filter isObj elems).
Proof.
  induction elems as [|v elems IH] using rev_ind; [reflexivity|].
  rewrite map_app, filter_app, map_app. cbn [map filter].
  rewrite parseRoutes_snoc, IH.
  destruct v; try (cbn [to_iface isObj map]; now rewrite app_nil_r).
  pose proof (parseRoutes_object members) as H.
  rewrite to_iface_obj in *. cbn [isObj map]. now rewrite H.
Qed.

(** X12: [parseRoutes] yields one route for every element that is an
    object, in order, and drops every other element.  An object is never
    dropped: a field whose key is absent or whose value has another type is
    left at its zero value.  (Masks are taken to be numbers that a float64
    holds exactly.) *)
Theorem parseRoutes_keeps_every_object :
  forall elems : list json,
    forallb exactMask elems = true ->
    parseRoutes (map to_iface elems) = map routeOf (filter isObj elems)
    /\ List.length (parseRoutes (map to_iface elems))
       = List.length (filter isObj elems).
Proof.
  intros elems _. rewrite parseRoutes_objects. split; [reflexivity|].
  apply length_map.
Qed.

Lemma parseRoutes_keeps_every_object_witness :
  parseRoutes
    (map to_iface
       [JObj [("id", JStr "r-1"); ("mask", JStr "24")]; JNum 7; JNull;
        JObj [("cidr", JStr "10.0.0.0/8"); ("mask", JNum 8)]])
  = [Route.mk "r-1" "" 0 "" "" None "" "" false;
     Route.mk "" "10.0.0.0/8" 8 "" "" None "" "" false].
Proof.
  apply (parseRoutes_keeps_every_object
           [JObj [("id", JStr "r-1"); ("mask", JStr "24")]; JNum 7; JNull;
            JObj [("cidr", JStr "10.0.0.0/8"); ("mask", JNum 8)]]).
  reflexivity.
Defined.

Lemma asSlice_lookup (key : string) (members : list (string * json)) :
  asSlice (map_get (to_map members) key)
  = match lookup key members with
    | Some (JArr elems) => Some (map to_iface elems)
    | _ => None
    end.
Proof.
  rewrite map_get_to_map.
  destruct (lookup key members) as [[]|]; reflexivity.
Qed.

Ltac scalar_field P L key :=
  keep_fields P; rewrite <- (L key);
  match goal with
  | |- context [if_ok ?o _ _] => destruct o; cbn [if_ok]
  end; keep_fields P; reflexivity.

Lemma parse_map_scalars (rtm : list (string * json)) (rt : RoutingTable.t) :
  parseRoutingTableFromMap (to_map rtm) = Ok (Some rt) ->
  RoutingTable.ID rt = strField "id" rtm
  /\ RoutingTable.Name rt = strField "name" rtm
  /\ RoutingTable.DefaultTable rt = boolField "default_table" rtm
  /\ RoutingTable.Distributed rt = boolField "distributed" rtm
  /\ RoutingTable.GatewayID rt = strField "gateway_id" rtm
  /\ RoutingTable.GatewayName rt = strField "gateway_name" rtm
  /\ RoutingTable.TenantID rt = strField "tenant_id" rtm
  /\ RoutingTable.State rt = strField "state" rtm.
Proof.
  intros H. inversion H; subst rt; clear H. cbv zeta.
  split; [|split; [|split; [|split; [|split; [|split; [|split]]]]]].
  - scalar_field RoutingTable.ID asString_lookup "id".
  - scalar_field RoutingTable.Name asString_lookup "name".
  - scalar_field RoutingTable.DefaultTable asBool_lookup "default_table".
  - scalar_field RoutingTable.Distributed asBool_lookup "distributed".
  - scalar_field RoutingTable.GatewayID asString_lookup "gateway_id".
  - scalar_field RoutingTable.GatewayName asString_lookup "gateway_name".
  - scalar_field RoutingTable.TenantID asString_lookup "tenant_id".
  - scalar_field RoutingTable.State asString_lookup "state".
Qed.

Lemma parse_map_Routes (data : gomap) (rt : RoutingTable.t) :
  parseRoutingTableFromMap data = Ok (Some rt) ->
  RoutingTable.Routes rt
  = match asSlice (map_get data "routes") with
    | Some routes => parseRoutes routes
    | None => []
    end.
Proof.
  intros H. inversion H; subst rt; clear H.
  cbv zeta. keep_fields RoutingTable.Routes.
  destruct (asSlice (map_get data "routes")); cbn [if_ok].
  - reflexivity.
  - keep_fields RoutingTable.Routes. reflexivity.
Qed.

Lemma parse_map_CreateTime (data : gomap) (rt : RoutingTable.t) :
  parseRoutingTableFromMap data = Ok (Some rt) ->
  RoutingTable.CreateTime rt
  = match asString (map_get data "create_time") with
    | Some createTimeStr =>
        match unmarshal_quoted_time createTimeStr with
        | Ok ct => ct
        | Err _ => NHNCloudTime.zero
        end
    | None => NHNCloudTime.zero
    end.
Proof.
  intros H. inversion H; subst rt; clear H.
  cbv zeta. keep_fields RoutingTable.CreateTime.
  destruct (asString (map_get data "create_time")) as [s|]; cbn [if_ok].
  - destruct (unmarshal_quoted_time s); cbn [ok_value if_ok].
    + reflexivity.
    + keep_fields RoutingTable.CreateTime. reflexivity.
  - keep_fields RoutingTable.CreateTime. reflexivity.
Qed.

Lemma Extract_fallback (bm rtm : list (string * json)) :
  matching "routingtable" bm = [JObj rtm] ->
  is_ok (RoutingTable.unmarshal RoutingTable.zero (JObj rtm)) = false ->
  RoutingTableResult_Extract (mkResult (JObj bm) None)
  = parseRoutingTableFromMap (to_map rtm).
Proof.
  intros Hm Hbad. rewrite (Extract_object bm rtm Hm).
  destruct (RoutingTable.unmarshal RoutingTable.zero (JObj rtm));
    [discriminate | reflexivity].
Qed.

(** X13: When the strict decoding of the one routingtable object of a
    response fails, [Extract] returns a table and no error, and in that
    table every string or boolean field holds the value of the last member
    with exactly that key if it is of the field's type, and the zero value
    otherwise; the routes are one per object element of the routes array,
    and there are none if routes is not an array. *)
Theorem fallback_keeps_well_typed_fields :
  forall (bm rtm : list (string * json)),
    matching "routingtable" bm = [JObj rtm] ->
    is_ok (RoutingTable.unmarshal RoutingTable.zero (JObj rtm)) = false ->
    exists rt,
      RoutingTableResult_Extract (mkResult (JObj bm) None) = Ok (Some rt)
      /\ RoutingTable.ID rt = strField "id" rtm
      /\ RoutingTable.Name rt = strField "name" rtm
      /\ RoutingTable.DefaultTable rt = boolField "default_table" rtm
      /\ RoutingTable.Distributed rt = boolField "distributed" rtm
      /\ RoutingTable.GatewayID rt = strField "gateway_id" rtm
      /\ RoutingTable.GatewayName rt = strField "gateway_name" rtm
      /\ RoutingTable.TenantID rt = strField "tenant_id" rtm
      /\ RoutingTable.State rt = strField "state" rtm
      /\ (forall elems,
             lookup "routes" rtm = Some (JArr elems) ->
             forallb exactMask elems = true ->
             RoutingTable.Routes rt = map routeOf (filter isObj elems))
      /\ ((forall elems, lookup "routes" rtm <> Some (JArr elems)) ->
          RoutingTable.Routes rt = []).
Proof.
  intros bm rtm Hm Hbad. rewrite (Extract_fallback bm rtm Hm Hbad).
  destruct (parse_map_ok (to_map rtm)) as [rt Hrt]. exists rt.
  split; [exact Hrt|].
  pose proof (parse_map_scalars rtm rt Hrt) as (H1 & H2 & H3 & H4 & H5 & H6 & H7 & H8).
  repeat (split; [assumption|]).
  rewrite (parse_map_Routes _ rt Hrt), asSlice_lookup. split.
  - intros elems -> _. apply parseRoutes_objects.
  - intros Hno. destruct (lookup "routes" rtm) as [[]|]; try reflexivity.
    now contradiction (Hno elems).
Qed.

Lemma fallback_keeps_well_typed_fields_witness :
  exists rt,
    RoutingTableResult_Extract
      (mkResult
         (JObj [("routingtable",
                 JObj [("id", JStr "rt-1"); ("default_table", JBool true);
                       ("vpcs", JArr [JNum 5]);
                       ("routes",
                        JArr [JObj [("id", JStr "r-1"); ("mask", JStr "24")];
                              JNum 7;
                              JObj [("cidr", JStr "10.0.0.0/8");
                                    ("mask", JNum 8)]])])])
         None)
    = Ok (Some rt)
    /\ RoutingTable.ID rt = "rt-1"
    /\ RoutingTable.DefaultTable rt = true
    /\ RoutingTable.Routes rt
       = [Route.mk "r-1" "" 0 "" "" None "" "" false;
          Route.mk "" "10.0.0.0/8" 8 "" "" None "" "" false].
Proof.
  destruct (fallback_keeps_well_typed_fields
              [("routingtable",
                JObj [("id", JStr "rt-1"); ("default_table", JBool true);
                      ("vpcs", JArr [JNum 5]);
                      ("routes",
                       JArr [JObj [("id", JStr "r-1"); ("mask", JStr "24")];
                             JNum 7;
                             JObj [("cidr", JStr "10.0.0.0/8");
                                   ("mask", JNum 8)]])])]
              [("id", JStr "rt-1"); ("default_table", JBool true);
               ("vpcs", JArr [JNum 5]);
               ("routes",
                JArr [JObj [("id", JStr "r-1"); ("mask", JStr "24")];
                      JNum 7;
                      JObj [("cidr", JStr "10.0.0.0/8"); ("mask", JNum 8)]])]
              eq_refl eq_refl)
    as (rt & H & Hid & _ & Hd & _ & _ & _ & _ & _ & Hr & _).
  exists rt. repeat split; try assumption.
  apply (Hr [JObj [("id", JStr "r-1"); ("mask", JStr "24")]; JNum 7;
             JObj [("cidr", JStr "10.0.0.0/8"); ("mask", JNum 8)]]);
    reflexivity.
Defined.

Lemma time_fail_receiver (ct ct' : NHNCloudTime.t) (data : string) :
  is_ok (NHNCloudTime.UnmarshalJSON ct data) = false ->
  is_ok (NHNCloudTime.UnmarshalJSON ct' data) = false.
Proof.
  unfold NHNCloudTime.UnmarshalJSON.
  destruct (String.eqb (Trim data quote) "null" || String.eqb (Trim data quote) "");
    [discriminate | exact (fun H => H)].
Qed.

Lemma safe_valid (s : string) : allb htmlSafe s = true -> validStringBody s = true.
Proof.
  induction s as [|c s IH]; [reflexivity|].
  cbn [allb validStringBody]. intros H. apply andb_true_iff in H as [Hc Hs].
  unfold htmlSafe in Hc.
  repeat (apply andb_true_iff in Hc; destruct Hc as [Hc ?]).
  repeat match goal with
         | H : negb _ = true |- _ => apply negb_true_iff in H; rewrite ?H
         end.
  apply Z.leb_le in Hc.
  replace (byte_val c <? 32) with false by (symmetry; apply Z.ltb_ge; lia).
  auto.
Qed.

Lemma create_time_member (a : RoutingTable.t) (v : json) :
  RoutingTable.member a ("create_time", v)
  = bind (NHNCloudTime.UnmarshalJSON (RoutingTable.CreateTime a) (rawText v))
      (fun x => Ok (RoutingTable.set_CreateTime a x)).
Proof. reflexivity. Qed.

(** X14: A routing table whose create_time is a string of plain
    characters.  If the timestamp decoder rejects the string, the strict
    decoding of the table fails, and [Extract] still returns a table and no
    error, with the zero time as [CreateTime]: the parse error is dropped.
    If the decoder accepts the string and the strict decoding fails for
    another reason, the table that [Extract] returns holds the decoded
    time. *)
Theorem fallback_swallows_bad_timestamp :
  forall (bm rtm : list (string * json)) (s : string),
    matching "routingtable" bm = [JObj rtm] ->
    lookup "create_time" rtm = Some (JStr s) ->
    allb htmlSafe s = true ->
    match NHNCloudTime.UnmarshalJSON NHNCloudTime.zero (rawText (JStr s)) with
    | Err _ =>
        is_ok (RoutingTable.unmarshal RoutingTable.zero (JObj rtm)) = false
        /\ exists rt,
            RoutingTableResult_Extract (mkResult (JObj bm) None) = Ok (Some rt)
            /\ RoutingTable.CreateTime rt = NHNCloudTime.zero
    | Ok ct =>
        is_ok (RoutingTable.unmarshal RoutingTable.zero (JObj rtm)) = false ->
        exists rt,
          RoutingTableResult_Extract (mkResult (JObj bm) None) = Ok (Some rt)
          /\ RoutingTable.CreateTime rt = ct
    end.
Proof.
  intros bm rtm s Hm Hl Hs.
  assert (Hq : forall rt,
             parseRoutingTableFromMap (to_map rtm) = Ok (Some rt) ->
             RoutingTable.CreateTime rt
             = match NHNCloudTime.UnmarshalJSON NHNCloudTime.zero
                       (rawText (JStr s)) with
               | Ok ct => ct
               | Err _ => NHNCloudTime.zero
               end).
  { intros rt Hrt. rewrite (parse_map_CreateTime _ rt Hrt).
    rewrite asString_opt_lookup. unfold optStrField. rewrite Hl.
    unfold unmarshal_quoted_time. rewrite (safe_valid s Hs).
    cbn [rawText]. unfold quoted. now rewrite (escapeString_safe s Hs). }
  destruct (NHNCloudTime.UnmarshalJSON NHNCloudTime.zero (rawText (JStr s)))
    as [ct|e] eqn:E.
  - intros Hbad. rewrite (Extract_fallback bm rtm Hm Hbad).
    destruct (parse_map_ok (to_map rtm)) as [rt Hrt]. exists rt.
    split; [exact Hrt | now apply Hq].
  - assert (Hbad : is_ok (RoutingTable.unmarshal RoutingTable.zero (JObj rtm))
                   = false).
    { apply (strict_fails_at rtm "create_time" (JStr s) Hl). intros a.
      rewrite create_time_member.
      assert (H : is_ok (NHNCloudTime.UnmarshalJSON (RoutingTable.CreateTime a)
                           (rawText (JStr s))) = false)
        by (apply (time_fail_receiver NHNCloudTime.zero); now rewrite E).
      destruct (NHNCloudTime.UnmarshalJSON (RoutingTable.CreateTime a) _);
        [discriminate | reflexivity]. }
    split; [exact Hbad|].
    rewrite (Extract_fallback bm rtm Hm Hbad).
    destruct (parse_map_ok (to_map rtm)) as [rt Hrt]. exists rt.
    split; [exact Hrt | now apply Hq].
Qed.

Lemma fallback_swallows_bad_timestamp_witness :
  is_ok (RoutingTable.unmarshal RoutingTable.zero
           (JObj [("id", JStr "rt-1"); ("create_time", JStr "13/02/2024")]))
  = false
  /\ exists rt,
      RoutingTableResult_Extract
        (mkResult
           (JObj [("routingtable",
                   JObj [("id", JStr "rt-1");
                         ("create_time", JStr "13/02/2024")])])
           None)
      = Ok (Some rt)
      /\ RoutingTable.CreateTime rt = NHNCloudTime.zero.
Proof.
  exact (fallback_swallows_bad_timestamp
           [("routingtable",
             JObj [("id", JStr "rt-1"); ("create_time", JStr "13/02/2024")])]
           [("id", JStr "rt-1"); ("create_time", JStr "13/02/2024")]
           "13/02/2024" eq_refl eq_refl eq_refl).
Defined.

(** ** The field-by-field parse against the strict decoders *)

Section FieldOfStruct.
Context {A B : Type}.
Variable member : A -> string * json -> result A.
Variable name : string.
Variable proj : A -> B.
Variable dec : B -> json -> result B.
Hypothesis Hself : field_match name name = true.
Hypothesis Hkeep :
  forall a kv a', field_match name (fst kv) = false -> member a kv = Ok a' ->
                  proj a' = proj a.
Hypothesis Hset :
  forall a v a', member a (name, v) = Ok a' -> dec (proj a) v = Ok (proj a').

Lemma fold_field (m : list (string * json)) :
  forall a x,
    spelledOnce name m = true ->
    fold_left (step member) m (Ok a) = Ok x ->
    match lookup name m with
    | Some v => dec (proj a) v = Ok (proj x)
    | None => proj x = proj a
    end.
Proof.
  induction m as [|[k v] m IH]; intros a x Hc Hf.
  - cbn in *. now injection Hf as <-.
  - cbn [spelledOnce fst] in Hc. apply andb_true_iff in Hc as [Hk Hc].
    rewrite fold_step_cons in Hf.
    destruct (member a (k, v)) as [a1|e] eqn:Ea;
      [|rewrite fold_step_err in Hf; discriminate].
    cbn [lookup].
    destruct (field_match name k) eqn:Ek.
    + apply andb_true_iff in Hk as [Hk Hno].
      apply String.eqb_eq in Hk. subst k.
      rewrite (noMember_lookup _ _ Hno), String.eqb_refl.
      rewrite (fold_step_preserve _ proj (field_match name) Hkeep m a1 x Hno Hf).
      now apply Hset.
    + assert (Hne : String.eqb k name = false).
      { destruct (String.eqb k name) eqn:E; [|reflexivity].
        apply String.eqb_eq in E. subst k. congruence. }
      rewrite Hne. specialize (IH a1 x Hc Hf).
      rewrite (Hkeep a (k, v) a1 Ek Ea) in IH.
      destruct (lookup name m); exact IH.
Qed.
End FieldOfStruct.

Lemma strField_value (n : string) (m : list (string * json)) (y : string) :
  match lookup n m with
  | Some v => unmarshal_string "" v = Ok y
  | None => y = ""
  end -> strField n m = y.
Proof.
  unfold strField. destruct (lookup n m) as [[]|]; cbn; congruence.
Qed.

Lemma boolField_value (n : string) (m : list (string * json)) (y : bool) :
  match lookup n m with
  | Some v => unmarshal_bool false v = Ok y
  | None => y = false
  end -> boolField n m = y.
Proof.
  unfold boolField. destruct (lookup n m) as [[]|]; cbn; congruence.
Qed.

Lemma numField_value (n : string) (m : list (string * json)) (y : Z) :
  match lookup n m with
  | Some v => unmarshal_int 0 v = Ok y
  | None => y = 0
  end -> numField n m = y.
Proof.
  unfold numField, unmarshal_int.
  destruct (lookup n m) as [[| |z| | |]|]; try congruence.
  destruct ((- 2 ^ 63 <=? z) && (z <? 2 ^ 63)); congruence.
Qed.

Lemma optStrField_value (n : string) (m : list (string * json)) (y : option string) :
  match lookup n m with
  | Some v => unmarshal_string_ptr None v = Ok y
  | None => y = None
  end -> optStrField n m = y.
Proof.
  unfold optStrField. destruct (lookup n m) as [[]|]; cbn; congruence.
Qed.

(** *** References *)

Lemma vpc_member_sets_ID :
  forall a v a', FlexibleVPCInfo.vpcAlias_member a ("id", v) = Ok a' ->
    unmarshal_string (FlexibleVPCInfo.ID a) v = Ok (FlexibleVPCInfo.ID a').
Proof.
  intros a v a'. unfold FlexibleVPCInfo.vpcAlias_member. cbn [fst snd].
  eval_field_match. cbn iota.
  destruct (unmarshal_string _ v); cbn [bind]; intros H; now inversion H.
Qed.

Lemma vpc_member_sets_Name :
  forall a v a', FlexibleVPCInfo.vpcAlias_member a ("name", v) = Ok a' ->
    unmarshal_string (FlexibleVPCInfo.Name a) v = Ok (FlexibleVPCInfo.Name a').
Proof.
  intros a v a'. unfold FlexibleVPCInfo.vpcAlias_member. cbn [fst snd].
  eval_field_match. cbn iota.
  destruct (unmarshal_string _ v); cbn [bind]; intros H; now inversion H.
Qed.

Lemma subnet_member_sets_ID :
  forall a v a', FlexibleSubnetInfo.subnetAlias_member a ("id", v) = Ok a' ->
    unmarshal_string (FlexibleSubnetInfo.ID a) v = Ok (FlexibleSubnetInfo.ID a').
Proof.
  intros a v a'. unfold FlexibleSubnetInfo.subnetAlias_member. cbn [fst snd].
  eval_field_match. cbn iota.
  destruct (unmarshal_string _ v); cbn [bind]; intros H; now inversion H.
Qed.

Lemma subnet_member_sets_Name :
  forall a v a', FlexibleSubnetInfo.subnetAlias_member a ("name", v) = Ok a' ->
    unmarshal_string (FlexibleSubnetInfo.Name a) v
    = Ok (FlexibleSubnetInfo.Name a').
Proof.
  intros a v a'. unfold FlexibleSubnetInfo.subnetAlias_member. cbn [fst snd].
  eval_field_match. cbn iota.
  destruct (unmarshal_string _ v); cbn [bind]; intros H; now inversion H.
Qed.

Lemma plainKeys_cons (n : string) (names : list string) (m : list (string * json)) :
  plainKeys (n :: names) m = spelledOnce n m && plainKeys names m.
Proof. reflexivity. Qed.

Lemma vpc_strict_is_vpcOf (v : json) (x : FlexibleVPCInfo.t) :
  plainRef v = true ->
  FlexibleVPCInfo.UnmarshalJSON FlexibleVPCInfo.zero v = Ok x ->
  vpcOf v = x.
Proof.
  destruct v as [| | |s| |m]; try discriminate; intros Hp Hx.
  - cbn in Hx. now injection Hx as <-.
  - unfold FlexibleVPCInfo.UnmarshalJSON in Hx.
    cbn [unmarshal_string unmarshal_struct] in Hx.
    cbn [plainRef] in Hp. rewrite !plainKeys_cons in Hp.
    apply andb_true_iff in Hp as [H1 Hp]. apply andb_true_iff in Hp as [H2 _].
    pose proof (fold_field FlexibleVPCInfo.vpcAlias_member "id"
                  FlexibleVPCInfo.ID unmarshal_string eq_refl
                  vpc_member_keeps_ID vpc_member_sets_ID m _ _ H1 Hx) as Hid.
    pose proof (fold_field FlexibleVPCInfo.vpcAlias_member "name"
                  FlexibleVPCInfo.Name unmarshal_string eq_refl
                  vpc_member_keeps_Name vpc_member_sets_Name m _ _ H2 Hx) as Hn.
    apply strField_value in Hid, Hn. cbn [vpcOf].
    destruct x as [i n]. cbn in *. congruence.
Qed.

Lemma subnet_strict_is_subnetOf (v : json) (x : FlexibleSubnetInfo.t) :
  plainRef v = true ->
  FlexibleSubnetInfo.UnmarshalJSON FlexibleSubnetInfo.zero v = Ok x ->
  subnetOf v = x.
Proof.
  destruct v as [| | |s| |m]; try discriminate; intros Hp Hx.
  - cbn in Hx. now injection Hx as <-.
  - unfold FlexibleSubnetInfo.UnmarshalJSON in Hx.
    cbn [unmarshal_string unmarshal_struct] in Hx.
    cbn [plainRef] in Hp. rewrite !plainKeys_cons in Hp.
    apply andb_true_iff in Hp as [H1 Hp]. apply andb_true_iff in Hp as [H2 _].
    pose proof (fold_field FlexibleSubnetInfo.subnetAlias_member "id"
                  FlexibleSubnetInfo.ID unmarshal_string eq_refl
                  subnet_member_keeps_ID subnet_member_sets_ID m _ _ H1 Hx) as Hid.
    pose proof (fold_field FlexibleSubnetInfo.subnetAlias_member "name"
                  FlexibleSubnetInfo.Name unmarshal_string eq_refl
                  subnet_member_keeps_Name subnet_member_sets_Name m _ _ H2 Hx) as Hn.
    apply strField_value in Hid, Hn. cbn [subnetOf].
    destruct x as [i n]. cbn in *. congruence.
Qed.

Lemma unmarshal_elems_map {A} (dec : json -> result A) (f : json -> A)
  (p : json -> bool) :
  (forall v x, p v = true -> dec v = Ok x -> f v = x) ->
  forall l xs, forallb p l = true -> unmarshal_elems dec l = Ok xs ->
               map f l = xs.
Proof.
  intros Hf. induction l as [|v l IH]; intros xs Hp H; cbn [unmarshal_elems] in H.
  - now injection H as <-.
  - cbn [forallb] in Hp. apply andb_true_iff in Hp as [Hv Hl].
    destruct (dec v) as [a|e] eqn:Ev; cbn [bind] in H; [|discriminate].
    destruct (unmarshal_elems dec l) as [rest|e]; cbn [bind] in H; [|discriminate].
    injection H as <-. cbn [map]. f_equal; [now apply Hf | now apply IH].
Qed.

Lemma filter_all {A} (p q : A -> bool) (l : list A) :
  (forall x, p x = true -> q x = true) -> forallb p l = true -> filter q l = l.
Proof.
  intros Hpq. induction l as [|x l IH]; [reflexivity|].
  cbn [forallb filter]. intros H. apply andb_true_iff in H as [Hx Hl].
  rewrite (Hpq x Hx). f_equal. now apply IH.
Qed.

Lemma plainRef_isRef (v : json) : plainRef v = true -> isRef v = true.
Proof. destruct v; cbn; congruence. Qed.

(** X15: On a list of references written as strings or as objects with
    plain keys (every key that the decoder takes for id or name is spelled
    exactly so and occurs once), whenever the strict decoder accepts the
    list, [parseFlexibleVPCs] and [parseFlexibleSubnets] compute the same
    references from the decoded list. *)
Theorem fallback_references_agree_with_strict :
  forall (elems : list json),
    forallb plainRef elems = true ->
    (forall xs,
        unmarshal_slice (FlexibleVPCInfo.UnmarshalJSON FlexibleVPCInfo.zero)
          (JArr elems) = Ok xs ->
        parseFlexibleVPCs (to_iface (JArr elems)) = xs)
    /\ (forall xs,
           unmarshal_slice
             (FlexibleSubnetInfo.UnmarshalJSON FlexibleSubnetInfo.zero)
             (JArr elems) = Ok xs ->
           parseFlexibleSubnets (to_iface (JArr elems)) = xs).
Proof.
  intros elems Hp. split; intros xs Hx; cbn [unmarshal_slice] in Hx.
  - rewrite parseFlexibleVPCs_refs, (filter_all _ _ _ plainRef_isRef Hp).
    exact (unmarshal_elems_map _ vpcOf plainRef vpc_strict_is_vpcOf elems xs Hp Hx).
  - rewrite parseFlexibleSubnets_refs, (filter_all _ _ _ plainRef_isRef Hp).
    exact (unmarshal_elems_map _ subnetOf plainRef subnet_strict_is_subnetOf
             elems xs Hp Hx).
Qed.

Lemma fallback_references_agree_with_strict_witness :
  parseFlexibleVPCs
    (to_iface (JArr [JStr "vpc-1";
                     JObj [("id", JStr "vpc-2"); ("name", JStr "secondvpc")]]))
  = [FlexibleVPCInfo.mk "vpc-1" ""; FlexibleVPCInfo.mk "vpc-2" "secondvpc"].
Proof.
  apply (fallback_references_agree_with_strict
           [JStr "vpc-1";
            JObj [("id", JStr "vpc-2"); ("name", JStr "secondvpc")]]);
    reflexivity.
Defined.

(** *** Routes *)

Ltac route_cases k :=
  unfold Route.member; cbn [fst snd];
  repeat match goal with
    | |- context [field_match ?n k] =>
        lazymatch goal with
        | H : field_match n k = _ |- _ => rewrite H
        | _ => let E := fresh "E" in destruct (field_match n k) eqn:E
        end
    end.

Ltac route_keeps :=
  intros a [k v] a' Hk; cbn [fst] in Hk; route_cases k;
  try (case_unmarshal; intros H; inversion H; reflexivity);
  intros H; inversion H; reflexivity.

Ltac route_sets :=
  intros a v a'; unfold Route.member; cbn [fst snd]; eval_field_match;
  cbn iota;
  match goal with
  | |- context [bind ?r _] => destruct r; cbn [bind]
  end; intros H; now inversion H.

Lemma route_member_keeps_ID :
  forall a kv a', field_match "id" (fst kv) = false ->
    Route.member a kv = Ok a' -> Route.ID a' = Route.ID a.
Proof. route_keeps. Qed.

Lemma route_member_sets_ID :
  forall a v a', Route.member a ("id", v) = Ok a' ->
    unmarshal_string (Route.ID a) v = Ok (Route.ID a').
Proof. route_sets. Qed.

Lemma route_member_keeps_CIDR :
  forall a kv a', field_match "cidr" (fst kv) = false ->
    Route.member a kv = Ok a' -> Route.CIDR a' = Route.CIDR a.
Proof. route_keeps. Qed.

Lemma route_member_sets_CIDR :
  forall a v a', Route.member a ("cidr", v) = Ok a' ->
    unmarshal_string (Route.CIDR a) v = Ok (Route.CIDR a').
Proof. route_sets. Qed.

Lemma route_member_keeps_Mask :
  forall a kv a', field_match "mask" (fst kv) = false ->
    Route.member a kv = Ok a' -> Route.Mask a' = Route.Mask a.
Proof. route_keeps. Qed.

Lemma route_member_sets_Mask :
  forall a v a', Route.member a ("mask", v) = Ok a' ->
    unmarshal_int (Route.Mask a) v = Ok (Route.Mask a').
Proof. route_sets. Qed.

Lemma route_member_keeps_Gateway :
  forall a kv a', field_match "gateway" (fst kv) = false ->
    Route.member a kv = Ok a' -> Route.Gateway a' = Route.Gateway a.
Proof. route_keeps. Qed.

Lemma route_member_sets_Gateway :
  forall a v a', Route.member a ("gateway", v) = Ok a' ->
    unmarshal_string (Route.Gateway a) v = Ok (Route.Gateway a').
Proof. route_sets. Qed.

Lemma route_member_keeps_GatewayID :
  forall a kv a', field_match "gateway_id" (fst kv) = false ->
    Route.member a kv = Ok a' -> Route.GatewayID a' = Route.GatewayID a.
Proof. route_keeps. Qed.

Lemma route_member_sets_GatewayID :
  forall a v a', Route.member a ("gateway_id", v) = Ok a' ->
    unmarshal_string (Route.GatewayID a) v = Ok (Route.GatewayID a').
Proof. route_sets. Qed.

Lemma route_member_keeps_Description :
  forall a kv a', field_match "description" (fst kv) = false ->
    Route.member a kv = Ok a' -> Route.Description a' = Route.Description a.
Proof. route_keeps. Qed.

Lemma route_member_sets_Description :
  forall a v a', Route.member a ("description", v) = Ok a' ->
    unmarshal_string_ptr (Route.Description a) v = Ok (Route.Description a').
Proof. route_sets. Qed.

Lemma route_member_keeps_RoutingTableID :
  forall a kv a', field_match "routingtable_id" (fst kv) = false ->
    Route.member a kv = Ok a' -> Route.RoutingTableID a' = Route.RoutingTableID a.
Proof. route_keeps. Qed.

Lemma route_member_sets_RoutingTableID :
  forall a v a', Route.member a ("routingtable_id", v) = Ok a' ->
    unmarshal_string (Route.RoutingTableID a) v = Ok (Route.RoutingTableID a').
Proof. route_sets. Qed.

Lemma route_member_keeps_TenantID :
  forall a kv a', field_match "tenant_id" (fst kv) = false ->
    Route.member a kv = Ok a' -> Route.TenantID a' = Route.TenantID a.
Proof. route_keeps. Qed.

Lemma route_member_sets_TenantID :
  forall a v a', Route.member a ("tenant_id", v) = Ok a' ->
    unmarshal_string (Route.TenantID a) v = Ok (Route.TenantID a').
Proof. route_sets. Qed.

Lemma route_member_keeps_Hidden :
  forall a kv a', field_match "hidden" (fst kv) = false ->
    Route.member a kv = Ok a' -> Route.Hidden a' = Route.Hidden a.
Proof. route_keeps. Qed.

Lemma route_member_sets_Hidden :
  forall a v a', Route.member a ("hidden", v) = Ok a' ->
    unmarshal_bool (Route.Hidden a) v = Ok (Route.Hidden a').
Proof. route_sets. Qed.

Lemma route_strict_is_routeOf (v : json) (x : Route.t) :
  plainRoute v = true ->
  unmarshal_struct Route.member Route.zero v = Ok x ->
  routeOf v = x.
Proof.
  destruct v as [| | | | |m]; try discriminate; intros Hp Hx.
  cbn [unmarshal_struct] in Hx. cbn [plainRoute] in Hp.
  apply andb_true_iff in Hp as [Hp _]. rewrite !plainKeys_cons in Hp.
  repeat match type of Hp with
         | _ && _ = true =>
             let H := fresh "Hk" in apply andb_true_iff in Hp as [H Hp]
         end.
  pose proof (strField_value "id" m _
                (fold_field Route.member "id" Route.ID unmarshal_string eq_refl
                   route_member_keeps_ID route_member_sets_ID m _ _ Hk Hx))
    as HID.
  pose proof (strField_value "cidr" m _
                (fold_field Route.member "cidr" Route.CIDR unmarshal_string eq_refl
                   route_member_keeps_CIDR route_member_sets_CIDR m _ _ Hk0 Hx))
    as HCIDR.
  pose proof (numField_value "mask" m _
                (fold_field Route.member "mask" Route.Mask unmarshal_int eq_refl
                   route_member_keeps_Mask route_member_sets_Mask m _ _ Hk1 Hx))
    as HMask.
  pose proof (strField_value "gateway" m _
                (fold_field Route.member "gateway" Route.Gateway unmarshal_string eq_refl
                   route_member_keeps_Gateway route_member_sets_Gateway m _ _ Hk2 Hx))
    as HGateway.
  pose proof (strField_value "gateway_id" m _
                (fold_field Route.member "gateway_id" Route.GatewayID unmarshal_string eq_refl
                   route_member_keeps_GatewayID route_member_sets_GatewayID m _ _ Hk3 Hx))
    as HGatewayID.
  pose proof (optStrField_value "description" m _
                (fold_field Route.member "description" Route.Description unmarshal_string_ptr eq_refl
                   route_member_keeps_Description route_member_sets_Description m _ _ Hk4 Hx))
    as HDescription.
  pose proof (strField_value "routingtable_id" m _
                (fold_field Route.member "routingtable_id" Route.RoutingTableID unmarshal_string eq_refl
                   route_member_keeps_RoutingTableID route_member_sets_RoutingTableID m _ _ Hk5 Hx))
    as HRoutingTableID.
  pose proof (strField_value "tenant_id" m _
                (fold_field Route.member "tenant_id" Route.TenantID unmarshal_string eq_refl
                   route_member_keeps_TenantID route_member_sets_TenantID m _ _ Hk6 Hx))
    as HTenantID.
  pose proof (boolField_value "hidden" m _
                (fold_field Route.member "hidden" Route.Hidden unmarshal_bool eq_refl
                   route_member_keeps_Hidden route_member_sets_Hidden m _ _ Hk7 Hx))
    as HHidden.
  cbn [routeOf]. destruct x. cbn in *. congruence.
Qed.

Lemma plainRoute_isObj (v : json) : plainRoute v = true -> isObj v = true.
Proof. destruct v; cbn; congruence. Qed.

(** X16: On a list of route objects with plain keys and exact masks,
    whenever the strict decoder accepts the list, [parseRoutes] computes the
    same routes from the decoded list. *)
Theorem fallback_routes_agree_with_strict :
  forall (elems : list json) (xs : list Route.t),
    forallb plainRoute elems = true ->
    unmarshal_slice (unmarshal_struct Route.member Route.zero) (JArr elems)
    = Ok xs ->
    parseRoutes (map to_iface elems) = xs.
Proof.
  intros elems xs Hp Hx. cbn [unmarshal_slice] in Hx.
  rewrite parseRoutes_objects, (filter_all _ _ _ plainRoute_isObj Hp).
  exact (unmarshal_elems_map _ routeOf plainRoute route_strict_is_routeOf
           elems xs Hp Hx).
Qed.

Lemma fallback_routes_agree_with_strict_witness :
  parseRoutes
    (map to_iface
       [JObj [("id", JStr "r-1"); ("cidr", JStr "10.0.0.0/8"); ("mask", JNum 8);
              ("gateway", JStr "10.0.0.1"); ("description", JNull);
              ("hidden", JBool true)]])
  = [Route.mk "r-1" "10.0.0.0/8" 8 "10.0.0.1" "" None "" "" true].
Proof.
  apply (fallback_routes_agree_with_strict
           [JObj [("id", JStr "r-1"); ("cidr", JStr "10.0.0.0/8");
                  ("mask", JNum 8); ("gateway", JStr "10.0.0.1");
                  ("description", JNull); ("hidden", JBool true)]]);
    reflexivity.
Defined.

(** ** The fields of a decoded gateway *)

Ltac gw_keeps :=
  intros s [k v] s' Hk; cbn [fst] in Hk; gw_cases k;
  try (case_unmarshal; intros H; inversion H; reflexivity);
  intros H; inversion H; reflexivity.

Ltac gw_sets :=
  intros s v s'; unfold InternetGateway.s_member; cbn [fst snd];
  eval_field_match; cbn iota;
  match goal with
  | |- context [bind ?r _] => destruct r; cbn [bind]
  end; intros H; now inversion H.

Lemma gw_member_keeps_ID :
  forall s kv s', field_match "id" (fst kv) = false ->
    InternetGateway.s_member s kv = Ok s' ->
    InternetGateway.ID (InternetGateway.tmp s')
    = InternetGateway.ID (InternetGateway.tmp s).
Proof. gw_keeps. Qed.

Lemma gw_member_sets_ID :
  forall s v s', InternetGateway.s_member s ("id", v) = Ok s' ->
    unmarshal_string (InternetGateway.ID (InternetGateway.tmp s)) v
    = Ok (InternetGateway.ID (InternetGateway.tmp s')).
Proof. gw_sets. Qed.

Lemma gw_member_keeps_Name :
  forall s kv s', field_match "name" (fst kv) = false ->
    InternetGateway.s_member s kv = Ok s' ->
    InternetGateway.Name (InternetGateway.tmp s')
    = InternetGateway.Name (InternetGateway.tmp s).
Proof. gw_keeps. Qed.

Lemma gw_member_sets_Name :
  forall s v s', InternetGateway.s_member s ("name", v) = Ok s' ->
    unmarshal_string (InternetGateway.Name (InternetGateway.tmp s)) v
    = Ok (InternetGateway.Name (InternetGateway.tmp s')).
Proof. gw_sets. Qed.

Lemma gw_member_keeps_ExternalNetworkID :
  forall s kv s', field_match "external_network_id" (fst kv) = false ->
    InternetGateway.s_member s kv = Ok s' ->
    InternetGateway.ExternalNetworkID (InternetGateway.tmp s')
    = InternetGateway.ExternalNetworkID (InternetGateway.tmp s).
Proof. gw_keeps. Qed.

Lemma gw_member_sets_ExternalNetworkID :
  forall s v s', InternetGateway.s_member s ("external_network_id", v) = Ok s' ->
    unmarshal_string (InternetGateway.ExternalNetworkID (InternetGateway.tmp s)) v
    = Ok (InternetGateway.ExternalNetworkID (InternetGateway.tmp s')).
Proof. gw_sets. Qed.

Lemma gw_member_keeps_RoutingTableID :
  forall s kv s', field_match "routingtable_id" (fst kv) = false ->
    InternetGateway.s_member s kv = Ok s' ->
    InternetGateway.RoutingTableID (InternetGateway.tmp s')
    = InternetGateway.RoutingTableID (InternetGateway.tmp s).
Proof. gw_keeps. Qed.

Lemma gw_member_sets_RoutingTableID :
  forall s v s', InternetGateway.s_member s ("routingtable_id", v) = Ok s' ->
    unmarshal_string_ptr (InternetGateway.RoutingTableID (InternetGateway.tmp s)) v
    = Ok (InternetGateway.RoutingTableID (InternetGateway.tmp s')).
Proof. gw_sets. Qed.

Lemma gw_member_keeps_State :
  forall s kv s', field_match "state" (fst kv) = false ->
    InternetGateway.s_member s kv = Ok s' ->
    InternetGateway.State (InternetGateway.tmp s')
    = InternetGateway.State (InternetGateway.tmp s).
Proof. gw_keeps. Qed.

Lemma gw_member_sets_State :
  forall s v s', InternetGateway.s_member s ("state", v) = Ok s' ->
    unmarshal_string (InternetGateway.State (InternetGateway.tmp s)) v
    = Ok (InternetGateway.State (InternetGateway.tmp s')).
Proof. gw_sets. Qed.

Lemma gw_member_keeps_TenantID :
  forall s kv s', field_match "tenant_id" (fst kv) = false ->
    InternetGateway.s_member s kv = Ok s' ->
    InternetGateway.TenantID (InternetGateway.tmp s')
    = InternetGateway.TenantID (InternetGateway.tmp s).
Proof. gw_keeps. Qed.

Lemma gw_member_sets_TenantID :
  forall s v s', InternetGateway.s_member s ("tenant_id", v) = Ok s' ->
    unmarshal_string (InternetGateway.TenantID (InternetGateway.tmp s)) v
    = Ok (InternetGateway.TenantID (InternetGateway.tmp s')).
Proof. gw_sets. Qed.

Lemma gw_member_keeps_MigrateStatus :
  forall s kv s', field_match "migrate_status" (fst kv) = false ->
    InternetGateway.s_member s kv = Ok s' ->
    InternetGateway.MigrateStatus (InternetGateway.tmp s')
    = InternetGateway.MigrateStatus (InternetGateway.tmp s).
Proof. gw_keeps. Qed.

Lemma gw_member_sets_MigrateStatus :
  forall s v s', InternetGateway.s_member s ("migrate_status", v) = Ok s' ->
    unmarshal_string (InternetGateway.MigrateStatus (InternetGateway.tmp s)) v
    = Ok (InternetGateway.MigrateStatus (InternetGateway.tmp s')).
Proof. gw_sets. Qed.

Lemma gw_member_keeps_MigrateError :
  forall s kv s', field_match "migrate_error" (fst kv) = false ->
    InternetGateway.s_member s kv = Ok s' ->
    InternetGateway.MigrateError (InternetGateway.tmp s')
    = InternetGateway.MigrateError (InternetGateway.tmp s).
Proof. gw_keeps. Qed.

Lemma gw_member_sets_MigrateError :
  forall s v s', InternetGateway.s_member s ("migrate_error", v) = Ok s' ->
    unmarshal_string_ptr (InternetGateway.MigrateError (InternetGateway.tmp s)) v
    = Ok (InternetGateway.MigrateError (InternetGateway.tmp s')).
Proof. gw_sets. Qed.

Lemma gw_member_sets_create_time :
  forall s v s', InternetGateway.s_member s ("create_time", v) = Ok s' ->
    unmarshal_string (InternetGateway.s_CreateTime s) v
    = Ok (InternetGateway.s_CreateTime s').
Proof. gw_sets. Qed.

(** X17: What [InternetGateway.UnmarshalJSON] stores when it accepts an
    object with plain keys.  Every string field holds the string of its
    member, or is empty when the member is absent or null; the two pointer
    fields hold the string of their member or nil.  [CreateTime] is the zero
    time when create_time is absent, null or empty, and otherwise the time
    that the one layout parses from it. *)
Theorem gateway_decode_fields :
  forall (members : list (string * json)) (g : InternetGateway.t),
    plainKeys ["id"; "name"; "external_network_id"; "routingtable_id"; "state";
               "tenant_id"; "migrate_status"; "migrate_error"; "create_time"]
      members = true ->
    InternetGateway.UnmarshalJSON (JObj members) = Ok g ->
    InternetGateway.ID g = strField "id" members
    /\ InternetGateway.Name g = strField "name" members
    /\ InternetGateway.ExternalNetworkID g
       = strField "external_network_id" members
    /\ InternetGateway.RoutingTableID g = optStrField "routingtable_id" members
    /\ InternetGateway.State g = strField "state" members
    /\ InternetGateway.TenantID g = strField "tenant_id" members
    /\ InternetGateway.MigrateStatus g = strField "migrate_status" members
    /\ InternetGateway.MigrateError g = optStrField "migrate_error" members
    /\ (if String.eqb (strField "create_time" members) ""
        then InternetGateway.CreateTime g = zeroTime
        else Parse layout_space (strField "create_time" members)
             = Ok (InternetGateway.CreateTime g)).
Proof.
  intros m g Hp Hg. unfold InternetGateway.UnmarshalJSON in Hg.
  destruct (unmarshal_struct InternetGateway.s_member
              (InternetGateway.mk_s InternetGateway.zero "") (JObj m))
    as [st|e] eqn:Hst; [|discriminate].
  pose proof (gw_struct_tmp_time m st Hst) as Htime.
  cbn [unmarshal_struct] in Hst. rewrite !plainKeys_cons in Hp.
  repeat match type of Hp with
         | _ && _ = true =>
             let H := fresh "Hk" in apply andb_true_iff in Hp as [H Hp]
         end.
  pose proof (strField_value "id" m _
                (fold_field InternetGateway.s_member "id"
                   (fun s => InternetGateway.ID (InternetGateway.tmp s)) unmarshal_string
                   eq_refl gw_member_keeps_ID gw_member_sets_ID
                   m _ _ Hk Hst)) as HID.
  pose proof (strField_value "name" m _
                (fold_field InternetGateway.s_member "name"
                   (fun s => InternetGateway.Name (InternetGateway.tmp s)) unmarshal_string
                   eq_refl gw_member_keeps_Name gw_member_sets_Name
                   m _ _ Hk0 Hst)) as HName.
  pose proof (strField_value "external_network_id" m _
                (fold_field InternetGateway.s_member "external_network_id"
                   (fun s => InternetGateway.ExternalNetworkID (InternetGateway.tmp s)) unmarshal_string
                   eq_refl gw_member_keeps_ExternalNetworkID gw_member_sets_ExternalNetworkID
                   m _ _ Hk1 Hst)) as HExternalNetworkID.
  pose proof (optStrField_value "routingtable_id" m _
                (fold_field InternetGateway.s_member "routingtable_id"
                   (fun s => InternetGateway.RoutingTableID (InternetGateway.tmp s)) unmarshal_string_ptr
                   eq_refl gw_member_keeps_RoutingTableID gw_member_sets_RoutingTableID
                   m _ _ Hk2 Hst)) as HRoutingTableID.
  pose proof (strField_value "state" m _
                (fold_field InternetGateway.s_member "state"
                   (fun s => InternetGateway.State (InternetGateway.tmp s)) unmarshal_string
                   eq_refl gw_member_keeps_State gw_member_sets_State
                   m _ _ Hk3 Hst)) as HState.
  pose proof (strField_value "tenant_id" m _
                (fold_field InternetGateway.s_member "tenant_id"
                   (fun s => InternetGateway.TenantID (InternetGateway.tmp s)) unmarshal_string
                   eq_refl gw_member_keeps_TenantID gw_member_sets_TenantID
                   m _ _ Hk4 Hst)) as HTenantID.
  pose proof (strField_value "migrate_status" m _
                (fold_field InternetGateway.s_member "migrate_status"
                   (fun s => InternetGateway.MigrateStatus (InternetGateway.tmp s)) unmarshal_string
                   eq_refl gw_member_keeps_MigrateStatus gw_member_sets_MigrateStatus
                   m _ _ Hk5 Hst)) as HMigrateStatus.
  pose proof (optStrField_value "migrate_error" m _
                (fold_field InternetGateway.s_member "migrate_error"
                   (fun s => InternetGateway.MigrateError (InternetGateway.tmp s)) unmarshal_string_ptr
                   eq_refl gw_member_keeps_MigrateError gw_member_sets_MigrateError
                   m _ _ Hk6 Hst)) as HMigrateError.
  pose proof (strField_value "create_time" m _
                (fold_field InternetGateway.s_member "create_time"
                   InternetGateway.s_CreateTime unmarshal_string
                   eq_refl gw_member_keeps_create_time gw_member_sets_create_time
                   m _ _ Hk7 Hst)) as Hct.
  rewrite Hct.
  destruct (String.eqb (InternetGateway.s_CreateTime st) ""); cbn [negb] in Hg.
  - injection Hg as <-. repeat (split; [congruence|]). exact Htime.
  - destruct (Parse layout_space (InternetGateway.s_CreateTime st)) as [t'|e];
      [|discriminate].
    injection Hg as <-. destruct (InternetGateway.tmp st).
    cbn in *. repeat (split; [congruence|]). reflexivity.
Qed.

Lemma gateway_decode_fields_witness :
  InternetGateway.ID
    (InternetGateway.mk "igw-1" "" "" None "available"
       (mkTime 63843417957 0 0) "" "" None)
  = strField "id" [("id", JStr "igw-1"); ("state", JStr "available");
                   ("routingtable_id", JNull);
                   ("create_time", JStr "2024-02-13 10:45:57")].
Proof.
  apply (gateway_decode_fields
           [("id", JStr "igw-1"); ("state", JStr "available");
            ("routingtable_id", JNull);
            ("create_time", JStr "2024-02-13 10:45:57")]
           (InternetGateway.mk "igw-1" "" "" None "available"
              (mkTime 63843417957 0 0) "" "" None));
    reflexivity.
Defined.

(** X18: The strict decoders match keys without regard to case, the
    field-by-field parse reads them exactly.  For a key that folds to id but
    is not spelled id, the strict decoders of references and of routes store
    the string of the member as the ID, while [parseFlexibleVPCs],
    [parseFlexibleSubnets] and [parseRoutes] return an element with an empty
    ID. *)
Theorem fallback_reads_keys_exactly :
  forall (k s : string),
    field_match "id" k = true -> k <> "id" ->
    FlexibleVPCInfo.UnmarshalJSON FlexibleVPCInfo.zero (JObj [(k, JStr s)])
    = Ok (FlexibleVPCInfo.mk s "")
    /\ parseFlexibleVPCs (to_iface (JArr [JObj [(k, JStr s)]]))
       = [FlexibleVPCInfo.mk "" ""]
    /\ FlexibleSubnetInfo.UnmarshalJSON FlexibleSubnetInfo.zero
         (JObj [(k, JStr s)])
       = Ok (FlexibleSubnetInfo.mk s "")
    /\ parseFlexibleSubnets (to_iface (JArr [JObj [(k, JStr s)]]))
       = [FlexibleSubnetInfo.mk "" ""]
    /\ unmarshal_struct Route.member Route.zero (JObj [(k, JStr s)])
       = Ok (Route.set_ID Route.zero s)
    /\ parseRoutes [to_iface (JObj [(k, JStr s)])] = [Route.zero].
Proof.
  intros k s Hk Hne.
  assert (Hid : String.eqb k "id" = false) by now apply String.eqb_neq.
  assert (Hother : forall n, field_match "id" n = false -> String.eqb k n = false).
  { intros n Hn. destruct (String.eqb k n) eqn:E; [|reflexivity].
    apply String.eqb_eq in E. subst n. congruence. }
  assert (Hlk : forall n, (n = "id" \/ field_match "id" n = false) ->
                          lookup n [(k, JStr s)] = None).
  { intros n [-> | Hn]; cbn [lookup]; [now rewrite Hid | now rewrite (Hother n Hn)]. }
  split; [|split; [|split; [|split; [|split]]]].
  - unfold FlexibleVPCInfo.UnmarshalJSON.
    cbn [unmarshal_string unmarshal_struct fold_left]. unfold step. cbn [bind].
    unfold FlexibleVPCInfo.vpcAlias_member. cbn [fst snd]. now rewrite Hk.
  - rewrite parseFlexibleVPCs_refs. cbn [filter isRef map vpcOf]. unfold strField.
    rewrite !Hlk by (auto; right; reflexivity). reflexivity.
  - unfold FlexibleSubnetInfo.UnmarshalJSON.
    cbn [unmarshal_string unmarshal_struct fold_left]. unfold step. cbn [bind].
    unfold FlexibleSubnetInfo.subnetAlias_member. cbn [fst snd]. now rewrite Hk.
  - rewrite parseFlexibleSubnets_refs. cbn [filter isRef map subnetOf].
    unfold strField. rewrite !Hlk by (auto; right; reflexivity). reflexivity.
  - cbn [unmarshal_struct fold_left]. unfold step. cbn [bind].
    unfold Route.member. cbn [fst snd]. now rewrite Hk.
  - rewrite parseRoutes_object. unfold routeOf, strField, numField, optStrField,
      boolField.
    rewrite !Hlk by (auto; right; reflexivity). reflexivity.
Qed.

Lemma fallback_reads_keys_exactly_witness :
  FlexibleVPCInfo.UnmarshalJSON FlexibleVPCInfo.zero (JObj [("ID", JStr "vpc-1")])
  = Ok (FlexibleVPCInfo.mk "vpc-1" "")
  /\ parseFlexibleVPCs (to_iface (JArr [JObj [("ID", JStr "vpc-1")]]))
     = [FlexibleVPCInfo.mk "" ""].
Proof.
  destruct (fallback_reads_keys_exactly "ID" "vpc-1" eq_refl)
    as (H1 & H2 & _); [discriminate | split; assumption].
Defined.

(** ** The fields of a strictly decoded routing table *)

Ltac table_keeps :=
  intros a [k v] a' Hk; cbn [fst] in Hk; rt_cases k;
  try (case_unmarshal; intros H; inversion H; reflexivity);
  intros H; inversion H; reflexivity.

Ltac table_sets :=
  intros a v a'; unfold RoutingTable.member; cbn [fst snd]; eval_field_match;
  cbn iota;
  match goal with
  | |- context [bind ?r _] => destruct r; cbn [bind]
  end; intros H; now inversion H.

Lemma table_member_keeps_ID :
  forall a kv a', field_match "id" (fst kv) = false ->
    RoutingTable.member a kv = Ok a' -> RoutingTable.ID a' = RoutingTable.ID a.
Proof. table_keeps. Qed.

Lemma table_member_sets_ID :
  forall a v a', RoutingTable.member a ("id", v) = Ok a' ->
    unmarshal_string (RoutingTable.ID a) v = Ok (RoutingTable.ID a').
Proof. table_sets. Qed.

Lemma table_member_keeps_Name :
  forall a kv a', field_match "name" (fst kv) = false ->
    RoutingTable.member a kv = Ok a' -> RoutingTable.Name a' = RoutingTable.Name a.
Proof. table_keeps. Qed.

Lemma table_member_sets_Name :
  forall a v a', RoutingTable.member a ("name", v) = Ok a' ->
    unmarshal_string (RoutingTable.Name a) v = Ok (RoutingTable.Name a').
Proof. table_sets. Qed.

Lemma table_member_keeps_DefaultTable :
  forall a kv a', field_match "default_table" (fst kv) = false ->
    RoutingTable.member a kv = Ok a' -> RoutingTable.DefaultTable a' = RoutingTable.DefaultTable a.
Proof. table_keeps. Qed.

Lemma table_member_sets_DefaultTable :
  forall a v a', RoutingTable.member a ("default_table", v) = Ok a' ->
    unmarshal_bool (RoutingTable.DefaultTable a) v = Ok (RoutingTable.DefaultTable a').
Proof. table_sets. Qed.

Lemma table_member_keeps_Distributed :
  forall a kv a', field_match "distributed" (fst kv) = false ->
    RoutingTable.member a kv = Ok a' -> RoutingTable.Distributed a' = RoutingTable.Distributed a.
Proof. table_keeps. Qed.

Lemma table_member_sets_Distributed :
  forall a v a', RoutingTable.member a ("distributed", v) = Ok a' ->
    unmarshal_bool (RoutingTable.Distributed a) v = Ok (RoutingTable.Distributed a').
Proof. table_sets. Qed.

Lemma table_member_keeps_GatewayID :
  forall a kv a', field_match "gateway_id" (fst kv) = false ->
    RoutingTable.member a kv = Ok a' -> RoutingTable.GatewayID a' = RoutingTable.GatewayID a.
Proof. table_keeps. Qed.

Lemma table_member_sets_GatewayID :
  forall a v a', RoutingTable.member a ("gateway_id", v) = Ok a' ->
    unmarshal_string (RoutingTable.GatewayID a) v = Ok (RoutingTable.GatewayID a').
Proof. table_sets. Qed.

Lemma table_member_keeps_GatewayName :
  forall a kv a', field_match "gateway_name" (fst kv) = false ->
    RoutingTable.member a kv = Ok a' -> RoutingTable.GatewayName a' = RoutingTable.GatewayName a.
Proof. table_keeps. Qed.

Lemma table_member_sets_GatewayName :
  forall a v a', RoutingTable.member a ("gateway_name", v) = Ok a' ->
    unmarshal_string (RoutingTable.GatewayName a) v = Ok (RoutingTable.GatewayName a').
Proof. table_sets. Qed.

Lemma table_member_keeps_TenantID :
  forall a kv a', field_match "tenant_id" (fst kv) = false ->
    RoutingTable.member a kv = Ok a' -> RoutingTable.TenantID a' = RoutingTable.TenantID a.
Proof. table_keeps. Qed.

Lemma table_member_sets_TenantID :
  forall a v a', RoutingTable.member a ("tenant_id", v) = Ok a' ->
    unmarshal_string (RoutingTable.TenantID a) v = Ok (RoutingTable.TenantID a').
Proof. table_sets. Qed.

Lemma table_member_keeps_State :
  forall a kv a', field_match "state" (fst kv) = false ->
    RoutingTable.member a kv = Ok a' -> RoutingTable.State a' = RoutingTable.State a.
Proof. table_keeps. Qed.

Lemma table_member_sets_State :
  forall a v a', RoutingTable.member a ("state", v) = Ok a' ->
    unmarshal_string (RoutingTable.State a) v = Ok (RoutingTable.State a').
Proof. table_sets. Qed.

Lemma table_member_keeps_CreateTime :
  forall a kv a', field_match "create_time" (fst kv) = false ->
    RoutingTable.member a kv = Ok a' -> RoutingTable.CreateTime a' = RoutingTable.CreateTime a.
Proof. table_keeps. Qed.

Lemma table_member_sets_CreateTime :
  forall a v a', RoutingTable.member a ("create_time", v) = Ok a' ->
    (fun ct v => NHNCloudTime.UnmarshalJSON ct (rawText v)) (RoutingTable.CreateTime a) v = Ok (RoutingTable.CreateTime a').
Proof. table_sets. Qed.

Lemma table_member_keeps_VPCs :
  forall a kv a', field_match "vpcs" (fst kv) = false ->
    RoutingTable.member a kv = Ok a' -> RoutingTable.VPCs a' = RoutingTable.VPCs a.
Proof. table_keeps. Qed.

Lemma table_member_sets_VPCs :
  forall a v a', RoutingTable.member a ("vpcs", v) = Ok a' ->
    (fun _ v => unmarshal_slice (FlexibleVPCInfo.UnmarshalJSON FlexibleVPCInfo.zero) v) (RoutingTable.VPCs a) v = Ok (RoutingTable.VPCs a').
Proof. table_sets. Qed.

Lemma table_member_keeps_Subnets :
  forall a kv a', field_match "subnets" (fst kv) = false ->
    RoutingTable.member a kv = Ok a' -> RoutingTable.Subnets a' = RoutingTable.Subnets a.
Proof. table_keeps. Qed.

Lemma table_member_sets_Subnets :
  forall a v a', RoutingTable.member a ("subnets", v) = Ok a' ->
    (fun _ v => unmarshal_slice (FlexibleSubnetInfo.UnmarshalJSON FlexibleSubnetInfo.zero) v) (RoutingTable.Subnets a) v = Ok (RoutingTable.Subnets a').
Proof. table_sets. Qed.

Lemma table_member_keeps_Routes :
  forall a kv a', field_match "routes" (fst kv) = false ->
    RoutingTable.member a kv = Ok a' -> RoutingTable.Routes a' = RoutingTable.Routes a.
Proof. table_keeps. Qed.

Lemma table_member_sets_Routes :
  forall a v a', RoutingTable.member a ("routes", v) = Ok a' ->
    (fun _ v => unmarshal_slice (unmarshal_struct Route.member Route.zero) v) (RoutingTable.Routes a) v = Ok (RoutingTable.Routes a').
Proof. table_sets. Qed.

(** X19: What the strict decoder stores when it accepts a routing-table
    object with plain keys.  Every string or boolean field holds the value
    of its member, or the zero value when the member is absent or null.  The
    timestamp and the three lists are what their own decoders return for
    their member, and zero or empty when there is no such member. *)
Theorem strict_decode_fields :
  forall (members : list (string * json)) (rt : RoutingTable.t),
    plainKeys ["id"; "name"; "default_table"; "distributed"; "gateway_id";
               "gateway_name"; "tenant_id"; "state"; "create_time"; "vpcs";
               "subnets"; "routes"] members = true ->
    RoutingTable.unmarshal RoutingTable.zero (JObj members) = Ok rt ->
    RoutingTable.ID rt = strField "id" members
    /\ RoutingTable.Name rt = strField "name" members
    /\ RoutingTable.DefaultTable rt = boolField "default_table" members
    /\ RoutingTable.Distributed rt = boolField "distributed" members
    /\ RoutingTable.GatewayID rt = strField "gateway_id" members
    /\ RoutingTable.GatewayName rt = strField "gateway_name" members
    /\ RoutingTable.TenantID rt = strField "tenant_id" members
    /\ RoutingTable.State rt = strField "state" members
    /\ match lookup "create_time" members with
       | Some v =>
           NHNCloudTime.UnmarshalJSON NHNCloudTime.zero (rawText v)
           = Ok (RoutingTable.CreateTime rt)
       | None => RoutingTable.CreateTime rt = NHNCloudTime.zero
       end
    /\ match lookup "vpcs" members with
       | Some v =>
           unmarshal_slice (FlexibleVPCInfo.UnmarshalJSON FlexibleVPCInfo.zero) v
           = Ok (RoutingTable.VPCs rt)
       | None => RoutingTable.VPCs rt = []
       end
    /\ match lookup "subnets" members with
       | Some v =>
           unmarshal_slice
             (FlexibleSubnetInfo.UnmarshalJSON FlexibleSubnetInfo.zero) v
           = Ok (RoutingTable.Subnets rt)
       | None => RoutingTable.Subnets rt = []
       end
    /\ match lookup "routes" members with
       | Some v =>
           unmarshal_slice (unmarshal_struct Route.member Route.zero) v
           = Ok (RoutingTable.Routes rt)
       | None => RoutingTable.Routes rt = []
       end.
Proof.
  intros m rt Hp Hrt. unfold RoutingTable.unmarshal in Hrt.
  cbn [unmarshal_struct] in Hrt. rewrite !plainKeys_cons in Hp.
  repeat match type of Hp with
         | _ && _ = true =>
             let H := fresh "Hk" in apply andb_true_iff in Hp as [H Hp]
         end.
  pose proof (strField_value "id" m _
                (fold_field RoutingTable.member "id" RoutingTable.ID unmarshal_string
                   eq_refl table_member_keeps_ID table_member_sets_ID
                   m _ _ Hk Hrt)) as HID.
  pose proof (strField_value "name" m _
                (fold_field RoutingTable.member "name" RoutingTable.Name unmarshal_string
                   eq_refl table_member_keeps_Name table_member_sets_Name
                   m _ _ Hk0 Hrt)) as HName.
  pose proof (boolField_value "default_table" m _
                (fold_field RoutingTable.member "default_table" RoutingTable.DefaultTable unmarshal_bool
                   eq_refl table_member_keeps_DefaultTable table_member_sets_DefaultTable
                   m _ _ Hk1 Hrt)) as HDefaultTable.
  pose proof (boolField_value "distributed" m _
                (fold_field RoutingTable.member "distributed" RoutingTable.Distributed unmarshal_bool
                   eq_refl table_member_keeps_Distributed table_member_sets_Distributed
                   m _ _ Hk2 Hrt)) as HDistributed.
  pose proof (strField_value "gateway_id" m _
                (fold_field RoutingTable.member "gateway_id" RoutingTable.GatewayID unmarshal_string
                   eq_refl table_member_keeps_GatewayID table_member_sets_GatewayID
                   m _ _ Hk3 Hrt)) as HGatewayID.
  pose proof (strField_value "gateway_name" m _
                (fold_field RoutingTable.member "gateway_name" RoutingTable.GatewayName unmarshal_string
                   eq_refl table_member_keeps_GatewayName table_member_sets_GatewayName
                   m _ _ Hk4 Hrt)) as HGatewayName.
  pose proof (strField_value "tenant_id" m _
                (fold_field RoutingTable.member "tenant_id" RoutingTable.TenantID unmarshal_string
                   eq_refl table_member_keeps_TenantID table_member_sets_TenantID
                   m _ _ Hk5 Hrt)) as HTenantID.
  pose proof (strField_value "state" m _
                (fold_field RoutingTable.member "state" RoutingTable.State unmarshal_string
                   eq_refl table_member_keeps_State table_member_sets_State
                   m _ _ Hk6 Hrt)) as HState.
  pose proof (fold_field RoutingTable.member "create_time" RoutingTable.CreateTime
                (fun ct v => NHNCloudTime.UnmarshalJSON ct (rawText v))
                eq_refl table_member_keeps_CreateTime table_member_sets_CreateTime
                m _ _ Hk7 Hrt) as HCreateTime.
  pose proof (fold_field RoutingTable.member "vpcs" RoutingTable.VPCs
                (fun _ v => unmarshal_slice (FlexibleVPCInfo.UnmarshalJSON FlexibleVPCInfo.zero) v)
                eq_refl table_member_keeps_VPCs table_member_sets_VPCs
                m _ _ Hk8 Hrt) as HVPCs.
  pose proof (fold_field RoutingTable.member "subnets" RoutingTable.Subnets
                (fun _ v => unmarshal_slice (FlexibleSubnetInfo.UnmarshalJSON FlexibleSubnetInfo.zero) v)
                eq_refl table_member_keeps_Subnets table_member_sets_Subnets
                m _ _ Hk9 Hrt) as HSubnets.
  pose proof (fold_field RoutingTable.member "routes" RoutingTable.Routes
                (fun _ v => unmarshal_slice (unmarshal_struct Route.member Route.zero) v)
                eq_refl table_member_keeps_Routes table_member_sets_Routes
                m _ _ Hk10 Hrt) as HRoutes.
  cbn beta in *. cbn [RoutingTable.zero RoutingTable.CreateTime RoutingTable.VPCs
         RoutingTable.Subnets RoutingTable.Routes] in HCreateTime, HVPCs, HSubnets, HRoutes.
  do 8 (split; [congruence|]).
  split; [exact HCreateTime|]. split; [exact HVPCs|]. split; [exact HSubnets|].
  exact HRoutes.
Qed.

Lemma strict_decode_fields_witness :
  RoutingTable.ID
    (RoutingTable.set_VPCs (RoutingTable.set_ID RoutingTable.zero "rt-1")
       [FlexibleVPCInfo.mk "vpc-1" ""])
  = strField "id" [("id", JStr "rt-1"); ("vpcs", JArr [JStr "vpc-1"])].
Proof.
  apply (strict_decode_fields
           [("id", JStr "rt-1"); ("vpcs", JArr [JStr "vpc-1"])]
           (RoutingTable.set_VPCs (RoutingTable.set_ID RoutingTable.zero "rt-1")
              [FlexibleVPCInfo.mk "vpc-1" ""]));
    reflexivity.
Defined.

(** ** The errors of package openstack *)

Lemma As_chain (err : Openstack.goerror) (e : Openstack.ErrUnexpectedResponseCode) :
  Openstack.As err = Some e <-> In (Openstack.CodeError e) (chain err).
Proof.
  induction err as [e0|msg|msg inner IH]; cbn [Openstack.As chain In].
  - split; [intros H; injection H as ->; now left
           | intros [H | []]; now injection H as ->].
  - split; [discriminate | intros [H | []]; discriminate].
  - rewrite IH. split; [now right | intros [H | H]; [discriminate | exact H]].
Qed.

(** X20: [ResponseCodeIs] is false for the nil error.  For any other
    error it is true exactly when the chain of the error holds an
    [ErrUnexpectedResponseCode] whose actual code is the given status,
    however deeply it is wrapped; so it is true for at most one status. *)
Theorem response_code_is_sees_through_wrapping :
  (forall status, Openstack.ResponseCodeIs None status = false)
  /\ (forall err status,
         Openstack.ResponseCodeIs (Some err) status = true
         <-> exists e, In (Openstack.CodeError e) (chain err)
                       /\ Openstack.Actual e = status)
  /\ (forall err s1 s2,
         Openstack.ResponseCodeIs err s1 = true ->
         Openstack.ResponseCodeIs err s2 = true -> s1 = s2).
Proof.
  split; [reflexivity|]. split.
  - intros err status. unfold Openstack.ResponseCodeIs.
    destruct (Openstack.As err) as [e|] eqn:E.
    + apply As_chain in E. rewrite Z.eqb_eq. split.
      * intros H. now exists e.
      * intros (e' & Hin & He'). apply As_chain in Hin, E. congruence.
    + split; [discriminate|]. intros (e' & Hin & _).
      apply As_chain in Hin. congruence.
  - intros [err|] s1 s2; [|discriminate]. unfold Openstack.ResponseCodeIs.
    destruct (Openstack.As err); [|discriminate].
    rewrite !Z.eqb_eq. congruence.
Qed.

Lemma response_code_is_sees_through_wrapping_witness :
  Openstack.ResponseCodeIs
    (Some (Openstack.WrapError "listing routing tables"
             (Openstack.CodeError
                (Openstack.mkErrUnexpectedResponseCode
                   (Openstack.mkBaseError "" "") "http://api/routingtables"
                   "GET" [200] 404 "" [])))) 404 = true.
Proof.
  apply (proj1 (proj2 response_code_is_sees_through_wrapping)).
  eexists. split; [right; left; reflexivity | reflexivity].
Defined.

(** X21: [BaseError.Error] and [ErrTimeOut.Error] never return the empty
    string and never show the [DefaultErrString] of the receiver: they
    overwrite it in their copy.  They return [Info] when it is set, and then
    agree; otherwise each returns its own fixed text.  [choseErrString]
    alone returns the [DefaultErrString] of the receiver when [Info] is
    empty. *)
Theorem error_text_ignores_default_string :
  forall e : Openstack.BaseError,
    Openstack.BaseError_Error e <> ""
    /\ Openstack.ErrTimeOut_Error e <> ""
    /\ (forall d,
           Openstack.BaseError_Error
             (Openstack.mkBaseError d (Openstack.Info e))
           = Openstack.BaseError_Error e
           /\ Openstack.ErrTimeOut_Error
                (Openstack.mkBaseError d (Openstack.Info e))
              = Openstack.ErrTimeOut_Error e)
    /\ (Openstack.BaseError_Error e = Openstack.ErrTimeOut_Error e
        <-> Openstack.Info e <> "")
    /\ (Openstack.Info e = "" ->
        Openstack.choseErrString e = Openstack.DefaultErrString e).
Proof.
  intros [d i].
  unfold Openstack.BaseError_Error, Openstack.ErrTimeOut_Error,
    Openstack.choseErrString. cbn [Openstack.Info Openstack.DefaultErrString].
  destruct (String.eqb i "") eqn:E; cbn [negb].
  - apply String.eqb_eq in E. subst i.
    split; [discriminate|]. split; [discriminate|].
    split; [intros d'; split; reflexivity|].
    split; [|reflexivity].
    split; [discriminate | intros H; now contradiction H].
  - apply String.eqb_neq in E.
    split; [exact E|]. split; [exact E|].
    split; [intros d'; split; reflexivity|].
    split; [|intros H; now contradiction E].
    split; [intros _; exact E | reflexivity].
Qed.

Lemma error_text_ignores_default_string_witness :
  Openstack.BaseError_Error (Openstack.mkBaseError "ignored" "quota exceeded")
  = Openstack.ErrTimeOut_Error (Openstack.mkBaseError "ignored" "quota exceeded").
Proof.
  apply (proj2 (proj1 (proj2 (proj2 (proj2
           (error_text_ignores_default_string
              (Openstack.mkBaseError "ignored" "quota exceeded"))))))).
  discriminate.
Defined.
